(** * free_disk_space.py: a shallow embedding and its properties

    The script reclaims disk space on a CI host: it measures the space
    that is available ([df -a]), runs a fixed sequence of optional
    clean-up stages made of external commands, measures again and prints
    how much each stage and the whole run saved.

    The embedding follows the script function by function.  Text is a
    [string] whose characters stand for the code points below 256; the
    operating system (every [subprocess.run]) and the [sentry_sdk]
    library are parameters of the development; every interaction with
    them and every printed line is recorded in a trace.

    A call into [sentry_sdk] may raise, as any call may; the script
    guards none of them.  The properties of results and transcripts are
    stated for a library that returns from every call ([quiet]), and
    those of whole runs for a host on which every command can be started
    ([all_started]); what happens otherwise is shown on examples. *)

From Stdlib Require Import ZArith List String Ascii Bool Lia Arith.
From Stdlib Require Import DecimalString DecimalPos DecimalZ Permutation.
Import ListNotations.

Local Open Scope string_scope.
Local Open Scope Z_scope.

(** ** Python's string primitives *)

Module Py.

(** [str.isspace] on one character (code points below 256): tab, line
    feed, vertical tab, form feed, carriage return, the four separator
    controls, space, NEL and the no-break space. *)
Definition isspace (c : ascii) : bool :=
  let n := nat_of_ascii c in
  ((9 <=? n) && (n <=? 13) || (28 <=? n) && (n <=? 32)
   || (n =? 133) || (n =? 160))%nat.

(** [s.lstrip()] *)
Fixpoint lstrip (s : string) : string :=
  match s with
  | EmptyString => EmptyString
  | String c r => if isspace c then lstrip r else s
  end.

(** [s.rstrip()] *)
Fixpoint rstrip (s : string) : string :=
  match s with
  | EmptyString => EmptyString
  | String c r =>
      match rstrip r with
      | EmptyString => if isspace c then EmptyString else String c EmptyString
      | r' => String c r'
      end
  end.

(** [s.strip()] *)
Definition strip (s : string) : string := rstrip (lstrip s).

(** [s.split(sep)] for a one-character separator: never empty. *)
Fixpoint split_on (sep : ascii) (s : string) : list string :=
  match s with
  | EmptyString => [EmptyString]
  | String c r =>
      if Ascii.eqb c sep then EmptyString :: split_on sep r
      else match split_on sep r with
           | h :: t => String c h :: t
           | [] => [String c EmptyString]
           end
  end.

(** [s.split()]: the maximal runs of non-blank characters. [word] is the
    run being read. *)
Fixpoint split_go (word : string) (s : string) : list string :=
  match s with
  | EmptyString => match word with EmptyString => [] | _ => [word] end
  | String c r =>
      if isspace c
      then match word with
           | EmptyString => split_go EmptyString r
           | _ => word :: split_go EmptyString r
           end
      else split_go (word ++ String c EmptyString) r
  end.

Definition split (s : string) : list string := split_go EmptyString s.

(** [sep.join(parts)] *)
Definition join (sep : string) (parts : list string) : string :=
  String.concat sep parts.

(** [char * num] *)
Fixpoint repeat_str (s : string) (num : nat) : string :=
  match num with
  | O => EmptyString
  | S k => s ++ repeat_str s k
  end.

(** [s.replace(a, b)] for one-character [a] and [b]. *)
Fixpoint replace (a b : ascii) (s : string) : string :=
  match s with
  | EmptyString => EmptyString
  | String c r => String (if Ascii.eqb c a then b else c) (replace a b r)
  end.

(** Case mappings of one character.  Below 256 the lower-case mapping is
    total: A-Z and the accented capitals (except the multiplication
    sign) move up by 32. *)
Definition lower_char (c : ascii) : ascii :=
  let n := nat_of_ascii c in
  if ((65 <=? n) && (n <=? 90)
      || (192 <=? n) && (n <=? 222) && negb (n =? 215))%nat
  then ascii_of_nat (n + 32) else c.

(** The upper-case mapping of an ASCII character.  [str.upper] maps
    other letters too, some of them out of this range or to two letters,
    so that [upper] stands for it on ASCII strings only: the properties
    on the names of flags are stated for the names that [isascii]
    accepts, as the seven names of the script are. *)
Definition upper_char (c : ascii) : ascii :=
  let n := nat_of_ascii c in
  if ((97 <=? n) && (n <=? 122))%nat then ascii_of_nat (n - 32) else c.

Fixpoint map_str (f : ascii -> ascii) (s : string) : string :=
  match s with
  | EmptyString => EmptyString
  | String c r => String (f c) (map_str f r)
  end.

Definition lower : string -> string := map_str lower_char.
Definition upper : string -> string := map_str upper_char.

(** [str(n)] for an integer. *)
Definition str (n : Z) : string := NilZero.string_of_int (Z.to_int n).

(** The value of a decimal digit. *)
Definition digit_of (c : ascii) : option Z :=
  let n := nat_of_ascii c in
  if ((48 <=? n) && (n <=? 57))%nat then Some (Z.of_nat (n - 48)) else None.

(** The digits of an integer literal, with single underscores allowed
    between digits.  [prev] tells whether the previous character was a
    digit; the count of digits read is returned with the value. *)
Fixpoint int_digits (acc : Z) (prev : bool) (ndigits : nat) (s : string)
  : option (Z * nat) :=
  match s with
  | EmptyString => if prev then Some (acc, ndigits) else None
  | String c r =>
      match digit_of c with
      | Some d => int_digits (10 * acc + d) true (S ndigits) r
      | None =>
          if Ascii.eqb c "_" && prev then int_digits acc false ndigits r
          else None
      end
  end.

(** The interpreter's default limit on the digits of a converted
    literal ([sys.get_int_max_str_digits()]). *)
Definition int_max_str_digits : nat := 4300.

Definition int_unsigned (s : string) : option Z :=
  match int_digits 0 false 0 s with
  | Some (v, n) => if (n <=? int_max_str_digits)%nat then Some v else None
  | None => None
  end.

(** [int(s)]: [None] stands for [ValueError]. *)
Definition int (s : string) : option Z :=
  match strip s with
  | String "-" r => option_map Z.opp (int_unsigned r)
  | String "+" r => int_unsigned r
  | r => int_unsigned r
  end.

(** [s.startswith(p)] *)
Fixpoint startswith (p s : string) : bool :=
  match p with
  | EmptyString => true
  | String a p' =>
      match s with
      | EmptyString => false
      | String b s' => Ascii.eqb a b && startswith p' s'
      end
  end.

(** Truth value of a string: the empty string is false. *)
Definition truthy (s : string) : bool :=
  match s with EmptyString => false | _ => true end.

(** [s.isascii()] *)
Fixpoint isascii (s : string) : bool :=
  match s with
  | EmptyString => true
  | String c r => (nat_of_ascii c <? 128)%nat && isascii r
  end.

End Py.

(** ** Values, exceptions and the two collaborators *)

(** The values the script hands to the telemetry library. *)
Inductive py_value : Type :=
| VInt (n : Z)
| VStr (s : string)
| VBool (b : bool)
| VNone.

(** The exceptions that can travel through the script.
    [CalledProcessError] is raised by [subprocess.run(check=True)] on a
    non-zero exit status; [OSError] stands for every failure of
    [subprocess.run] itself (the executable cannot be started, its output
    cannot be decoded); [AttributeError] is reading [.strip] of a missing
    [stdout]; [SentryError] is an exception raised inside [sentry_sdk]. *)
Inductive exn : Type :=
| CalledProcessError (returncode : Z) (cmd : list string)
| OSError (msg : string)
| AttributeError
| SentryError (msg : string).

(** What one [subprocess.run] call meets: the process ran and terminated
    with an exit status and an output text, or the call itself failed. *)
Inductive Outcome : Type :=
| Exited (returncode : Z) (output : string)
| Failed (msg : string).

(** The operating system: a state and the effect of running a command. *)
Class OS : Type := {
  World : Type;
  spawn : list string -> World -> Outcome * World
}.

(** A span (or transaction) of the telemetry library. *)
Record Span : Type := mkSpan { description : string; op : string }.

(** The calls the script makes into [sentry_sdk]. *)
Inductive SdkCall : Type :=
| sdk_init (dsn environment release : string)
| sdk_set_tag (key value : string)
| sdk_start_span (span : Span)
| sdk_start_transaction (span : Span)
| sdk_span_set_data (span : Span) (key : string) (value : py_value)
| sdk_span_set_tag (span : Span) (key value : string)
| sdk_span_exit (span : Span) (exc : option exn)
| sdk_push_scope
| sdk_scope_set_extra (key : string) (value : py_value)
| sdk_scope_exit (exc : option exn)
| sdk_capture_exception (e : exn).

(** The telemetry library: a state and the effect of each call, which
    may raise (the message of the exception is returned). *)
Class Sentry : Type := {
  Sdk : Type;
  sentry_sdk : SdkCall -> Sdk -> option string * Sdk
}.

(** Everything the run does to the outside, in order. *)
Inductive Event : Type :=
| EvPrint (line : string)
| EvSpawn (cmd : list string) (captured : bool) (out : Outcome)
| EvSdk (call : SdkCall).

Inductive Result (A : Type) : Type :=
| Ok (a : A)
| Raise (e : exn).
Arguments Ok {A} a.
Arguments Raise {A} e.

Record CompletedProcess : Type := mkCompleted {
  returncode : Z;
  stdout : option string
}.

(** ** The script *)

Section Script.

Context {os : OS} {sentry : Sentry}.

(** [os.environ] *)
Variable environ : string -> option string.

Record State : Type := mkState {
  world : World;
  sdk : Sdk;
  trace : list Event
}.

(** A computation: it changes the state and returns or raises. *)
Definition M (A : Type) : Type := State -> Result A * State.

Definition ret {A} (a : A) : M A := fun st => (Ok a, st).

Definition raise {A} (e : exn) : M A := fun st => (Raise e, st).

Definition bind {A B} (m : M A) (f : A -> M B) : M B :=
  fun st =>
    match m st with
    | (Ok a, st') => f a st'
    | (Raise e, st') => (Raise e, st')
    end.

(** Run [m] and hand back how it ended, as a value. *)
Definition attempt {A} (m : M A) : M (Result A) :=
  fun st => let (r, st') := m st in (Ok r, st').

Definition lift {A} (r : Result A) : M A :=
  match r with Ok a => ret a | Raise e => raise e end.

Definition raised {A} (r : Result A) : option exn :=
  match r with Ok _ => None | Raise e => Some e end.

Local Notation "x <- m ;; k" := (bind m (fun x => k))
  (at level 61, m at next level, right associativity).
Local Notation "m ;; k" := (bind m (fun _ => k))
  (at level 61, right associativity).

Definition when (b : bool) (m : M unit) : M unit :=
  if b then m else ret tt.

Fixpoint for_each {A} (l : list A) (body : A -> M unit) : M unit :=
  match l with
  | [] => ret tt
  | x :: r => body x ;; for_each r body
  end.

Definition enumerate {A} (l : list A) : list (nat * A) :=
  combine (seq 0 (List.length l)) l.

(** [print(line)] *)
Definition print (line : string) : M unit :=
  fun st => (Ok tt, mkState (world st) (sdk st) (trace st ++ [EvPrint line])).

(** A call into [sentry_sdk]. *)
Definition call_sdk (c : SdkCall) : M unit :=
  fun st =>
    let (r, s') := sentry_sdk c (sdk st) in
    let st' := mkState (world st) s' (trace st ++ [EvSdk c]) in
    match r with
    | None => (Ok tt, st')
    | Some msg => (Raise (SentryError msg), st')
    end.

(** [subprocess.run(cmd, capture_output=..., text=True, check=...)].
    Without capture the child writes to the console and [stdout] is
    [None]. *)
Definition subprocess_run (cmd : list string) (capture_output check : bool)
  : M CompletedProcess :=
  fun st =>
    let (o, w') := spawn cmd (world st) in
    let st' := mkState w' (sdk st) (trace st ++ [EvSpawn cmd capture_output o]) in
    match o with
    | Failed msg => (Raise (OSError msg), st')
    | Exited rc out =>
        if check && negb (rc =? 0)
        then (Raise (CalledProcessError rc cmd), st')
        else (Ok (mkCompleted rc (if capture_output then Some out else None)), st')
    end.

(** [result.stdout.strip()] *)
Definition stdout_strip (result : CompletedProcess) : M string :=
  match stdout result with
  | Some text => ret (Py.strip text)
  | None => raise AttributeError
  end.

(** [with <enter> as span: body]: the exit call sees the exception of
    the body, which then goes on; an exception of the exit call takes
    its place. *)
Definition with_ctx {A} (enter : SdkCall) (exit : option exn -> SdkCall)
  (body : M A) : M A :=
  call_sdk enter ;;
  r <- attempt body ;;
  call_sdk (exit (raised r)) ;;
  lift r.

Definition with_span {A} (description op : string) (body : Span -> M A) : M A :=
  let span := mkSpan description op in
  with_ctx (sdk_start_span span) (sdk_span_exit span) (body span).

Definition with_transaction {A} (op name : string) (body : Span -> M A) : M A :=
  let transaction := mkSpan name op in
  with_ctx (sdk_start_transaction transaction) (sdk_span_exit transaction)
    (body transaction).

Definition set_data (span : Span) (key : string) (value : py_value) : M unit :=
  call_sdk (sdk_span_set_data span key value).

(** [os.environ.get(key, default)] *)
Definition environ_get (key default : string) : string :=
  match environ key with Some v => v | None => default end.

Definition SENTRY_DSN : string := environ_get "SENTRY_DSN" EmptyString.

(** Lines 10-20: the telemetry session is opened only when a DSN is set. *)
Definition init_sentry : M unit :=
  when (Py.truthy SENTRY_DSN) (
    call_sdk (sdk_init SENTRY_DSN
                (environ_get "GITHUB_ENVIRONMENT" "production")
                (environ_get "GITHUB_SHA" "unknown")) ;;
    call_sdk (sdk_set_tag "github.repository" (environ_get "GITHUB_REPOSITORY" "unknown")) ;;
    call_sdk (sdk_set_tag "github.workflow" (environ_get "GITHUB_WORKFLOW" "unknown")) ;;
    call_sdk (sdk_set_tag "github.run_id" (environ_get "GITHUB_RUN_ID" "unknown"))).

Definition print_separation_line (char : string) (num : nat) : M unit :=
  print (Py.repeat_str char num).

(** The body of the loop of [get_available_space] (lines 43-48). *)
Definition add_line (total_avail : Z) (line : string) : Z :=
  let parts := Py.split line in
  if (4 <=? List.length parts)%nat then
    match Py.int (nth 3 parts EmptyString) with
    | Some v => total_avail + v
    | None => total_avail
    end
  else total_avail.

(** Lines 39-48: the rows after the header, accumulated. *)
Definition sum_available (text : string) : Z :=
  let lines := tl (Py.split_on "010" text) in
  fold_left add_line lines 0.

Definition df_cmd (path : option string) : list string :=
  ["df"; "-a"] ++ match path with
                  | Some p => if Py.truthy p then [p] else []
                  | None => []
                  end.

Definition get_available_space (path : option string) : M Z :=
  with_span ("Get available space: " ++
             match path with
             | Some p => if Py.truthy p then p else "all"
             | None => "all"
             end) "disk.space" (fun span =>
    let cmd := df_cmd path in
    match path with
    | Some p => when (Py.truthy p) (set_data span "path" (VStr p))
    | None => ret tt
    end ;;
    result <- subprocess_run cmd true false ;;
    text <- stdout_strip result ;;
    let total_avail := sum_available text in
    set_data span "available_kb" (VInt total_avail) ;;
    ret total_avail).

Definition numfmt_cmd (kb : Z) : list string :=
  ["numfmt"; "--to=iec-i"; "--suffix=B"; "--padding=7"; Py.str kb ++ "000"].

Definition format_byte_count (kb : Z) : M string :=
  with_span "Format byte count" "utility.format" (fun span =>
    set_data span "kb_input" (VInt kb) ;;
    result <- subprocess_run (numfmt_cmd kb) true false ;;
    formatted <- stdout_strip result ;;
    set_data span "formatted_output" (VStr formatted) ;;
    ret formatted).

Definition print_saved_space (saved : Z) (title : option string) : M unit :=
  with_span "Print saved space" "utility.report" (fun span =>
    match title with
    | Some t => when (Py.truthy t) (set_data span "title" (VStr t))
    | None => ret tt
    end ;;
    set_data span "saved_kb" (VInt saved) ;;
    print EmptyString ;;
    print_separation_line "*" 80 ;;
    match title with
    | Some (String c t) =>
        formatted <- format_byte_count saved ;;
        print ("=> " ++ String c t ++ ": Saved " ++ formatted)
    | _ =>
        formatted <- format_byte_count saved ;;
        print ("=> Saved " ++ formatted)
    end ;;
    print_separation_line "*" 80 ;;
    print EmptyString).

Definition print_dh (caption : option string) : M unit :=
  with_span "Print disk usage" "disk.report" (fun span =>
    match caption with
    | Some c => when (Py.truthy c) (set_data span "caption" (VStr c))
    | None => ret tt
    end ;;
    print_separation_line "=" 80 ;;
    match caption with
    | Some (String a c) => print (String a c) ;; print EmptyString
    | _ => ret tt
    end ;;
    print "$ df -h /" ;;
    print EmptyString ;;
    subprocess_run ["df"; "-h"; "/"] false false ;;
    print "$ df -a /" ;;
    print EmptyString ;;
    subprocess_run ["df"; "-a"; "/"] false false ;;
    print "$ df -a" ;;
    print EmptyString ;;
    subprocess_run ["df"; "-a"] false false ;;
    print_separation_line "=" 80).

Definition run_command (cmd : list string) (error_msg : option string) : M bool :=
  r <- attempt (
    with_span ("Command: " ++ Py.join " " cmd) "command" (fun span =>
      set_data span "command" (VStr (Py.join " " cmd)) ;;
      subprocess_run cmd false true ;;
      set_data span "status" (VStr "success") ;;
      ret true)) ;;
  match r with
  | Ok b => ret b
  | Raise (CalledProcessError rc c) =>
      match error_msg with
      | Some m => when (Py.truthy m) (print ("::warning::" ++ m))
      | None => ret tt
      end ;;
      when (Py.truthy SENTRY_DSN)
        (with_ctx sdk_push_scope sdk_scope_exit (
           call_sdk (sdk_scope_set_extra "command" (VStr (Py.join " " cmd))) ;;
           call_sdk (sdk_scope_set_extra "returncode" (VInt rc)) ;;
           call_sdk (sdk_scope_set_extra "stderr" VNone) ;;
           call_sdk (sdk_capture_exception (CalledProcessError rc c)))) ;;
      ret false
  | Raise e => raise e
  end.

Definition get_input (name default : string) : bool :=
  let var_name := "INPUT_" ++ Py.upper (Py.replace "-" "_" name) in
  String.eqb (Py.lower (environ_get var_name default)) "true".

(** Lines 132-139 *)
Definition cleanup_init : M (Z * Z) :=
  with_span "Initial space measurement" "cleanup.init" (fun span =>
    available_initial <- get_available_space None ;;
    available_root_initial <- get_available_space (Some "/") ;;
    set_data span "initial_kb" (VInt available_initial) ;;
    set_data span "initial_root_kb" (VInt available_root_initial) ;;
    print_dh (Some "BEFORE CLEAN-UP:") ;;
    print EmptyString ;;
    ret (available_initial, available_root_initial)).

(** Lines 143-150 *)
Definition cleanup_android : M unit :=
  with_span "Remove Android library" "cleanup.android" (fun span =>
    before <- get_available_space None ;;
    run_command ["sudo"; "rm"; "-rf"; "/usr/local/lib/android"] None ;;
    after <- get_available_space None ;;
    let saved := after - before in
    set_data span "saved_kb" (VInt saved) ;;
    formatted <- format_byte_count saved ;;
    set_data span "saved_formatted" (VStr formatted) ;;
    print_saved_space saved (Some "Android library")).

(** Lines 154-161 *)
Definition cleanup_dotnet : M unit :=
  with_span "Remove .NET runtime" "cleanup.dotnet" (fun span =>
    before <- get_available_space None ;;
    run_command ["sudo"; "rm"; "-rf"; "/usr/share/dotnet"] None ;;
    after <- get_available_space None ;;
    let saved := after - before in
    set_data span "saved_kb" (VInt saved) ;;
    formatted <- format_byte_count saved ;;
    set_data span "saved_formatted" (VStr formatted) ;;
    print_saved_space saved (Some ".NET runtime")).

(** Lines 165-173 *)
Definition cleanup_haskell : M unit :=
  with_span "Remove Haskell runtime" "cleanup.haskell" (fun span =>
    before <- get_available_space None ;;
    run_command ["sudo"; "rm"; "-rf"; "/opt/ghc"] None ;;
    run_command ["sudo"; "rm"; "-rf"; "/usr/local/.ghcup"] None ;;
    after <- get_available_space None ;;
    let saved := after - before in
    set_data span "saved_kb" (VInt saved) ;;
    formatted <- format_byte_count saved ;;
    set_data span "saved_formatted" (VStr formatted) ;;
    print_saved_space saved (Some "Haskell runtime")).

(** Lines 181-193 *)
Definition apt_commands : list (list string) :=
  [ ["sudo"; "apt-get"; "remove"; "-y"; "^aspnetcore-.*"];
    ["sudo"; "apt-get"; "remove"; "-y"; "^dotnet-.*"; "--fix-missing"];
    ["sudo"; "apt-get"; "remove"; "-y"; "^llvm-.*"; "--fix-missing"];
    ["sudo"; "apt-get"; "remove"; "-y"; "php.*"; "--fix-missing"];
    ["sudo"; "apt-get"; "remove"; "-y"; "^mongodb-.*"; "--fix-missing"];
    ["sudo"; "apt-get"; "remove"; "-y"; "^mysql-.*"; "--fix-missing"];
    ["sudo"; "apt-get"; "remove"; "-y"; "azure-cli"; "google-chrome-stable";
     "firefox"; "powershell"; "mono-devel"; "libgl1-mesa-dri"; "--fix-missing"];
    ["sudo"; "apt-get"; "remove"; "-y"; "google-cloud-sdk"; "--fix-missing"];
    ["sudo"; "apt-get"; "remove"; "-y"; "google-cloud-cli"; "--fix-missing"];
    ["sudo"; "apt-get"; "autoremove"; "-y"];
    ["sudo"; "apt-get"; "clean"] ].

(** Lines 196-200: one turn of the loop over the package commands;
    [total] is [len(apt_commands)]. *)
Definition run_apt_command (total : nat) (item : nat * list string) : M unit :=
  let (i, cmd) := item in
  with_span ("Package removal " ++ Py.str (Z.of_nat (i + 1)) ++ "/"
             ++ Py.str (Z.of_nat total)) "cleanup.packages.cmd" (fun cmd_span =>
    set_data cmd_span "command" (VStr (Py.join " " cmd)) ;;
    let error_msg := "The command [" ++ Py.join " " cmd
                     ++ "] failed to complete successfully. Proceeding..." in
    success <- run_command cmd (Some error_msg) ;;
    set_data cmd_span "success" (VBool success)).

(** Lines 195-200: the loop, for any list of commands. *)
Definition run_batch (commands : list (list string)) : M unit :=
  for_each (enumerate commands) (run_apt_command (List.length commands)).

(** Lines 177-206 *)
Definition cleanup_packages : M unit :=
  with_span "Remove large packages" "cleanup.packages" (fun span =>
    before <- get_available_space None ;;
    run_batch apt_commands ;;
    after <- get_available_space None ;;
    let saved := after - before in
    set_data span "saved_kb" (VInt saved) ;;
    formatted <- format_byte_count saved ;;
    set_data span "saved_formatted" (VStr formatted) ;;
    print_saved_space saved (Some "Large misc. packages")).

(** Lines 210-217 *)
Definition cleanup_docker : M unit :=
  with_span "Remove Docker images" "cleanup.docker" (fun span =>
    before <- get_available_space None ;;
    run_command ["sudo"; "docker"; "image"; "prune"; "--all"; "--force"] None ;;
    after <- get_available_space None ;;
    let saved := after - before in
    set_data span "saved_kb" (VInt saved) ;;
    formatted <- format_byte_count saved ;;
    set_data span "saved_formatted" (VStr formatted) ;;
    print_saved_space saved (Some "Docker images")).

(** Lines 221-231 *)
Definition cleanup_toolcache : M unit :=
  with_span "Remove tool cache" "cleanup.toolcache" (fun span =>
    before <- get_available_space None ;;
    let agent_tools_dir := environ_get "AGENT_TOOLSDIRECTORY" EmptyString in
    when (Py.truthy agent_tools_dir) (
      set_data span "agent_tools_dir" (VStr agent_tools_dir) ;;
      run_command ["sudo"; "rm"; "-rf"; agent_tools_dir] None ;;
      ret tt) ;;
    after <- get_available_space None ;;
    let saved := after - before in
    set_data span "saved_kb" (VInt saved) ;;
    formatted <- format_byte_count saved ;;
    set_data span "saved_formatted" (VStr formatted) ;;
    print_saved_space saved (Some "Tool cache")).

(** Lines 235-244 *)
Definition cleanup_swap : M unit :=
  with_span "Remove swap storage" "cleanup.swap" (fun span =>
    before <- get_available_space None ;;
    run_command ["sudo"; "swapoff"; "-a"] None ;;
    run_command ["sudo"; "rm"; "-f"; "/mnt/swapfile"] None ;;
    run_command ["free"; "-h"] None ;;
    after <- get_available_space None ;;
    let saved := after - before in
    set_data span "saved_kb" (VInt saved) ;;
    formatted <- format_byte_count saved ;;
    set_data span "saved_formatted" (VStr formatted) ;;
    print_saved_space saved (Some "Swap storage")).

(** Lines 247-267; the total goes on to the transaction. *)
Definition cleanup_stats (available_initial available_root_initial : Z) : M Z :=
  with_span "Calculate final statistics" "cleanup.stats" (fun span =>
    available_end <- get_available_space None ;;
    available_root_end <- get_available_space (Some "/") ;;
    let root_saved := available_root_end - available_root_initial in
    let total_saved := available_end - available_initial in
    set_data span "initial_kb" (VInt available_initial) ;;
    set_data span "final_kb" (VInt available_end) ;;
    set_data span "total_saved_kb" (VInt total_saved) ;;
    formatted <- format_byte_count total_saved ;;
    set_data span "total_saved_formatted" (VStr formatted) ;;
    print EmptyString ;;
    print_dh (Some "AFTER CLEAN-UP:") ;;
    print EmptyString ;;
    print EmptyString ;;
    print "/dev/root:" ;;
    print_saved_space root_saved None ;;
    print "overall:" ;;
    print_saved_space total_saved None ;;
    ret total_saved).

(** Lines 141-244: the seven optional stages, in the order of the
    script. *)
Definition cleanup_stages : M unit :=
  when (get_input "android" "true") cleanup_android ;;
  when (get_input "dotnet" "true") cleanup_dotnet ;;
  when (get_input "haskell" "true") cleanup_haskell ;;
  when (get_input "large-packages" "true") cleanup_packages ;;
  when (get_input "docker-images" "true") cleanup_docker ;;
  when (get_input "tool-cache" "false") cleanup_toolcache ;;
  when (get_input "swap-storage" "true") cleanup_swap.

Definition main : M unit :=
  with_transaction "cleanup" "Disk Space Cleanup" (fun transaction =>
    measured <- cleanup_init ;;
    cleanup_stages ;;
    total_saved <- cleanup_stats (fst measured) (snd measured) ;;
    call_sdk (sdk_span_set_tag transaction "cleanup.success" "true") ;;
    set_data transaction "total_kb_freed" (VInt total_saved) ;;
    formatted <- format_byte_count total_saved ;;
    set_data transaction "total_freed_formatted" (VStr formatted)).

(** The file run as a program: lines 9-20, then lines 274-281. *)
Definition script : M unit :=
  init_sentry ;;
  r <- attempt (with_span "Main execution" "script.main" (fun _ => main)) ;;
  match r with
  | Ok _ => ret tt
  | Raise e =>
      when (Py.truthy SENTRY_DSN) (call_sdk (sdk_capture_exception e)) ;;
      raise e
  end.

End Script.

Arguments State {os sentry}.
Arguments M {os sentry} A.
Arguments mkState {os sentry} world sdk trace.

(** ** The transcript of a run

    What an observer of the console and of the processes sees is the
    trace without the telemetry calls.  The definitions below describe
    the shape of that transcript, piece by piece. *)

Definition is_sdk (e : Event) : bool :=
  match e with EvSdk _ => true | _ => false end.

Definition visible (t : list Event) : list Event :=
  filter (fun e => negb (is_sdk e)) t.

(** The lines written by [print]. *)
Definition printed (t : list Event) : list string :=
  flat_map (fun e => match e with EvPrint l => [l] | _ => [] end) t.

(** The command lines handed to [subprocess.run], with their outcome. *)
Definition spawned (t : list Event) : list (list string * Outcome) :=
  flat_map (fun e => match e with EvSpawn c _ o => [(c, o)] | _ => [] end) t.

(** The measurement read from one report of [df]. *)
Definition measure (report : string) : Z := sum_available (Py.strip report).

Definition stars : string := Py.repeat_str "*" 80.
Definition rule : string := Py.repeat_str "=" 80.

Definition tr_probe (path : option string) (rc : Z) (out : string) : list Event :=
  [EvSpawn (df_cmd path) true (Exited rc out)].

Definition tr_format (kb : Z) (rc : Z) (out : string) : list Event :=
  [EvSpawn (numfmt_cmd kb) true (Exited rc out)].

Definition banner (title : option string) (formatted : string) : string :=
  match title with
  | Some (String c t) => "=> " ++ String c t ++ ": Saved " ++ formatted
  | _ => "=> Saved " ++ formatted
  end.

Definition tr_saved (saved : Z) (title : option string) (rc : Z) (out : string)
  : list Event :=
  ([EvPrint EmptyString; EvPrint stars] ++ tr_format saved rc out
   ++ [EvPrint (banner title (Py.strip out)); EvPrint stars; EvPrint EmptyString])%list.

Definition tr_warning (error_msg : option string) : list Event :=
  match error_msg with
  | Some (String c m) => [EvPrint ("::warning::" ++ String c m)]
  | _ => []
  end.

Definition tr_command (cmd : list string) (error_msg : option string)
  (rc : Z) (out : string) : list Event :=
  EvSpawn cmd false (Exited rc out)
  :: (if rc =? 0 then [] else tr_warning error_msg).

Definition tr_dh (caption : string) (o1 o2 o3 : Z * string) : list Event :=
  [EvPrint rule; EvPrint caption; EvPrint EmptyString;
   EvPrint "$ df -h /"; EvPrint EmptyString;
   EvSpawn ["df"; "-h"; "/"] false (Exited (fst o1) (snd o1));
   EvPrint "$ df -a /"; EvPrint EmptyString;
   EvSpawn ["df"; "-a"; "/"] false (Exited (fst o2) (snd o2));
   EvPrint "$ df -a"; EvPrint EmptyString;
   EvSpawn ["df"; "-a"] false (Exited (fst o3) (snd o3));
   EvPrint rule].

(** What a computation leaves in the transcript, with its result. *)
Definition Post (A : Type) : Type := A -> list Event -> Prop.

Definition probe_post (path : option string) : Post Z :=
  fun a v => exists rc out, v = tr_probe path rc out /\ a = measure out.

Definition format_post (kb : Z) : Post string :=
  fun f v => exists rc out, v = tr_format kb rc out /\ f = Py.strip out.

Definition saved_post (saved : Z) (title : option string) : Post unit :=
  fun _ v => exists rc out, v = tr_saved saved title rc out.

Definition command_post (cmd : list string) (error_msg : option string) : Post bool :=
  fun b v => exists rc out, v = tr_command cmd error_msg rc out /\ b = (rc =? 0).

Definition dh_post (caption : string) : Post unit :=
  fun _ v => exists o1 o2 o3, v = tr_dh caption o1 o2 o3.

(** The error message of the package stage for one command (line 198). *)
Definition apt_error_msg (cmd : list string) : string :=
  "The command [" ++ Py.join " " cmd
  ++ "] failed to complete successfully. Proceeding...".

(** A batch: every command in turn, each with its own outcome. *)
Fixpoint batch_post (commands : list (list string)) (v : list Event) : Prop :=
  match commands with
  | [] => v = []
  | cmd :: rest =>
      exists b v1 v2, v = (v1 ++ v2)%list
        /\ command_post cmd (Some (apt_error_msg cmd)) b v1
        /\ batch_post rest v2
  end.

(** A sequence of commands run without an error message. *)
Fixpoint ops_post (commands : list (list string)) (v : list Event) : Prop :=
  match commands with
  | [] => v = []
  | cmd :: rest =>
      exists b v1 v2, v = (v1 ++ v2)%list
        /\ command_post cmd None b v1 /\ ops_post rest v2
  end.

(** A stage: a measurement, its operations, a measurement, then the
    saved amount formatted once for telemetry and once in the banner. *)
Definition stage_post (title : string) (ops : list Event -> Prop) : Post unit :=
  fun _ v => exists before after vb vo va vf vs,
    v = (vb ++ vo ++ va ++ vf ++ vs)%list
    /\ probe_post None before vb
    /\ ops vo
    /\ probe_post None after va
    /\ (exists f, format_post (after - before) f vf)
    /\ saved_post (after - before) (Some title) tt vs.

Definition init_post : Post (Z * Z) :=
  fun m v => exists va vr vd,
    v = (va ++ vr ++ vd ++ [EvPrint EmptyString])%list
    /\ probe_post None (fst m) va
    /\ probe_post (Some "/") (snd m) vr
    /\ dh_post "BEFORE CLEAN-UP:" tt vd.

(** The last part of the run, given the two initial measurements. *)
Definition stats_post (available_initial available_root_initial : Z) : Post Z :=
  fun total v => exists available_end available_root_end va vr vf vd vs1 vs2,
    v = (va ++ vr ++ vf ++ [EvPrint EmptyString] ++ vd
         ++ [EvPrint EmptyString; EvPrint EmptyString; EvPrint "/dev/root:"]
         ++ vs1 ++ [EvPrint "overall:"] ++ vs2)%list
    /\ probe_post None available_end va
    /\ probe_post (Some "/") available_root_end vr
    /\ (exists f, format_post (available_end - available_initial) f vf)
    /\ dh_post "AFTER CLEAN-UP:" tt vd
    /\ saved_post (available_root_end - available_root_initial) None tt vs1
    /\ saved_post (available_end - available_initial) None tt vs2
    /\ total = available_end - available_initial.

(** The seven stages as a table: the name of the flag, its default, the
    title of the banner, and the shape of the operations. *)
Record StageSpec : Type := mkStage {
  flag : string;
  default : string;
  title : string;
  operations : list Event -> Prop
}.

Definition stage_table (environ : string -> option string) : list StageSpec :=
  [ mkStage "android" "true" "Android library"
      (ops_post [["sudo"; "rm"; "-rf"; "/usr/local/lib/android"]]);
    mkStage "dotnet" "true" ".NET runtime"
      (ops_post [["sudo"; "rm"; "-rf"; "/usr/share/dotnet"]]);
    mkStage "haskell" "true" "Haskell runtime"
      (ops_post [["sudo"; "rm"; "-rf"; "/opt/ghc"];
                 ["sudo"; "rm"; "-rf"; "/usr/local/.ghcup"]]);
    mkStage "large-packages" "true" "Large misc. packages"
      (batch_post apt_commands);
    mkStage "docker-images" "true" "Docker images"
      (ops_post [["sudo"; "docker"; "image"; "prune"; "--all"; "--force"]]);
    mkStage "tool-cache" "false" "Tool cache"
      (ops_post (match environ_get environ "AGENT_TOOLSDIRECTORY" EmptyString with
                 | EmptyString => []
                 | dir => [["sudo"; "rm"; "-rf"; dir]]
                 end));
    mkStage "swap-storage" "true" "Swap storage"
      (ops_post [["sudo"; "swapoff"; "-a"];
                 ["sudo"; "rm"; "-f"; "/mnt/swapfile"];
                 ["free"; "-h"]]) ].

Definition enabled (environ : string -> option string) (s : StageSpec) : bool :=
  get_input environ (flag s) (default s).

(** The transcripts of a list of stages, one after the other. *)
Fixpoint seq_post (l : list StageSpec) (v : list Event) : Prop :=
  match l with
  | [] => v = []
  | s :: rest =>
      exists v1 v2, v = (v1 ++ v2)%list
        /\ stage_post (title s) (operations s) tt v1 /\ seq_post rest v2
  end.

Definition stages_post (environ : string -> option string) : Post unit :=
  fun _ v => seq_post (filter (enabled environ) (stage_table environ)) v.

(** The whole of [main]: the initial part, the enabled stages, the final
    part, and the total formatted once more for the transaction. *)
Definition main_post (environ : string -> option string) : Post unit :=
  fun _ v => exists measured total vi vs vf vt,
    v = (vi ++ vs ++ vf ++ vt)%list
    /\ init_post measured vi
    /\ stages_post environ tt vs
    /\ stats_post (fst measured) (snd measured) total vf
    /\ (exists f, format_post total f vt).

(** The end of every stage (lines 146-150 and their six copies), and a
    run of commands before a continuation, named for the proofs. *)
Definition stage_tail {os : OS} {sentry : Sentry}
  (span : Span) (before : Z) (title : string) : M unit :=
  bind (get_available_space None) (fun after =>
  bind (set_data span "saved_kb" (VInt (after - before))) (fun _ =>
  bind (format_byte_count (after - before)) (fun formatted =>
  bind (set_data span "saved_formatted" (VStr formatted)) (fun _ =>
  print_saved_space (after - before) (Some title))))).

Fixpoint then_ops {os : OS} {sentry : Sentry} (environ : string -> option string)
  (commands : list (list string)) (k : M unit) : M unit :=
  match commands with
  | [] => k
  | cmd :: rest => bind (run_command environ cmd None) (fun _ => then_ops environ rest k)
  end.

Definition tail_post (before : Z) (title : string) : Post unit :=
  fun _ v => exists after va vf vs,
    v = (va ++ vf ++ vs)%list
    /\ probe_post None after va
    /\ (exists f, format_post (after - before) f vf)
    /\ saved_post (after - before) (Some title) tt vs.

(** ** The measurement, in the words of its description

    The data rows of a report are the lines after the first; a row
    contributes its fourth field when that field reads as an integer, and
    nothing otherwise. *)

Definition data_rows (report : string) : list string :=
  tl (Py.split_on "010" (Py.strip report)).

Definition fourth_field (row : string) : option string :=
  nth_error (Py.split row) 3.

Definition row_available (row : string) : Z :=
  match fourth_field row with
  | Some field => match Py.int field with Some v => v | None => 0 end
  | None => 0
  end.

Definition Zsum (l : list Z) : Z := fold_right Z.add 0 l.

Definition spec_available (report : string) : Z :=
  Zsum (map row_available (data_rows report)).


(** ** Reading the flags, in the words of their description *)

(** Two characters that are equal up to the case of an ASCII letter. *)
Definition same_letter (a b : ascii) : bool :=
  Ascii.eqb a b
  || (let n := nat_of_ascii a in
      let m := nat_of_ascii b in
      ((65 <=? n) && (n <=? 90) && (m =? n + 32)
       || (65 <=? m) && (m <=? 90) && (n =? m + 32))%nat).

Fixpoint eq_ignore_case (a b : string) : bool :=
  match a, b with
  | EmptyString, EmptyString => true
  | String x a', String y b' => same_letter x y && eq_ignore_case a' b'
  | _, _ => false
  end.

(** The name of the environment variable of a flag. *)
Definition input_name (name : string) : string :=
  "INPUT_" ++ Py.upper (Py.replace "-" "_" name).

(** ** The banners of the stages in a transcript *)

Definition stage_titles : list string :=
  ["Android library"; ".NET runtime"; "Haskell runtime"; "Large misc. packages";
   "Docker images"; "Tool cache"; "Swap storage"].

(** The stage a printed line is the banner of, if any. *)
Definition banner_title (line : string) : option string :=
  find (fun t => Py.startswith ("=> " ++ t ++ ": Saved ") line) stage_titles.

Definition stage_banners (v : list Event) : list string :=
  flat_map (fun e => match e with
                     | EvPrint line =>
                         match banner_title line with Some t => [t] | None => [] end
                     | _ => []
                     end) v.

(** ** Hosts and telemetry libraries to run the script on *)

(** The library without a session: every call returns. *)
Definition noop_sentry : Sentry :=
  {| Sdk := unit; sentry_sdk := fun _ s => (None, s) |}.

(** A library that refuses a DSN whose scheme is not http or https, as
    [sentry_sdk.init] does ([BadDsn]); every other call returns. *)
Definition strict_sentry : Sentry :=
  {| Sdk := unit;
     sentry_sdk := fun c s =>
       match c with
       | sdk_init dsn _ _ =>
           if Py.startswith "https://" dsn || Py.startswith "http://" dsn
           then (None, s) else (Some "Unsupported scheme", s)
       | _ => (None, s)
       end |}.

Definition df_header : string :=
  "Filesystem 1K-blocks Used Available Use% Mounted on".

Definition newline : string := String "010" EmptyString.

(** A host that answers every [df] with the same exit status and text,
    [numfmt] with a zero amount in seven columns, and every other
    command with the exit status [rc]. *)
Definition canned_os (df_rc : Z) (report : string) (rc : Z) : OS :=
  {| World := unit;
     spawn := fun cmd w =>
       match cmd with
       | "df" :: _ => (Exited df_rc report, w)
       | "numfmt" :: _ => (Exited 0 ("     0B" ++ newline), w)
       | _ => (Exited rc EmptyString, w)
       end |}.

(** A small host with one file system; its state is the number of
    kilobytes available.  [rm] frees a thousand kilobytes, the package
    manager finds nothing to remove and fails, pruning the container
    images costs two hundred kilobytes of logs; [numfmt] answers as the
    GNU tool does: an amount that starts with a minus sign, handed over
    without [--] before it, is read as a group of options, and the tool
    ends with the exit status 1 and nothing on its standard output. *)
Definition demo_status (cmd : list string) : Z :=
  match cmd with
  | "sudo" :: "apt-get" :: "remove" :: _ => 100
  | "numfmt" :: _ => if Py.startswith "-" (last cmd EmptyString) then 1 else 0
  | _ => 0
  end.

Definition demo_effect (cmd : list string) (avail : Z) : Z :=
  match cmd with
  | "sudo" :: "rm" :: _ => avail + 1000
  | "sudo" :: "docker" :: _ => avail - 200
  | _ => avail
  end.

Definition pad_left (width : nat) (text : string) : string :=
  Py.repeat_str " " (width - String.length text) ++ text.

(** The rendering of [numfmt --to=iec-i --suffix=B] after GNU numfmt:
    the amount is divided by 1024 while it is 1024 or more; below ten
    units one decimal is shown; the rounding is away from zero.  The
    tool renders a negative amount, with its sign, only when the amount
    comes after [--]; [demo_output] below answers the call of the
    script, which has no [--]. *)
Definition iec_units : list string :=
  ["B"; "KiB"; "MiB"; "GiB"; "TiB"; "PiB"; "EiB"; "ZiB"; "YiB"].

Fixpoint iec_power (fuel : nat) (magnitude : Z) : nat :=
  match fuel with
  | O => O
  | S k => if magnitude <? 1024 then O else S (iec_power k (magnitude / 1024))
  end.

Definition numfmt_iec (bytes : Z) : string :=
  let magnitude := Z.abs bytes in
  let sign := if bytes <? 0 then "-" else EmptyString in
  let power := iec_power 8 magnitude in
  let unit := 1024 ^ Z.of_nat power in
  let suffix := nth power iec_units EmptyString in
  match power with
  | O => sign ++ Py.str magnitude ++ suffix
  | _ =>
      if magnitude <? 10 * unit then
        let tenths := (10 * magnitude + unit - 1) / unit in
        if 100 <=? tenths then sign ++ "10" ++ suffix
        else sign ++ Py.str (tenths / 10) ++ "." ++ Py.str (tenths mod 10) ++ suffix
      else
        let rounded := (magnitude + unit - 1) / unit in
        if 1024 <=? rounded
        then sign ++ "1.0" ++ nth (S power) iec_units EmptyString
        else sign ++ Py.str rounded ++ suffix
  end.

Definition demo_output (cmd : list string) (avail : Z) : string :=
  match cmd with
  | "df" :: _ =>
      df_header ++ newline ++ "/dev/root 84000000 - " ++ Py.str avail ++ " - /" ++ newline
  | "numfmt" :: _ =>
      if Py.startswith "-" (last cmd EmptyString) then EmptyString
      else match Py.int (last cmd EmptyString) with
           | Some bytes => pad_left 7 (numfmt_iec bytes) ++ newline
           | None => EmptyString
           end
  | _ => EmptyString
  end.

Definition demo_os : OS :=
  {| World := Z;
     spawn := fun cmd avail =>
       (Exited (demo_status cmd) (demo_output cmd avail), demo_effect cmd avail) |}.

(** The starting states on these hosts, with an empty trace. *)
Definition demo_state (sentry : Sentry) (s : @Sdk sentry) (avail : Z)
  : @State demo_os sentry :=
  @mkState demo_os sentry avail s [].

Definition canned_state (df_rc : Z) (report : string) (rc : Z)
  : @State (canned_os df_rc report rc) noop_sentry :=
  @mkState (canned_os df_rc report rc) noop_sentry tt tt [].

(** Environments. *)
Definition no_environ : string -> option string := fun _ => None.

Definition set_environ (key value : string) (environ : string -> option string)
  : string -> option string :=
  fun k => if String.eqb k key then Some value else environ k.

(** The report of the example: rows with 100, 200, a field that is not
    a number, and 300 in the fourth column. *)
Definition example_report : string :=
  df_header ++ newline
  ++ "/dev/a 1000 900 100 90% /" ++ newline
  ++ "/dev/b 1000 800 200 80% /b" ++ newline
  ++ "tmpfs 1000 - x - /c" ++ newline
  ++ "/dev/d 1000 700 300 70% /d" ++ newline.

(** ** Auxiliary predicates *)


(** [y] is reached by [lower] from itself and from its capital only. *)
Definition lowers_to (y : ascii) : Prop :=
  forall x, Ascii.eqb (Py.lower_char x) y = same_letter x y.

Fixpoint all_chars (P : ascii -> Prop) (s : string) : Prop :=
  match s with
  | EmptyString => True
  | String c r => P c /\ all_chars P r
  end.

(** Every stage of the table has one of the seven titles and operations
    that print no banner. *)
Definition plain_stage (s : StageSpec) : Prop :=
  In (title s) stage_titles
  /\ forall vo, operations s vo -> stage_banners vo = [].

(** ** Judgements on computations *)

Section Judgements.

Context {os : OS} {sentry : Sentry}.

(** The telemetry library returns normally from every call. *)
Definition quiet : Prop := forall c s, fst (sentry_sdk c s) = None.

(** Every command can be started and terminates. *)
Definition all_started : Prop :=
  forall cmd w, exists rc out w', spawn cmd w = (Exited rc out, w').

(** From the world [w], whatever the telemetry state and the trace so
    far, [m] ends with [r] in the world [w'] and adds [v] to the
    transcript. *)
Definition yields {A} (m : M A) (w : World) (r : Result A) (w' : World)
  (v : list Event) : Prop :=
  forall st, world st = w ->
    exists st' d, m st = (r, st') /\ world st' = w'
      /\ trace st' = (trace st ++ d)%list /\ visible d = v.

(** [m] returns from every world, and its result and the transcript it
    adds satisfy [Q]. *)
Definition returns {A} (m : M A) (Q : Post A) : Prop :=
  forall w, exists a w' v, yields m w (Ok a) w' v /\ Q a v.

(** The two computations end alike from every world. *)
Definition agree {A} (m1 m2 : M A) : Prop :=
  forall w, exists r w' v, yields m1 w r w' v /\ yields m2 w r w' v.

(** A computation that only talks to the telemetry library. *)
Definition silent (m : M unit) : Prop := forall w, yields m w (Ok tt) w [].

(** The same, on the runs themselves: from two states on the same host
    the two computations give the same result, the same host and the same
    additions to the transcript. *)
Definition same_run {A} (m1 m2 : M A) : Prop :=
  forall st1 st2, world st1 = world st2 ->
    fst (m1 st1) = fst (m2 st2)
    /\ world (snd (m1 st1)) = world (snd (m2 st2))
    /\ exists d1 d2,
         trace (snd (m1 st1)) = (trace st1 ++ d1)%list
         /\ trace (snd (m2 st2)) = (trace st2 ++ d2)%list
         /\ visible d1 = visible d2.

(** The outcome of [subprocess.run], as the caller sees it. *)
Definition completed (cmd : list string) (capture_output check : bool)
  (o : Outcome) : Result CompletedProcess :=
  match o with
  | Failed msg => Raise (OSError msg)
  | Exited rc out =>
      if check && negb (rc =? 0) then Raise (CalledProcessError rc cmd)
      else Ok (mkCompleted rc (if capture_output then Some out else None))
  end.

End Judgements.

(** ** What a run may do, whatever happens *)

(** The commands of the measurements. *)
Definition measuring_commands : list (list string) :=
  [["df"; "-a"]; ["df"; "-a"; "/"]; ["df"; "-h"; "/"]].

(** The commands of each stage, with the flag of the stage and its
    default (lines 141-244). *)
Definition stage_commands (environ : string -> option string)
  : list (string * string * list (list string)) :=
  [ ("android", "true", [["sudo"; "rm"; "-rf"; "/usr/local/lib/android"]]);
    ("dotnet", "true", [["sudo"; "rm"; "-rf"; "/usr/share/dotnet"]]);
    ("haskell", "true", [["sudo"; "rm"; "-rf"; "/opt/ghc"];
                         ["sudo"; "rm"; "-rf"; "/usr/local/.ghcup"]]);
    ("large-packages", "true", apt_commands);
    ("docker-images", "true",
     [["sudo"; "docker"; "image"; "prune"; "--all"; "--force"]]);
    ("tool-cache", "false",
     match environ_get environ "AGENT_TOOLSDIRECTORY" EmptyString with
     | EmptyString => []
     | dir => [["sudo"; "rm"; "-rf"; dir]]
     end);
    ("swap-storage", "true",
     [["sudo"; "swapoff"; "-a"]; ["sudo"; "rm"; "-f"; "/mnt/swapfile"];
      ["free"; "-h"]]) ].

(** A command the script may run in the environment [environ]: a
    measurement, a call of [numfmt], or a command of a stage whose flag is
    on. *)
Definition allowed (environ : string -> option string) (cmd : list string) : Prop :=
  In cmd measuring_commands
  \/ (exists kb, cmd = numfmt_cmd kb)
  \/ exists s, In s (stage_commands environ)
               /\ get_input environ (fst (fst s)) (snd (fst s)) = true
               /\ In cmd (snd s).

Definition safe (environ : string -> option string) (e : Event) : Prop :=
  match e with
  | EvSpawn cmd _ _ => allowed environ cmd
  | _ => True
  end.

(** The telemetry calls that need no session: those on spans. *)
Definition span_call (c : SdkCall) : Prop :=
  match c with
  | sdk_start_span _ | sdk_start_transaction _ | sdk_span_set_data _ _ _
  | sdk_span_set_tag _ _ _ | sdk_span_exit _ _ => True
  | _ => False
  end.

Definition sessionless (e : Event) : Prop :=
  match e with
  | EvSdk c => span_call c
  | _ => True
  end.

(** Whatever the host and the library do, [m] extends the trace, and
    only with events that satisfy [P]. *)
Definition emits {os : OS} {sentry : Sentry} {A} (P : Event -> Prop) (m : M A)
  : Prop :=
  forall st, exists d, trace (snd (m st)) = (trace st ++ d)%list /\ Forall P d.

(** The demo host on which one command cannot be started: the
    executable is missing. *)
Definition missing_os (missing : list string) : OS :=
  {| World := Z;
     spawn := fun cmd avail =>
       if list_eq_dec string_dec cmd missing
       then (Failed "No such file or directory", avail)
       else (Exited (demo_status cmd) (demo_output cmd avail), demo_effect cmd avail) |}.

(** The lines [print_dh] writes for its caption. *)
Definition tr_caption (caption : option string) : list Event :=
  match caption with
  | Some (String a c) => [EvPrint (String a c); EvPrint EmptyString]
  | _ => []
  end.

(** The five stages that are a plain sequence of commands, and their
    commands. *)
Definition plain_stages {os : OS} {sentry : Sentry}
  (environ : string -> option string) : list (M unit) :=
  [cleanup_android environ; cleanup_dotnet environ; cleanup_haskell environ;
   cleanup_docker environ; cleanup_swap environ].

Definition plain_stage_commands : list (list (list string)) :=
  [ [["sudo"; "rm"; "-rf"; "/usr/local/lib/android"]];
    [["sudo"; "rm"; "-rf"; "/usr/share/dotnet"]];
    [["sudo"; "rm"; "-rf"; "/opt/ghc"]; ["sudo"; "rm"; "-rf"; "/usr/local/.ghcup"]];
    [["sudo"; "docker"; "image"; "prune"; "--all"; "--force"]];
    [["sudo"; "swapoff"; "-a"]; ["sudo"; "rm"; "-f"; "/mnt/swapfile"];
     ["free"; "-h"]] ].

(** The command [missing] can never be started, every other command
    starts and terminates. *)
Definition only_missing {os : OS} (missing : list string) : Prop :=
  (forall w, exists msg w', spawn missing w = (Failed msg, w'))
  /\ (forall cmd w, cmd <> missing ->
        exists rc out w', spawn cmd w = (Exited rc out, w')).

(** An environment that turns every stage off. *)
Definition all_off : string -> option string :=
  fun k => if Py.startswith "INPUT_" k then Some "false" else None.

(** The value of a decimal numeral read from the left with an
    accumulator, as [int] reads it. *)
Fixpoint digits_val (acc : Z) (d : Decimal.uint) : Z :=
  match d with
  | Decimal.Nil => acc
  | Decimal.D0 l => digits_val (10 * acc) l
  | Decimal.D1 l => digits_val (10 * acc + 1) l
  | Decimal.D2 l => digits_val (10 * acc + 2) l
  | Decimal.D3 l => digits_val (10 * acc + 3) l
  | Decimal.D4 l => digits_val (10 * acc + 4) l
  | Decimal.D5 l => digits_val (10 * acc + 5) l
  | Decimal.D6 l => digits_val (10 * acc + 6) l
  | Decimal.D7 l => digits_val (10 * acc + 7) l
  | Decimal.D8 l => digits_val (10 * acc + 8) l
  | Decimal.D9 l => digits_val (10 * acc + 9) l
  end.

(** A line: a text without a line feed. *)
Definition no_newline (s : string) : Prop :=
  all_chars (fun c => c <> "010"%char) s.

(** A text without blanks. *)
Definition no_blank (s : string) : Prop :=
  all_chars (fun c => Py.isspace c = false) s.

(** A host at rest: the measurement over all mounts reads [avail] and
    changes nothing, no more than the other [df] commands and [numfmt]
    do, and every command can be started. *)
Definition at_rest {os : OS} (avail : World -> Z) : Prop :=
  (forall w, exists rc out,
      spawn ["df"; "-a"] w = (Exited rc out, w) /\ measure out = avail w)
  /\ (forall cmd w,
        In cmd [["df"; "-a"; "/"]; ["df"; "-h"; "/"]] \/ (exists kb, cmd = numfmt_cmd kb) ->
        exists rc out, spawn cmd w = (Exited rc out, w))
  /\ all_started.

(** What the measurement over all mounts reads on the small host. *)
Definition demo_avail (w : Z) : Z := measure (demo_output ["df"; "-a"] w).

(** The end of the transcript of a stage that reports [saving] under
    [title]. *)
Definition stage_saved (title : string) (saving : Z) (v : list Event) : Prop :=
  exists v0 rcf outf rcs outs,
    v = (v0 ++ tr_format saving rcf outf
         ++ tr_saved saving (Some title) rcs outs)%list.

(** The transcripts of a list of stages with what each one reports. *)
Fixpoint seq_saved (l : list StageSpec) (savings : list Z) (v : list Event) : Prop :=
  match l with
  | [] => savings = [] /\ v = []
  | s :: rest =>
      exists x xs v1 v2,
        savings = x :: xs /\ v = (v1 ++ v2)%list
        /\ stage_saved (title s) x v1 /\ seq_saved rest xs v2
  end.

(** ** Properties *)

Example strip_example : Py.strip ("  a b" ++ newline ++ " ") = "a b".
Proof. reflexivity. Qed.

Example split_example :
  Py.split "  /dev/sda1   100 20 80 " = ["/dev/sda1"; "100"; "20"; "80"].
Proof. reflexivity. Qed.

Example split_on_example :
  Py.split_on "010" ("a" ++ newline ++ newline ++ "b") = ["a"; EmptyString; "b"]
  /\ Py.split_on "010" EmptyString = [EmptyString].
Proof. split; reflexivity. Qed.

Example int_example :
  map Py.int ["12"; "-5"; "+7"; "1_000"; "1__0"; "_1"; "1_"; "x"; "-"; "007"; "1.5"; "0x10"]
  = [Some 12; Some (-5); Some 7; Some 1000; None; None; None; None; None; Some 7;
     None; None].
Proof. reflexivity. Qed.

Example str_example : map Py.str [0; -500; 1048576] = ["0"; "-500"; "1048576"].
Proof. reflexivity. Qed.

Example numfmt_example :
  map numfmt_iec [0; 500; 1024; 1025; 1000000; -500000; 1048576; 1048576000]
  = ["0B"; "500B"; "1.0KiB"; "1.1KiB"; "977KiB"; "-489KiB"; "1.0MiB"; "1000MiB"].
Proof. reflexivity. Qed.

Lemma visible_app (a b : list Event) :
  visible (a ++ b) = (visible a ++ visible b)%list.
Proof. apply filter_app. Qed.

Section Runs.

Context {os : OS} {sentry : Sentry}.

Lemma yields_conv {A} (m : M A) w r w' v v' :
  yields m w r w' v -> v = v' -> yields m w r w' v'.
Proof. intros H <-. exact H. Qed.

Lemma yields_ret {A} (a : A) w : yields (ret a) w (Ok a) w [].
Proof.
  intros st Hw. exists st, []. rewrite app_nil_r. auto.
Qed.

Lemma yields_raise {A} (e : exn) w : yields (@raise _ _ A e) w (Raise e) w [].
Proof.
  intros st Hw. exists st, []. rewrite app_nil_r. auto.
Qed.

Lemma yields_lift {A} (r : Result A) w : yields (lift r) w r w [].
Proof. destruct r; [apply yields_ret | apply yields_raise]. Qed.

Lemma yields_bind_ok {A B} (m : M A) (f : A -> M B) w a w1 v1 r w2 v2 :
  yields m w (Ok a) w1 v1 -> yields (f a) w1 r w2 v2 ->
  yields (bind m f) w r w2 (v1 ++ v2).
Proof.
  intros H1 H2 st Hw.
  destruct (H1 st Hw) as (st1 & d1 & E1 & W1 & T1 & V1).
  destruct (H2 st1 W1) as (st2 & d2 & E2 & W2 & T2 & V2).
  exists st2, (d1 ++ d2)%list. unfold bind. rewrite E1, E2.
  rewrite T2, T1, app_assoc, visible_app, V1, V2. auto.
Qed.

Lemma yields_bind_raise {A B} (m : M A) (f : A -> M B) w e w1 v1 :
  yields m w (Raise e) w1 v1 -> yields (bind m f) w (Raise e) w1 v1.
Proof.
  intros H1 st Hw.
  destruct (H1 st Hw) as (st1 & d1 & E1 & W1 & T1 & V1).
  exists st1, d1. unfold bind. rewrite E1. auto.
Qed.

Lemma yields_attempt {A} (m : M A) w r w' v :
  yields m w r w' v -> yields (attempt m) w (Ok r) w' v.
Proof.
  intros H st Hw. destruct (H st Hw) as (st1 & d1 & E1 & W1 & T1 & V1).
  exists st1, d1. unfold attempt. rewrite E1. auto.
Qed.

Lemma yields_print (line : string) w : yields (print line) w (Ok tt) w [EvPrint line].
Proof.
  intros st Hw. eexists _, [EvPrint line]. unfold print. simpl. auto.
Qed.

Lemma call_sdk_quiet (Hq : quiet) (c : SdkCall) (st : State) :
  call_sdk c st
  = (Ok tt, mkState (world st) (snd (sentry_sdk c (sdk st))) (trace st ++ [EvSdk c])).
Proof.
  unfold call_sdk. specialize (Hq c (sdk st)).
  destruct (sentry_sdk c (sdk st)) as [r s']. simpl in *. subst r. reflexivity.
Qed.

Lemma yields_sdk (Hq : quiet) (c : SdkCall) w : yields (call_sdk c) w (Ok tt) w [].
Proof.
  intros st Hw. rewrite (call_sdk_quiet Hq). eexists _, [EvSdk c]. simpl. auto.
Qed.

Lemma yields_set_data (Hq : quiet) span k x w :
  yields (set_data span k x) w (Ok tt) w [].
Proof. apply yields_sdk; assumption. Qed.

Lemma yields_run cmd capture_output check w o w' :
  spawn cmd w = (o, w') ->
  yields (subprocess_run cmd capture_output check) w
    (completed cmd capture_output check o) w' [EvSpawn cmd capture_output o].
Proof.
  intros Hs st Hw. unfold subprocess_run. rewrite Hw, Hs.
  eexists _, [EvSpawn cmd capture_output o].
  destruct o as [rc out|msg]; simpl; [destruct (check && negb (rc =? 0))|]; simpl; auto.
Qed.

Lemma yields_when_false (m : M unit) w : yields (when false m) w (Ok tt) w [].
Proof. apply yields_ret. Qed.

(** A [with] block ends as its body does: the telemetry calls around
    it leave the transcript alone. *)
Lemma yields_with_ctx (Hq : quiet) {A} enter exit (body : M A) w r w' v :
  yields body w r w' v -> yields (with_ctx enter exit body) w r w' v.
Proof.
  intros Hb. unfold with_ctx.
  eapply yields_conv.
  - eapply yields_bind_ok; [apply (yields_sdk Hq)|].
    eapply yields_bind_ok; [apply yields_attempt, Hb|].
    eapply yields_bind_ok; [apply (yields_sdk Hq)|].
    apply yields_lift.
  - simpl. rewrite !app_nil_r. reflexivity.
Qed.

Lemma yields_with_span (Hq : quiet) {A} d o (body : Span -> M A) w r w' v :
  yields (body (mkSpan d o)) w r w' v -> yields (with_span d o body) w r w' v.
Proof. apply yields_with_ctx; assumption. Qed.

(** *** Rules for [returns] *)

Lemma returns_ret {A} (a : A) (Q : Post A) : Q a [] -> returns (ret a) Q.
Proof. intros HQ w. exists a, w, []. split; [apply yields_ret | exact HQ]. Qed.

Lemma returns_bind {A B} (m : M A) (f : A -> M B) (P : Post A) (Q : Post B) :
  returns m P ->
  (forall a v1, P a v1 -> returns (f a) (fun b v2 => Q b (v1 ++ v2)%list)) ->
  returns (bind m f) Q.
Proof.
  intros Hm Hf w.
  destruct (Hm w) as (a & w1 & v1 & Y1 & P1).
  destruct (Hf a v1 P1 w1) as (b & w2 & v2 & Y2 & Q2).
  exists b, w2, (v1 ++ v2)%list. split; [eapply yields_bind_ok; eauto | exact Q2].
Qed.

Lemma returns_weaken {A} (m : M A) (P Q : Post A) :
  returns m P -> (forall a v, P a v -> Q a v) -> returns m Q.
Proof.
  intros Hm HPQ w. destruct (Hm w) as (a & w' & v & Y & HP).
  exists a, w', v. auto.
Qed.

Lemma returns_print (line : string) (Q : Post unit) :
  Q tt [EvPrint line] -> returns (print line) Q.
Proof. intros HQ w. exists tt, w, [EvPrint line]. split; [apply yields_print | exact HQ]. Qed.

Lemma returns_sdk (Hq : quiet) (c : SdkCall) (Q : Post unit) :
  Q tt [] -> returns (call_sdk c) Q.
Proof. intros HQ w. exists tt, w, []. split; [apply (yields_sdk Hq) | exact HQ]. Qed.

Lemma returns_set_data (Hq : quiet) span k x (Q : Post unit) :
  Q tt [] -> returns (set_data span k x) Q.
Proof. apply returns_sdk; assumption. Qed.

Lemma returns_when (b : bool) (m : M unit) (Q : Post unit) :
  (b = true -> returns m Q) -> (b = false -> Q tt []) -> returns (when b m) Q.
Proof.
  destruct b; simpl; intros H1 H2; [auto | apply returns_ret; auto].
Qed.

Lemma returns_with_ctx (Hq : quiet) {A} enter exit (body : M A) (Q : Post A) :
  returns body Q -> returns (with_ctx enter exit body) Q.
Proof.
  intros Hb w. destruct (Hb w) as (a & w' & v & Y & HQ).
  exists a, w', v. split; [apply (yields_with_ctx Hq), Y | exact HQ].
Qed.

Lemma returns_with_span (Hq : quiet) {A} d o (body : Span -> M A) (Q : Post A) :
  returns (body (mkSpan d o)) Q -> returns (with_span d o body) Q.
Proof. apply returns_with_ctx; assumption. Qed.

Lemma returns_with_transaction (Hq : quiet) {A} o n (body : Span -> M A) (Q : Post A) :
  returns (body (mkSpan n o)) Q -> returns (with_transaction o n body) Q.
Proof. apply returns_with_ctx; assumption. Qed.

Lemma yields_run_captured cmd w rc out w' :
  spawn cmd w = (Exited rc out, w') ->
  yields (subprocess_run cmd true false) w (Ok (mkCompleted rc (Some out))) w'
    [EvSpawn cmd true (Exited rc out)].
Proof. intros Hs. exact (yields_run cmd true false w _ w' Hs). Qed.

Lemma yields_run_console cmd w rc out w' :
  spawn cmd w = (Exited rc out, w') ->
  yields (subprocess_run cmd false false) w (Ok (mkCompleted rc None)) w'
    [EvSpawn cmd false (Exited rc out)].
Proof. intros Hs. exact (yields_run cmd false false w _ w' Hs). Qed.

Lemma yields_run_checked cmd w out w' :
  spawn cmd w = (Exited 0 out, w') ->
  yields (subprocess_run cmd false true) w (Ok (mkCompleted 0 None)) w'
    [EvSpawn cmd false (Exited 0 out)].
Proof. intros Hs. exact (yields_run cmd false true w _ w' Hs). Qed.

Lemma yields_run_nonzero cmd w rc out w' :
  spawn cmd w = (Exited rc out, w') -> rc <> 0 ->
  yields (subprocess_run cmd false true) w (Raise (CalledProcessError rc cmd)) w'
    [EvSpawn cmd false (Exited rc out)].
Proof.
  intros Hs Hrc. pose proof (yields_run cmd false true w _ w' Hs) as H.
  simpl in H. apply Z.eqb_neq in Hrc. rewrite Hrc in H. exact H.
Qed.

Lemma yields_run_failed cmd capture_output check w msg w' :
  spawn cmd w = (Failed msg, w') ->
  yields (subprocess_run cmd capture_output check) w (Raise (OSError msg)) w'
    [EvSpawn cmd capture_output (Failed msg)].
Proof. intros Hs. exact (yields_run cmd capture_output check w _ w' Hs). Qed.

Lemma yields_stdout_strip rc out w :
  yields (stdout_strip (mkCompleted rc (Some out))) w (Ok (Py.strip out)) w [].
Proof. apply yields_ret. Qed.

(** *** The leaves of the script *)

Ltac ystep Hq :=
  first [ apply yields_ret
        | apply (yields_set_data Hq)
        | apply (yields_sdk Hq)
        | apply yields_print
        | apply yields_when_false
        | apply yields_stdout_strip
        | apply (yields_with_span Hq)
        | apply (yields_with_ctx Hq)
        | eapply yields_run_captured; eassumption
        | eapply yields_run_console; eassumption
        | eapply yields_run_checked; eassumption
        | eapply yields_bind_ok ].

Ltac ysteps Hq := eapply yields_conv; [repeat ystep Hq | try reflexivity].

Lemma yields_get_available_space (Hq : quiet) path w rc out w' :
  spawn (df_cmd path) w = (Exited rc out, w') ->
  yields (get_available_space path) w (Ok (measure out)) w' (tr_probe path rc out).
Proof.
  intros Hs. unfold get_available_space, measure.
  destruct path as [[|c p]|]; simpl; ysteps Hq.
Qed.

Lemma yields_format_byte_count (Hq : quiet) kb w rc out w' :
  spawn (numfmt_cmd kb) w = (Exited rc out, w') ->
  yields (format_byte_count kb) w (Ok (Py.strip out)) w' (tr_format kb rc out).
Proof.
  intros Hs. unfold format_byte_count. ysteps Hq.
Qed.

Lemma yields_print_saved_space (Hq : quiet) saved title w rc out w' :
  spawn (numfmt_cmd saved) w = (Exited rc out, w') ->
  yields (print_saved_space saved title) w (Ok tt) w' (tr_saved saved title rc out).
Proof.
  intros Hs. unfold print_saved_space, print_separation_line.
  pose proof (yields_format_byte_count Hq saved w rc out w' Hs) as Hf.
  destruct title as [[|c t]|]; simpl;
    (eapply yields_conv; [repeat first [exact Hf | ystep Hq] | reflexivity]).
Qed.

Lemma yields_print_dh (Hq : quiet) a c w o1 w1 o2 w2 o3 w3 :
  spawn ["df"; "-h"; "/"] w = (Exited (fst o1) (snd o1), w1) ->
  spawn ["df"; "-a"; "/"] w1 = (Exited (fst o2) (snd o2), w2) ->
  spawn ["df"; "-a"] w2 = (Exited (fst o3) (snd o3), w3) ->
  yields (print_dh (Some (String a c))) w (Ok tt) w3 (tr_dh (String a c) o1 o2 o3).
Proof.
  intros H1 H2 H3. unfold print_dh, print_separation_line. simpl.
  ysteps Hq.
Qed.

Section Commands.

Variable environ : string -> option string.

(** The handler of [run_command] once the command has failed. *)
Lemma yields_run_command_handler (Hq : quiet) cmd rc w :
  yields (when (Py.truthy (SENTRY_DSN environ))
            (with_ctx sdk_push_scope sdk_scope_exit
               (bind (call_sdk (sdk_scope_set_extra "command" (VStr (Py.join " " cmd))))
                  (fun _ => bind (call_sdk (sdk_scope_set_extra "returncode" (VInt rc)))
                  (fun _ => bind (call_sdk (sdk_scope_set_extra "stderr" VNone))
                  (fun _ => call_sdk (sdk_capture_exception (CalledProcessError rc cmd))))))))
    w (Ok tt) w [].
Proof.
  destruct (Py.truthy (SENTRY_DSN environ)); simpl; ysteps Hq.
Qed.

Lemma yields_run_command_ok (Hq : quiet) cmd error_msg w out w' :
  spawn cmd w = (Exited 0 out, w') ->
  yields (run_command environ cmd error_msg) w (Ok true) w'
    (tr_command cmd error_msg 0 out).
Proof.
  intros Hs. unfold run_command.
  eapply yields_conv.
  - eapply yields_bind_ok.
    + apply yields_attempt. repeat ystep Hq.
    + simpl. apply yields_ret.
  - reflexivity.
Qed.

Lemma yields_run_command_nonzero (Hq : quiet) cmd error_msg w rc out w' :
  spawn cmd w = (Exited rc out, w') -> rc <> 0 ->
  yields (run_command environ cmd error_msg) w (Ok false) w'
    (tr_command cmd error_msg rc out).
Proof.
  intros Hs Hrc. unfold run_command, tr_command.
  apply Z.eqb_neq in Hrc as Hrc'. rewrite Hrc'.
  eapply yields_conv.
  - eapply yields_bind_ok.
    + apply yields_attempt, (yields_with_span Hq).
      eapply yields_bind_ok; [apply (yields_set_data Hq)|].
      apply yields_bind_raise. eapply yields_run_nonzero; eassumption.
    + simpl. eapply yields_bind_ok.
      * instantiate (1 := tr_warning error_msg). instantiate (1 := w').
        destruct error_msg as [[|c m]|]; simpl; repeat ystep Hq.
      * eapply yields_bind_ok; [apply (yields_run_command_handler Hq)|].
        apply yields_ret.
  - simpl. rewrite app_nil_r. reflexivity.
Qed.

Lemma yields_run_command_failed (Hq : quiet) cmd error_msg w msg w' :
  spawn cmd w = (Failed msg, w') ->
  yields (run_command environ cmd error_msg) w (Raise (OSError msg)) w'
    [EvSpawn cmd false (Failed msg)].
Proof.
  intros Hs. unfold run_command.
  eapply yields_conv.
  - eapply yields_bind_ok.
    + apply yields_attempt, (yields_with_span Hq).
      eapply yields_bind_ok; [apply (yields_set_data Hq)|].
      apply yields_bind_raise. eapply yields_run_failed; eassumption.
    + simpl. apply yields_raise.
  - simpl. reflexivity.
Qed.

(** A command that starts and terminates: [run_command] returns whether
    the exit status is zero. *)
Lemma yields_run_command (Hq : quiet) cmd error_msg w rc out w' :
  spawn cmd w = (Exited rc out, w') ->
  yields (run_command environ cmd error_msg) w (Ok (rc =? 0)) w'
    (tr_command cmd error_msg rc out).
Proof.
  intros Hs. destruct (Z.eqb_spec rc 0) as [->|Hrc].
  - apply yields_run_command_ok; assumption.
  - apply yields_run_command_nonzero; assumption.
Qed.

End Commands.

End Runs.

(** *** The pipeline, when every command starts *)

Section Pipeline.

Context {os : OS} {sentry : Sentry}.
Variable environ : string -> option string.
Hypothesis Hq : quiet.
Hypothesis Hall : all_started.

Lemma returns_bind_sdk {B} c (f : unit -> M B) (Q : Post B) :
  returns (f tt) Q -> returns (bind (call_sdk c) f) Q.
Proof.
  intros H. eapply returns_bind.
  - apply (returns_sdk Hq) with (Q := fun _ v => v = []). reflexivity.
  - intros [] v1 ->. exact H.
Qed.

Lemma returns_bind_set_data {B} span k x (f : unit -> M B) (Q : Post B) :
  returns (f tt) Q -> returns (bind (set_data span k x) f) Q.
Proof. apply returns_bind_sdk. Qed.

Lemma returns_bind_print {B} line (f : unit -> M B) (Q : Post B) :
  returns (f tt) (fun b v => Q b (EvPrint line :: v)) ->
  returns (bind (print line) f) Q.
Proof.
  intros H. eapply returns_bind.
  - apply returns_print with (Q := fun _ v => v = [EvPrint line]). reflexivity.
  - intros [] v1 ->. exact H.
Qed.

Lemma returns_get_available_space path :
  returns (get_available_space path) (probe_post path).
Proof.
  intros w. destruct (Hall (df_cmd path) w) as (rc & out & w' & Hs).
  exists (measure out), w', (tr_probe path rc out). split.
  - apply yields_get_available_space; assumption.
  - exists rc, out. auto.
Qed.

Lemma returns_format_byte_count kb :
  returns (format_byte_count kb) (format_post kb).
Proof.
  intros w. destruct (Hall (numfmt_cmd kb) w) as (rc & out & w' & Hs).
  exists (Py.strip out), w', (tr_format kb rc out). split.
  - apply yields_format_byte_count; assumption.
  - exists rc, out. auto.
Qed.

Lemma returns_print_saved_space saved title :
  returns (print_saved_space saved title) (saved_post saved title).
Proof.
  intros w. destruct (Hall (numfmt_cmd saved) w) as (rc & out & w' & Hs).
  exists tt, w', (tr_saved saved title rc out). split.
  - apply yields_print_saved_space; assumption.
  - exists rc, out. auto.
Qed.

Lemma returns_print_dh a c :
  returns (print_dh (Some (String a c))) (dh_post (String a c)).
Proof.
  intros w.
  destruct (Hall ["df"; "-h"; "/"] w) as (rc1 & out1 & w1 & H1).
  destruct (Hall ["df"; "-a"; "/"] w1) as (rc2 & out2 & w2 & H2).
  destruct (Hall ["df"; "-a"] w2) as (rc3 & out3 & w3 & H3).
  exists tt, w3, (tr_dh (String a c) (rc1, out1) (rc2, out2) (rc3, out3)). split.
  - apply (yields_print_dh Hq) with (w1 := w1) (w2 := w2); assumption.
  - exists (rc1, out1), (rc2, out2), (rc3, out3). reflexivity.
Qed.

Lemma returns_run_command cmd error_msg :
  returns (run_command environ cmd error_msg) (command_post cmd error_msg).
Proof.
  intros w. destruct (Hall cmd w) as (rc & out & w' & Hs).
  exists (rc =? 0), w', (tr_command cmd error_msg rc out). split.
  - apply yields_run_command; assumption.
  - exists rc, out. auto.
Qed.

Lemma returns_run_apt_command total i cmd :
  returns (run_apt_command environ total (i, cmd))
    (fun _ v => exists b, command_post cmd (Some (apt_error_msg cmd)) b v).
Proof.
  unfold run_apt_command. apply (returns_with_span Hq).
  apply returns_bind_set_data.
  eapply returns_bind; [apply returns_run_command|].
  intros b v1 Hc. apply (returns_set_data Hq).
  exists b. rewrite app_nil_r. exact Hc.
Qed.

Lemma returns_for_each_batch total commands k :
  returns (for_each (combine (seq k (List.length commands)) commands)
             (run_apt_command environ total))
    (fun _ v => batch_post commands v).
Proof.
  revert k. induction commands as [|cmd rest IH]; intros k; simpl.
  - apply returns_ret. reflexivity.
  - eapply returns_bind; [apply returns_run_apt_command|].
    intros [] v1 [b Hc].
    eapply returns_weaken; [apply IH|].
    intros [] v2 Hr. exists b, v1, v2. auto.
Qed.

Lemma returns_run_batch commands :
  returns (run_batch environ commands) (fun _ v => batch_post commands v).
Proof. apply returns_for_each_batch. Qed.

Lemma returns_stage_tail span before title :
  returns (stage_tail span before title) (tail_post before title).
Proof.
  unfold stage_tail.
  eapply returns_bind; [apply returns_get_available_space|].
  intros after va Ha. apply returns_bind_set_data.
  eapply returns_bind; [apply returns_format_byte_count|].
  intros f vf Hf. apply returns_bind_set_data.
  eapply returns_weaken; [apply returns_print_saved_space|].
  intros [] vs Hs. exists after, va, vf, vs. eauto.
Qed.

Lemma returns_then_ops commands (k : M unit) (Q : Post unit) :
  (forall vo, ops_post commands vo -> returns k (fun b v => Q b (vo ++ v)%list)) ->
  returns (then_ops environ commands k) Q.
Proof.
  revert Q. induction commands as [|cmd rest IH]; intros Q Hk; simpl.
  - apply (Hk []). reflexivity.
  - eapply returns_bind; [apply returns_run_command|].
    intros b v1 Hc. apply IH. intros vo Ho.
    eapply returns_weaken; [apply (Hk (v1 ++ vo)%list)|].
    + exists b, v1, vo. auto.
    + cbv beta. intros a v HQ. rewrite app_assoc. exact HQ.
Qed.

Lemma returns_stage d o title (body : Span -> Z -> M unit) (P : list Event -> Prop) :
  (forall span before,
     returns (body span before)
       (fun _ v => exists vo vt, v = (vo ++ vt)%list /\ P vo
                                 /\ tail_post before title tt vt)) ->
  returns (with_span d o (fun span =>
             bind (get_available_space None) (fun before => body span before)))
    (stage_post title P).
Proof.
  intros Hb. apply (returns_with_span Hq).
  eapply returns_bind; [apply returns_get_available_space|].
  intros before vb Hbefore.
  eapply returns_weaken; [apply Hb|].
  intros [] v (vo & vt & -> & HP & after & va & vf & vs & -> & Ha & Hf & Hs).
  exists before, after, vb, vo, va, vf, vs. auto 10.
Qed.

(** A stage made of plain commands. *)
Lemma returns_ops_stage d o title commands :
  returns (with_span d o (fun span =>
             bind (get_available_space None) (fun before =>
               then_ops environ commands (stage_tail span before title))))
    (stage_post title (ops_post commands)).
Proof.
  apply returns_stage. intros span before.
  apply returns_then_ops. intros vo Ho.
  eapply returns_weaken; [apply returns_stage_tail|].
  intros [] vt Ht. exists vo, vt. auto.
Qed.

Lemma returns_cleanup_android :
  returns (cleanup_android environ)
    (stage_post "Android library"
       (ops_post [["sudo"; "rm"; "-rf"; "/usr/local/lib/android"]])).
Proof. exact (returns_ops_stage _ _ "Android library"
    [["sudo"; "rm"; "-rf"; "/usr/local/lib/android"]]). Qed.

Lemma returns_cleanup_dotnet :
  returns (cleanup_dotnet environ)
    (stage_post ".NET runtime" (ops_post [["sudo"; "rm"; "-rf"; "/usr/share/dotnet"]])).
Proof. exact (returns_ops_stage _ _ ".NET runtime"
    [["sudo"; "rm"; "-rf"; "/usr/share/dotnet"]]). Qed.

Lemma returns_cleanup_haskell :
  returns (cleanup_haskell environ)
    (stage_post "Haskell runtime"
       (ops_post [["sudo"; "rm"; "-rf"; "/opt/ghc"];
                  ["sudo"; "rm"; "-rf"; "/usr/local/.ghcup"]])).
Proof. exact (returns_ops_stage _ _ "Haskell runtime"
    [["sudo"; "rm"; "-rf"; "/opt/ghc"];
                  ["sudo"; "rm"; "-rf"; "/usr/local/.ghcup"]]). Qed.

Lemma returns_cleanup_docker :
  returns (cleanup_docker environ)
    (stage_post "Docker images"
       (ops_post [["sudo"; "docker"; "image"; "prune"; "--all"; "--force"]])).
Proof. exact (returns_ops_stage _ _ "Docker images"
    [["sudo"; "docker"; "image"; "prune"; "--all"; "--force"]]). Qed.

Lemma returns_cleanup_swap :
  returns (cleanup_swap environ)
    (stage_post "Swap storage"
       (ops_post [["sudo"; "swapoff"; "-a"];
                  ["sudo"; "rm"; "-f"; "/mnt/swapfile"];
                  ["free"; "-h"]])).
Proof. exact (returns_ops_stage _ _ "Swap storage"
    [["sudo"; "swapoff"; "-a"];
                  ["sudo"; "rm"; "-f"; "/mnt/swapfile"];
                  ["free"; "-h"]]). Qed.

Lemma returns_cleanup_packages :
  returns (cleanup_packages environ)
    (stage_post "Large misc. packages" (batch_post apt_commands)).
Proof.
  unfold cleanup_packages.
  apply (returns_stage _ _ _
           (fun span before => bind (run_batch environ apt_commands)
                                 (fun _ => stage_tail span before "Large misc. packages"))).
  intros span before.
  eapply returns_bind; [apply returns_run_batch|].
  intros [] vo Ho.
  eapply returns_weaken; [apply returns_stage_tail|].
  intros [] vt Ht. exists vo, vt. auto.
Qed.

Lemma returns_cleanup_toolcache :
  returns (cleanup_toolcache environ)
    (stage_post "Tool cache"
       (ops_post (match environ_get environ "AGENT_TOOLSDIRECTORY" EmptyString with
                  | EmptyString => []
                  | dir => [["sudo"; "rm"; "-rf"; dir]]
                  end))).
Proof.
  unfold cleanup_toolcache.
  apply (returns_stage _ _ _
           (fun span before =>
              bind (when (Py.truthy (environ_get environ "AGENT_TOOLSDIRECTORY" EmptyString))
                      (bind (set_data span "agent_tools_dir"
                               (VStr (environ_get environ "AGENT_TOOLSDIRECTORY" EmptyString)))
                         (fun _ => bind (run_command environ
                                           ["sudo"; "rm"; "-rf";
                                            environ_get environ "AGENT_TOOLSDIRECTORY" EmptyString] None)
                                     (fun _ => ret tt))))
                (fun _ => stage_tail span before "Tool cache"))).
  intros span before.
  destruct (environ_get environ "AGENT_TOOLSDIRECTORY" EmptyString) as [|c dir] eqn:E; simpl.
  - eapply returns_bind; [apply returns_ret with (Q := fun _ v => v = []); reflexivity|].
    intros [] v1 ->.
    eapply returns_weaken; [apply returns_stage_tail|].
    intros [] vt Ht. exists [], vt. simpl. auto.
  - eapply returns_bind
      with (P := fun _ v => ops_post [["sudo"; "rm"; "-rf"; String c dir]] v).
    + apply returns_bind_set_data.
      eapply returns_bind; [apply returns_run_command|].
      intros b v1 Hc. apply returns_ret.
      exists b, v1, []. repeat split; auto.
    + intros [] vo Ho.
      eapply returns_weaken; [apply returns_stage_tail|].
      intros [] vt Ht. exists vo, vt. auto.
Qed.

Lemma returns_cleanup_init : returns cleanup_init init_post.
Proof.
  unfold cleanup_init. apply (returns_with_span Hq).
  eapply returns_bind; [apply returns_get_available_space|].
  intros a va Ha.
  eapply returns_bind; [apply returns_get_available_space|].
  intros r vr Hr. do 2 apply returns_bind_set_data.
  eapply returns_bind; [apply returns_print_dh|].
  intros [] vd Hd. apply returns_bind_print. apply returns_ret.
  exists va, vr, vd. auto.
Qed.

Lemma returns_cleanup_stats a0 r0 : returns (cleanup_stats a0 r0) (stats_post a0 r0).
Proof.
  unfold cleanup_stats. apply (returns_with_span Hq).
  eapply returns_bind; [apply returns_get_available_space|].
  intros a1 va Ha.
  eapply returns_bind; [apply returns_get_available_space|].
  intros r1 vr Hr. do 3 apply returns_bind_set_data.
  eapply returns_bind; [apply returns_format_byte_count|].
  intros f vf Hf. apply returns_bind_set_data. apply returns_bind_print.
  eapply returns_bind; [apply returns_print_dh|].
  intros [] vd Hd. do 3 apply returns_bind_print.
  eapply returns_bind; [apply returns_print_saved_space|].
  intros [] vs1 Hs1. apply returns_bind_print.
  eapply returns_bind; [apply returns_print_saved_space|].
  intros [] vs2 Hs2. apply returns_ret.
  exists a1, r1, va, vr, vf, vd, vs1, vs2.
  rewrite app_nil_r. simpl. eauto 10.
Qed.

(** One optional stage followed by the rest. *)
Lemma returns_stage_then (s : StageSpec) (body rest : M unit) (l : list StageSpec) :
  returns body (stage_post (title s) (operations s)) ->
  returns rest (fun _ v => seq_post (filter (enabled environ) l) v) ->
  returns (bind (when (get_input environ (flag s) (default s)) body) (fun _ => rest))
    (fun _ v => seq_post (filter (enabled environ) (s :: l)) v).
Proof.
  intros Hb Hr. simpl. unfold enabled at 1.
  destruct (get_input environ (flag s) (default s)); simpl.
  - eapply returns_bind; [apply Hb|].
    intros [] v1 H1. eapply returns_weaken; [apply Hr|].
    intros [] v2 H2. exists v1, v2. auto.
  - eapply returns_bind; [apply returns_ret with (Q := fun _ v => v = []); reflexivity|].
    intros [] v1 ->. exact Hr.
Qed.

Lemma returns_stage_last (s : StageSpec) (body : M unit) :
  returns body (stage_post (title s) (operations s)) ->
  returns (when (get_input environ (flag s) (default s)) body)
    (fun _ v => seq_post (filter (enabled environ) [s]) v).
Proof.
  intros Hb. simpl. unfold enabled.
  destruct (get_input environ (flag s) (default s)); simpl.
  - eapply returns_weaken; [apply Hb|].
    intros [] v H. exists v, []. rewrite app_nil_r. auto.
  - apply returns_ret. reflexivity.
Qed.

Lemma returns_cleanup_stages :
  returns (cleanup_stages environ) (stages_post environ).
Proof.
  unfold cleanup_stages, stages_post, stage_table.
  apply (returns_stage_then (mkStage _ _ _ _)); [apply returns_cleanup_android|].
  apply (returns_stage_then (mkStage _ _ _ _)); [apply returns_cleanup_dotnet|].
  apply (returns_stage_then (mkStage _ _ _ _)); [apply returns_cleanup_haskell|].
  apply (returns_stage_then (mkStage _ _ _ _)); [apply returns_cleanup_packages|].
  apply (returns_stage_then (mkStage _ _ _ _)); [apply returns_cleanup_docker|].
  apply (returns_stage_then (mkStage _ _ _ _)); [apply returns_cleanup_toolcache|].
  apply (returns_stage_last (mkStage _ _ _ _)). apply returns_cleanup_swap.
Qed.

Lemma returns_main : returns (main environ) (main_post environ).
Proof.
  unfold main. apply (returns_with_transaction Hq).
  eapply returns_bind; [apply returns_cleanup_init|].
  intros measured vi Hi.
  eapply returns_bind; [apply returns_cleanup_stages|].
  intros [] vs Hs.
  eapply returns_bind; [apply returns_cleanup_stats|].
  intros total vf Hf. apply returns_bind_sdk. apply returns_bind_set_data.
  eapply returns_bind; [apply returns_format_byte_count|].
  intros f vt Ht. apply (returns_set_data Hq).
  exists measured, total, vi, vs, vf, vt. rewrite app_nil_r. eauto 10.
Qed.

(** The whole script returns, and its transcript is that of [main]. *)
Lemma returns_script : returns (script environ) (main_post environ).
Proof.
  unfold script. eapply returns_bind.
  - instantiate (1 := fun _ v => v = []). unfold init_sentry.
    apply returns_when; [intros _ | reflexivity].
    do 3 apply returns_bind_sdk. apply (returns_sdk Hq). reflexivity.
  - intros [] v1 ->. intros w.
    destruct (returns_main w) as ([] & w' & v & Y & HP).
    exists tt, w', v. split; [|exact HP].
    eapply yields_conv.
    + eapply yields_bind_ok.
      * apply yields_attempt, (yields_with_span Hq), Y.
      * simpl. apply yields_ret.
    + apply app_nil_r.
Qed.

End Pipeline.

(** *** Two runs that differ in the telemetry setting *)

Section Agreement.

Context {os : OS} {sentry : Sentry}.
Hypothesis Hq : quiet.

Lemma silent_ret : silent (ret tt).
Proof. intros w. apply yields_ret. Qed.

Lemma silent_sdk c : silent (call_sdk c).
Proof. intros w. apply (yields_sdk Hq). Qed.

Lemma silent_bind (m : M unit) (f : unit -> M unit) :
  silent m -> silent (f tt) -> silent (bind m f).
Proof.
  intros Hm Hf w. eapply yields_conv.
  - eapply yields_bind_ok; [apply Hm | apply Hf].
  - reflexivity.
Qed.

Lemma silent_when b m : silent m -> silent (when b m).
Proof. destruct b; [auto | intros _; apply silent_ret]. Qed.

Lemma silent_with_ctx enter exit m : silent m -> silent (with_ctx enter exit m).
Proof. intros Hm w. apply (yields_with_ctx Hq), Hm. Qed.

Lemma agree_silent (m1 m2 : M unit) : silent m1 -> silent m2 -> agree m1 m2.
Proof. intros H1 H2 w. exists (Ok tt), w, []. auto. Qed.

Lemma agree_ret {A} (a : A) : agree (ret a) (ret a).
Proof. intros w. exists (Ok a), w, []. split; apply yields_ret. Qed.

Lemma agree_raise {A} e : agree (@raise _ _ A e) (raise e).
Proof. intros w. exists (Raise e), w, []. split; apply yields_raise. Qed.

Lemma agree_lift {A} (r : Result A) : agree (lift r) (lift r).
Proof. destruct r; [apply agree_ret | apply agree_raise]. Qed.

Lemma agree_print line : agree (print line) (print line).
Proof. intros w. exists (Ok tt), w, [EvPrint line]. split; apply yields_print. Qed.

Lemma agree_sdk c1 c2 : agree (call_sdk c1) (call_sdk c2).
Proof. apply agree_silent; apply silent_sdk. Qed.

Lemma agree_set_data s1 k1 x1 s2 k2 x2 : agree (set_data s1 k1 x1) (set_data s2 k2 x2).
Proof. apply agree_sdk. Qed.

Lemma agree_run cmd capture_output check :
  agree (subprocess_run cmd capture_output check)
        (subprocess_run cmd capture_output check).
Proof.
  intros w. destruct (spawn cmd w) as [o w'] eqn:Hs.
  exists (completed cmd capture_output check o), w', [EvSpawn cmd capture_output o].
  split; apply yields_run; assumption.
Qed.

Lemma agree_bind {A B} (m1 m2 : M A) (f1 f2 : A -> M B) :
  agree m1 m2 -> (forall a, agree (f1 a) (f2 a)) -> agree (bind m1 f1) (bind m2 f2).
Proof.
  intros Hm Hf w. destruct (Hm w) as (r & w1 & v1 & Y1 & Y2).
  destruct r as [a|e].
  - destruct (Hf a w1) as (r' & w2 & v2 & Z1 & Z2).
    exists r', w2, (v1 ++ v2)%list. split; eapply yields_bind_ok; eauto.
  - exists (Raise e), w1, v1. split; apply yields_bind_raise; assumption.
Qed.

Lemma agree_attempt {A} (m1 m2 : M A) : agree m1 m2 -> agree (attempt m1) (attempt m2).
Proof.
  intros Hm w. destruct (Hm w) as (r & w1 & v1 & Y1 & Y2).
  exists (Ok r), w1, v1. split; apply yields_attempt; assumption.
Qed.

Lemma agree_with_ctx {A} e1 x1 e2 x2 (b1 b2 : M A) :
  agree b1 b2 -> agree (with_ctx e1 x1 b1) (with_ctx e2 x2 b2).
Proof.
  intros Hb w. destruct (Hb w) as (r & w1 & v1 & Y1 & Y2).
  exists r, w1, v1. split; apply (yields_with_ctx Hq); assumption.
Qed.

Lemma agree_with_span {A} d o (b1 b2 : Span -> M A) :
  (forall span, agree (b1 span) (b2 span)) ->
  agree (with_span d o b1) (with_span d o b2).
Proof. intros H. apply agree_with_ctx, H. Qed.

Lemma agree_when b (m1 m2 : M unit) : agree m1 m2 -> agree (when b m1) (when b m2).
Proof. destruct b; [auto | intros _; apply agree_ret]. Qed.

Lemma agree_stdout_strip r : agree (stdout_strip r) (stdout_strip r).
Proof.
  unfold stdout_strip. destruct (stdout r); [apply agree_ret | apply agree_raise].
Qed.

Lemma agree_for_each {A} (l : list A) (f1 f2 : A -> M unit) :
  (forall x, agree (f1 x) (f2 x)) -> agree (for_each l f1) (for_each l f2).
Proof.
  intros Hf. induction l as [|x r IH]; simpl.
  - apply agree_ret.
  - apply agree_bind; [apply Hf | intros _; exact IH].
Qed.

Ltac astep :=
  first [ apply agree_ret | apply agree_raise | apply agree_print
        | apply agree_set_data | apply agree_sdk | apply agree_run
        | apply agree_stdout_strip | apply agree_lift
        | apply agree_with_span; intros ?
        | apply agree_with_ctx
        | apply agree_attempt
        | apply agree_when
        | apply agree_bind; [| intros ?] ].

Lemma agree_get_available_space path :
  agree (get_available_space path) (get_available_space path).
Proof.
  unfold get_available_space. destruct path as [[|c p]|]; simpl; repeat astep.
Qed.

Lemma agree_format_byte_count kb : agree (format_byte_count kb) (format_byte_count kb).
Proof. unfold format_byte_count. repeat astep. Qed.

Lemma agree_print_saved_space saved title :
  agree (print_saved_space saved title) (print_saved_space saved title).
Proof.
  unfold print_saved_space, print_separation_line.
  destruct title as [[|c t]|]; simpl;
    repeat first [apply agree_format_byte_count | astep].
Qed.

Lemma agree_print_dh caption : agree (print_dh caption) (print_dh caption).
Proof.
  unfold print_dh, print_separation_line.
  destruct caption as [[|c t]|]; simpl; repeat astep.
Qed.

(** The two environments: they differ in [SENTRY_DSN] at most. *)
Variables environ1 environ2 : string -> option string.
Hypothesis Henv : forall k, k <> "SENTRY_DSN" -> environ1 k = environ2 k.

Lemma environ_get_agree k d :
  k <> "SENTRY_DSN" -> environ_get environ1 k d = environ_get environ2 k d.
Proof. intros Hk. unfold environ_get. rewrite (Henv k Hk). reflexivity. Qed.

Lemma get_input_agree name d : get_input environ1 name d = get_input environ2 name d.
Proof.
  unfold get_input. rewrite environ_get_agree; [reflexivity|].
  simpl. discriminate.
Qed.

Lemma agree_run_command cmd error_msg :
  agree (run_command environ1 cmd error_msg) (run_command environ2 cmd error_msg).
Proof.
  unfold run_command. apply agree_bind; [repeat astep|].
  intros [b|[rc c|m| |m]]; [apply agree_ret | | apply agree_raise ..].
  apply agree_bind; [destruct error_msg as [m|]; repeat astep|].
  intros _. apply agree_bind; [|intros _; apply agree_ret].
  apply agree_silent; apply silent_when, silent_with_ctx;
    repeat (apply silent_bind; [apply silent_sdk|]); apply silent_sdk.
Qed.

Ltac astep' :=
  first [ apply agree_get_available_space | apply agree_format_byte_count
        | apply agree_print_saved_space | apply agree_print_dh
        | apply agree_run_command | astep ].

Lemma agree_run_batch commands :
  agree (run_batch environ1 commands) (run_batch environ2 commands).
Proof.
  unfold run_batch. apply agree_for_each. intros [i cmd].
  unfold run_apt_command. repeat astep'.
Qed.

Lemma agree_cleanup_stages :
  agree (cleanup_stages environ1) (cleanup_stages environ2).
Proof.
  unfold cleanup_stages. rewrite !get_input_agree.
  unfold cleanup_android, cleanup_dotnet, cleanup_haskell, cleanup_packages,
    cleanup_docker, cleanup_toolcache, cleanup_swap.
  rewrite (environ_get_agree "AGENT_TOOLSDIRECTORY") by discriminate.
  repeat first [apply agree_run_batch | astep'].
Qed.

Lemma agree_main : agree (main environ1) (main environ2).
Proof.
  unfold main, with_transaction. apply agree_with_ctx.
  unfold cleanup_init, cleanup_stats.
  repeat first [apply agree_cleanup_stages | astep'].
Qed.

Lemma silent_init_sentry environ : silent (init_sentry environ).
Proof.
  unfold init_sentry. apply silent_when.
  repeat (apply silent_bind; [apply silent_sdk|]); apply silent_sdk.
Qed.

Lemma agree_script : agree (script environ1) (script environ2).
Proof.
  unfold script. apply agree_bind; [apply agree_silent; apply silent_init_sentry|].
  intros _. apply agree_bind.
  - apply agree_attempt, agree_with_span. intros _. apply agree_main.
  - intros [[]|e]; [apply agree_ret|].
    apply agree_bind; [|intros _; apply agree_raise].
    apply agree_silent; apply silent_when, silent_sdk.
Qed.

End Agreement.

(** *** Facts on the string primitives *)

Lemma rstrip_first c r c' r' :
  Py.rstrip (String c r) = String c' r' -> c' = c.
Proof.
  simpl. destruct (Py.rstrip r).
  - destruct (Py.isspace c); [discriminate | intros H; inversion H; reflexivity].
  - intros H; inversion H; reflexivity.
Qed.


Lemma lstrip_first c r s :
  Py.lstrip s = String c r -> Py.isspace c = false.
Proof.
  induction s as [|a s IH]; simpl; [discriminate|].
  destruct (Py.isspace a) eqn:Ha; [exact IH|].
  intros H; inversion H; subst; exact Ha.
Qed.

(** What [strip] returns does not start with a blank. *)
Lemma strip_first c r s :
  Py.strip s = String c r -> Py.isspace c = false.
Proof.
  unfold Py.strip. destruct (Py.lstrip s) as [|a t] eqn:E; [discriminate|].
  intros H. apply rstrip_first in H. subst. eapply lstrip_first; eauto.
Qed.








(** [str] writes a minus sign exactly in front of the negative integers. *)
Lemma str_negative n : n < 0 -> exists r, Py.str n = String "-" r.
Proof.
  destruct n; try lia. intros _. unfold Py.str. simpl. eauto.
Qed.

Lemma string_of_uint_no_minus d r : NilZero.string_of_uint d <> String "-" r.
Proof.
  unfold NilZero.string_of_uint. destruct d; simpl; discriminate.
Qed.

Lemma str_nonnegative n r : 0 <= n -> Py.str n <> String "-" r.
Proof.
  intros Hn. unfold Py.str. destruct n; try lia.
  - discriminate.
  - exact (string_of_uint_no_minus (Pos.to_uint p) r).
Qed.

(** *** The measurement is the sum over the data rows *)

Lemma add_line_spec total line : add_line total line = total + row_available line.
Proof.
  unfold add_line, row_available, fourth_field.
  destruct (Py.split line) as [|a [|b [|c [|d r]]]]; simpl; try lia.
  destruct (Py.int d); lia.
Qed.

Lemma fold_add_line rows : forall total,
  fold_left add_line rows total = total + Zsum (map row_available rows).
Proof.
  induction rows as [|row rest IH]; intros total; simpl; [lia|].
  rewrite IH, add_line_spec. lia.
Qed.

Lemma measure_spec report : measure report = spec_available report.
Proof.
  unfold measure, sum_available, spec_available, data_rows.
  rewrite fold_add_line. lia.
Qed.



(** *** Reading a flag *)

Lemma lowers_to_t : lowers_to "t".
Proof. intros [[] [] [] [] [] [] [] []]; reflexivity. Qed.

Lemma lowers_to_r : lowers_to "r".
Proof. intros [[] [] [] [] [] [] [] []]; reflexivity. Qed.

Lemma lowers_to_u : lowers_to "u".
Proof. intros [[] [] [] [] [] [] [] []]; reflexivity. Qed.

Lemma lowers_to_e : lowers_to "e".
Proof. intros [[] [] [] [] [] [] [] []]; reflexivity. Qed.

Lemma lower_eqb_ignore_case t : all_chars lowers_to t ->
  forall v, String.eqb (Py.lower v) t = eq_ignore_case v t.
Proof.
  induction t as [|y t IH]; intros Ht v; destruct v as [|x v]; try reflexivity.
  destruct Ht as [Hy Ht]. cbn [Py.lower Py.map_str String.eqb eq_ignore_case].
  rewrite Hy, (IH Ht). reflexivity.
Qed.

Lemma get_input_spec environ name default :
  get_input environ name default
  = eq_ignore_case (environ_get environ (input_name name) default) "true".
Proof.
  unfold get_input, input_name. apply lower_eqb_ignore_case.
  simpl. auto using lowers_to_t, lowers_to_r, lowers_to_u, lowers_to_e.
Qed.

(** *** The banners in the transcript *)

Lemma stage_banners_app a b :
  stage_banners (a ++ b) = (stage_banners a ++ stage_banners b)%list.
Proof. apply flat_map_app. Qed.

Lemma banner_title_titled t f :
  In t stage_titles -> banner_title (banner (Some t) f) = Some t.
Proof.
  intros H. unfold stage_titles in H. simpl in H.
  repeat (destruct H as [<-|H]; [reflexivity|]). contradiction.
Qed.

Lemma banners_probe path a v : probe_post path a v -> stage_banners v = [].
Proof. intros (rc & out & -> & _). reflexivity. Qed.

Lemma banners_format kb f v : format_post kb f v -> stage_banners v = [].
Proof. intros (rc & out & -> & _). reflexivity. Qed.

Lemma banners_saved_titled saved t v :
  In t stage_titles -> saved_post saved (Some t) tt v -> stage_banners v = [t].
Proof.
  intros Ht (rc & out & ->). unfold tr_saved, tr_format, stage_banners.
  cbn [app flat_map].
  rewrite (banner_title_titled t (Py.strip out) Ht). reflexivity.
Qed.

Lemma banners_saved_untitled saved v :
  saved_post saved None tt v -> stage_banners v = [].
Proof. intros (rc & out & ->). reflexivity. Qed.

Lemma banners_command cmd error_msg b v :
  command_post cmd error_msg b v -> stage_banners v = [].
Proof.
  intros (rc & out & -> & _). unfold tr_command.
  destruct (rc =? 0); [reflexivity|]. destruct error_msg as [[|c m]|]; reflexivity.
Qed.

Lemma banners_ops commands : forall v, ops_post commands v -> stage_banners v = [].
Proof.
  induction commands as [|cmd rest IH]; simpl; intros v.
  - intros ->. reflexivity.
  - intros (b & v1 & v2 & -> & Hc & Hr).
    rewrite stage_banners_app, (banners_command _ _ _ _ Hc), (IH _ Hr). reflexivity.
Qed.

Lemma banners_batch commands : forall v, batch_post commands v -> stage_banners v = [].
Proof.
  induction commands as [|cmd rest IH]; simpl; intros v.
  - intros ->. reflexivity.
  - intros (b & v1 & v2 & -> & Hc & Hr).
    rewrite stage_banners_app, (banners_command _ _ _ _ Hc), (IH _ Hr). reflexivity.
Qed.

Lemma banners_dh caption v :
  banner_title caption = None -> dh_post caption tt v -> stage_banners v = [].
Proof.
  intros Hc (o1 & o2 & o3 & ->). unfold tr_dh, stage_banners.
  cbn [app flat_map]. rewrite Hc. reflexivity.
Qed.

Lemma banners_stage t (P : list Event -> Prop) v :
  In t stage_titles -> (forall vo, P vo -> stage_banners vo = []) ->
  stage_post t P tt v -> stage_banners v = [t].
Proof.
  intros Ht HP (before & after & vb & vo & va & vf & vs & -> & Hb & Ho & Ha & [f Hf] & Hs).
  rewrite !stage_banners_app, (banners_probe _ _ _ Hb), (HP _ Ho),
    (banners_probe _ _ _ Ha), (banners_format _ _ _ Hf),
    (banners_saved_titled _ _ _ Ht Hs).
  reflexivity.
Qed.

Lemma stage_table_plain environ : Forall plain_stage (stage_table environ).
Proof.
  unfold stage_table, plain_stage.
  repeat (apply Forall_cons; [split; [simpl; auto 10 | cbn [operations]]|]);
    [eauto using banners_ops, banners_batch ..|constructor].
Qed.

Lemma banners_seq l : Forall plain_stage l ->
  forall v, seq_post l v -> stage_banners v = map title l.
Proof.
  induction 1 as [|s l [Ht Ho] Hl IH]; simpl; intros v.
  - intros ->. reflexivity.
  - intros (v1 & v2 & -> & H1 & H2).
    rewrite stage_banners_app, (banners_stage _ _ _ Ht Ho H1), (IH _ H2). reflexivity.
Qed.

Lemma Forall_filter {A} (P : A -> Prop) f (l : list A) :
  Forall P l -> Forall P (filter f l).
Proof.
  induction 1 as [|x l Hx Hl IH]; simpl; [constructor|].
  destruct (f x); [constructor|]; assumption.
Qed.

Lemma banners_main environ v :
  main_post environ tt v ->
  stage_banners v = map title (filter (enabled environ) (stage_table environ)).
Proof.
  intros (measured & total & vi & vs & vf & vt & -> & Hi & Hs & Hf & [f Ht]).
  destruct Hi as (va & vr & vd & -> & Ha & Hr & Hd).
  destruct Hf as (a1 & r1 & wa & wr & wf & wd & ws1 & ws2 & -> & Ha1 & Hr1 & [g Hg]
                  & Hd1 & Hs1 & Hs2 & _).
  rewrite !stage_banners_app.
  rewrite (banners_probe _ _ _ Ha), (banners_probe _ _ _ Hr),
    (banners_dh "BEFORE CLEAN-UP:" _ eq_refl Hd), (banners_probe _ _ _ Ha1),
    (banners_probe _ _ _ Hr1),
    (banners_format _ _ _ Hg), (banners_dh "AFTER CLEAN-UP:" _ eq_refl Hd1),
    (banners_saved_untitled _ _ Hs1), (banners_saved_untitled _ _ Hs2),
    (banners_format _ _ _ Ht).
  rewrite (banners_seq _ (Forall_filter _ _ _ (stage_table_plain environ)) _ Hs).
  simpl. rewrite app_nil_r. reflexivity.
Qed.

(** ** The properties of the specification *)

Lemma quiet_noop : @quiet noop_sentry.
Proof. intros c s. reflexivity. Qed.

Lemma all_started_demo : @all_started demo_os.
Proof. intros cmd w. eexists _, _, _. reflexivity. Qed.

Lemma all_started_canned df_rc report rc : @all_started (canned_os df_rc report rc).
Proof.
  intros cmd w. unfold spawn, canned_os.
  destruct cmd as [|c r]; [eexists _, _, _; reflexivity|].
  destruct (String.eqb_spec c "df") as [->|_]; [eexists _, _, _; reflexivity|].
  destruct (String.eqb_spec c "numfmt") as [->|_]; [eexists _, _, _; reflexivity|].
  repeat match goal with
         | |- context [match ?x with _ => _ end] => destruct x
         end; eexists _, _, _; reflexivity.
Qed.

Lemma data_rows_empty_sum report : data_rows report = [] -> spec_available report = 0.
Proof. unfold spec_available. intros ->. reflexivity. Qed.

(** C3. Whenever [df] terminates with the report [report],
    [get_available_space] returns the sum, over the rows after the header,
    of the fourth field read as an integer, a row with fewer than four
    fields or with a fourth field that is not an integer counting for
    zero; without data rows the result is 0, and the rows 100, 200, x,
    300 give 600. *)
Theorem get_available_space_sums_fourth_fields
  {os : OS} {sentry : Sentry} (Hq : quiet)
  (path : option string) (w : World) (rc : Z) (report : string) (w' : World)
  (Hs : spawn (df_cmd path) w = (Exited rc report, w')) :
  yields (get_available_space path) w (Ok (spec_available report)) w'
    (tr_probe path rc report)
  /\ (data_rows report = [] -> spec_available report = 0)
  /\ map fourth_field (data_rows example_report)
     = [Some "100"; Some "200"; Some "x"; Some "300"]
  /\ map row_available (data_rows example_report) = [100; 200; 0; 300]
  /\ (report = example_report -> spec_available report = 600).
Proof.
  split; [|split; [|split; [|split]]].
  - rewrite <- measure_spec. apply yields_get_available_space; assumption.
  - apply data_rows_empty_sum.
  - reflexivity.
  - reflexivity.
  - intros ->. reflexivity.
Qed.

Lemma get_available_space_sums_fourth_fields_witness :
  @yields (canned_os 0 example_report 0) noop_sentry _
    (get_available_space None) tt (Ok 600) tt (tr_probe None 0 example_report).
Proof.
  exact (proj1 (@get_available_space_sums_fourth_fields
                  (canned_os 0 example_report 0) noop_sentry quiet_noop
                  None tt 0 example_report tt eq_refl)).
Defined.




(** C10. Whenever the [df] process terminates, with any exit status and
    any text, [get_available_space] returns an integer and raises
    nothing; it prints nothing, and an output that is empty or holds the
    header only gives 0. *)
Theorem get_available_space_total
  {os : OS} {sentry : Sentry} (Hq : quiet)
  (path : option string) (w : World) (rc : Z) (report : string) (w' : World)
  (Hs : spawn (df_cmd path) w = (Exited rc report, w')) :
  yields (get_available_space path) w (Ok (measure report)) w'
    [EvSpawn (df_cmd path) true (Exited rc report)]
  /\ printed [EvSpawn (df_cmd path) true (Exited rc report)] = []
  /\ (data_rows report = [] -> measure report = 0)
  /\ data_rows EmptyString = []
  /\ data_rows (df_header ++ newline) = [].
Proof.
  split; [|split; [|split; [|split]]]; try reflexivity.
  - apply yields_get_available_space; assumption.
  - intros H. rewrite measure_spec. apply data_rows_empty_sum, H.
Qed.

Lemma get_available_space_total_witness :
  @yields (canned_os 1 EmptyString 0) noop_sentry _
    (get_available_space None) tt (Ok 0) tt
    [EvSpawn ["df"; "-a"] true (Exited 1 EmptyString)].
Proof.
  exact (proj1 (@get_available_space_total
                  (canned_os 1 EmptyString 0) noop_sentry quiet_noop
                  None tt 1 EmptyString tt eq_refl)).
Defined.

(** C6, the inputs that refute it, on the small host whose [numfmt]
    answers as the GNU tool does: [numfmt] pads the zero amount to seven
    columns, and [format_byte_count 0] returns it in two; the amount
    1048576 comes back as 1000 of the Mi unit; and for the amount -500 the
    tool, which reads -500000 as options, ends with the exit status 1 and
    prints nothing, so that [format_byte_count (-500)] returns the empty
    string, without a minus sign. *)
Lemma format_byte_count_drops_padding :
  @spawn demo_os (numfmt_cmd 0) 5000 = (Exited 0 ("     0B" ++ newline), 5000)
  /\ String.length "     0B" = 7%nat
  /\ fst (format_byte_count 0 (demo_state noop_sentry tt 5000)) = Ok "0B"
  /\ (String.length "0B" < 7)%nat
  /\ fst (format_byte_count 1048576 (demo_state noop_sentry tt 5000)) = Ok "1000MiB"
  /\ @spawn demo_os (numfmt_cmd (-500)) 5000 = (Exited 1 EmptyString, 5000)
  /\ fst (format_byte_count (-500) (demo_state noop_sentry tt 5000)) = Ok EmptyString.
Proof. repeat split; try reflexivity. simpl. lia. Qed.

(** C6, as amended. [format_byte_count kb] hands the decimal numeral of
    [kb] followed by three zeros to [numfmt --to=iec-i --suffix=B
    --padding=7] and returns what the tool wrote on its standard output,
    whatever its exit status, without the blanks around it: the padding
    of the tool is not kept, and the result starts with no blank.  The
    numeral handed over starts with a minus sign exactly when [kb] is
    negative; whether the result has one is up to the tool.  The amounts
    0, -500 and 1048576 reach the tool as 0, -500000 and 1000 times 1024
    times 1024. *)
Theorem format_byte_count_strips_numfmt_output
  {os : OS} {sentry : Sentry} (Hq : quiet)
  (kb : Z) (w : World) (rc : Z) (out : string) (w' : World)
  (Hs : spawn (numfmt_cmd kb) w = (Exited rc out, w')) :
  yields (format_byte_count kb) w (Ok (Py.strip out)) w'
    [EvSpawn ["numfmt"; "--to=iec-i"; "--suffix=B"; "--padding=7"; Py.str kb ++ "000"]
       true (Exited rc out)]
  /\ (forall c r, Py.strip out = String c r -> Py.isspace c = false)
  /\ (kb < 0 -> exists r, Py.str kb ++ "000" = String "-" r)
  /\ (0 <= kb -> forall r, Py.str kb ++ "000" <> String "-" r)
  /\ map (fun n => Py.int (Py.str n ++ "000")) [0; -500; 1048576]
     = [Some 0; Some (-500000); Some (1000 * 1024 * 1024)].
Proof.
  split; [|split; [|split; [|split]]].
  - apply yields_format_byte_count; assumption.
  - intros c r H. eapply strip_first; eauto.
  - intros Hk. destruct (str_negative kb Hk) as [r ->]. simpl. eauto.
  - intros Hk r H. destruct (Py.str kb) as [|c s] eqn:E.
    + simpl in H. discriminate.
    + simpl in H. inversion H; subst. apply (str_nonnegative kb s Hk E).
  - reflexivity.
Qed.

Lemma format_byte_count_strips_numfmt_output_witness :
  @yields demo_os noop_sentry _ (format_byte_count 1048576) 5000
    (Ok (Py.strip ("1000MiB" ++ newline))) 5000
    [EvSpawn ["numfmt"; "--to=iec-i"; "--suffix=B"; "--padding=7"; "1048576000"]
       true (Exited 0 ("1000MiB" ++ newline))].
Proof.
  exact (proj1 (@format_byte_count_strips_numfmt_output
                  demo_os noop_sentry quiet_noop 1048576 5000 0
                  ("1000MiB" ++ newline) 5000 eq_refl)).
Defined.

Lemma spawned_app a b : spawned (a ++ b) = (spawned a ++ spawned b)%list.
Proof. apply flat_map_app. Qed.

Lemma spawned_command cmd error_msg b v :
  command_post cmd error_msg b v -> map fst (spawned v) = [cmd].
Proof.
  intros (rc & out & -> & _). unfold tr_command.
  destruct (rc =? 0); [reflexivity|]. destruct error_msg as [[|c m]|]; reflexivity.
Qed.

Lemma spawned_batch commands : forall v,
  batch_post commands v -> map fst (spawned v) = commands.
Proof.
  induction commands as [|cmd rest IH]; simpl; intros v.
  - intros ->. reflexivity.
  - intros (b & v1 & v2 & -> & Hc & Hr).
    rewrite spawned_app, map_app, (spawned_command _ _ _ _ Hc), (IH _ Hr). reflexivity.
Qed.

Lemma yields_run_apt_command {os : OS} {sentry : Sentry} (Hq : quiet)
  environ total i cmd w rc out w' :
  spawn cmd w = (Exited rc out, w') ->
  yields (run_apt_command environ total (i, cmd)) w (Ok tt) w'
    (tr_command cmd (Some (apt_error_msg cmd)) rc out).
Proof.
  intros Hs. unfold run_apt_command. apply (yields_with_span Hq).
  eapply yields_conv.
  - eapply yields_bind_ok; [apply (yields_set_data Hq)|].
    eapply yields_bind_ok; [apply (yields_run_command environ Hq); exact Hs|].
    apply (yields_set_data Hq).
  - rewrite app_nil_r. reflexivity.
Qed.

(** C1, the input that refutes it: the command of the first stage exits
    with status 1; [run_command], called as [main] calls it, returns
    false and prints no line at all. *)
Lemma run_command_failure_without_warning :
  @spawn (canned_os 0 df_header 1) ["sudo"; "rm"; "-rf"; "/usr/local/lib/android"] tt
  = (Exited 1 EmptyString, tt)
  /\ fst (run_command no_environ ["sudo"; "rm"; "-rf"; "/usr/local/lib/android"] None
            (canned_state 0 df_header 1)) = Ok false
  /\ printed (trace (snd (run_command no_environ
                            ["sudo"; "rm"; "-rf"; "/usr/local/lib/android"] None
                            (canned_state 0 df_header 1)))) = [].
Proof. repeat split; reflexivity. Qed.

(** C1, as amended. A command that starts and terminates with a
    non-zero exit status makes [run_command] return false without
    raising; a warning line is printed exactly when a non-empty error
    message was given, which [main] does in the package stage only.  The
    batch goes on: with a first command that fails and a second that
    succeeds both are run, in order, and the results are false and true;
    when every command starts, a batch runs all of its commands whatever
    their exit statuses, and the whole script returns. *)
Theorem run_command_tolerates_failure
  {os : OS} {sentry : Sentry} (Hq : quiet) (environ : string -> option string) :
  (forall cmd error_msg w rc out w',
     spawn cmd w = (Exited rc out, w') -> rc <> 0 ->
     yields (run_command environ cmd error_msg) w (Ok false) w'
       (EvSpawn cmd false (Exited rc out)
        :: match error_msg with
           | Some (String c m) => [EvPrint ("::warning::" ++ String c m)]
           | _ => []
           end))
  /\ (forall A B w rcA outA w1 outB w2,
        spawn A w = (Exited rcA outA, w1) -> rcA <> 0 ->
        spawn B w1 = (Exited 0 outB, w2) ->
        yields (run_command environ A (Some (apt_error_msg A))) w (Ok false) w1
          [EvSpawn A false (Exited rcA outA); EvPrint ("::warning::" ++ apt_error_msg A)]
        /\ yields (run_command environ B (Some (apt_error_msg B))) w1 (Ok true) w2
             [EvSpawn B false (Exited 0 outB)]
        /\ yields (run_batch environ [A; B]) w (Ok tt) w2
             [EvSpawn A false (Exited rcA outA);
              EvPrint ("::warning::" ++ apt_error_msg A);
              EvSpawn B false (Exited 0 outB)])
  /\ (all_started ->
      (forall commands,
         returns (run_batch environ commands)
           (fun _ v => map fst (spawned v) = commands))
      /\ returns (script environ) (main_post environ)).
Proof.
  assert (Hfail : forall cmd error_msg w rc out w',
             spawn cmd w = (Exited rc out, w') -> rc <> 0 ->
             yields (run_command environ cmd error_msg) w (Ok false) w'
               (EvSpawn cmd false (Exited rc out) :: tr_warning error_msg)).
  { intros cmd error_msg w rc out w' Hs Hrc.
    pose proof (yields_run_command_nonzero environ Hq cmd error_msg w rc out w' Hs Hrc) as H.
    unfold tr_command in H. apply Z.eqb_neq in Hrc. rewrite Hrc in H. exact H. }
  split; [exact Hfail|split].
  - intros A B w rcA outA w1 outB w2 HA HrcA HB.
    assert (EA : tr_command A (Some (apt_error_msg A)) rcA outA
                 = [EvSpawn A false (Exited rcA outA);
                    EvPrint ("::warning::" ++ apt_error_msg A)]).
    { unfold tr_command. apply Z.eqb_neq in HrcA. rewrite HrcA. reflexivity. }
    split; [|split].
    + exact (Hfail A (Some (apt_error_msg A)) w rcA outA w1 HA HrcA).
    + exact (yields_run_command_ok environ Hq B _ w1 outB w2 HB).
    + change (run_batch environ [A; B])
        with (bind (run_apt_command environ 2 (0%nat, A))
                (fun _ => bind (run_apt_command environ 2 (1%nat, B))
                            (fun _ => ret tt))).
      eapply yields_conv.
      * eapply yields_bind_ok;
          [exact (yields_run_apt_command Hq environ 2 0 A w rcA outA w1 HA)|].
        eapply yields_bind_ok;
          [exact (yields_run_apt_command Hq environ 2 1 B w1 0 outB w2 HB)|].
        apply yields_ret.
      * rewrite EA. reflexivity.
  - intros Hall. split.
    + intros commands. eapply returns_weaken; [apply (returns_run_batch environ Hq Hall)|].
      intros [] v Hv. apply spawned_batch, Hv.
    + apply (returns_script environ Hq Hall).
Qed.

Lemma run_command_tolerates_failure_witness :
  @yields (canned_os 0 df_header 1) noop_sentry _
    (run_command no_environ ["sudo"; "apt-get"; "clean"]
       (Some (apt_error_msg ["sudo"; "apt-get"; "clean"]))) tt (Ok false) tt
    [EvSpawn ["sudo"; "apt-get"; "clean"] false (Exited 1 EmptyString);
     EvPrint "::warning::The command [sudo apt-get clean] failed to complete successfully. Proceeding..."]
  /\ @returns (canned_os 0 df_header 1) noop_sentry _
       (script no_environ) (main_post no_environ).
Proof.
  pose proof (@run_command_tolerates_failure (canned_os 0 df_header 1) noop_sentry
                quiet_noop no_environ) as (H1 & _ & H3).
  split.
  - apply (H1 ["sudo"; "apt-get"; "clean"]
              (Some (apt_error_msg ["sudo"; "apt-get"; "clean"])) tt 1 EmptyString tt).
    + reflexivity.
    + discriminate.
  - apply (H3 (all_started_canned 0 df_header 1)).
Defined.

(** C2. In every run of [main] (every command starting), two
    measurements are taken first, over all mounts and of the root, and
    two again after the stages; the amounts that are then formatted and
    printed under [/dev/root:] and [overall:] are the end measurement
    minus the start measurement of the same scope, whatever the stages in
    between measured. *)
Theorem main_aggregates_are_end_minus_start
  {os : OS} {sentry : Sentry} (Hq : quiet) (Hall : all_started)
  (environ : string -> option string) :
  returns (main environ) (fun _ v =>
    exists rc0 out0 rc0' out0' rc1 out1 rc1' out1' vd0 vs vd1
           rcf outf rcr outr rct outt rcx outx,
      let start_total := measure out0 in
      let start_root := measure out0' in
      let end_total := measure out1 in
      let end_root := measure out1' in
      let total_saved := end_total - start_total in
      let root_saved := end_root - start_root in
      v = (tr_probe None rc0 out0 ++ tr_probe (Some "/") rc0' out0'
           ++ vd0 ++ [EvPrint EmptyString]
           ++ vs
           ++ tr_probe None rc1 out1 ++ tr_probe (Some "/") rc1' out1'
           ++ tr_format total_saved rcf outf
           ++ [EvPrint EmptyString] ++ vd1
           ++ [EvPrint EmptyString; EvPrint EmptyString; EvPrint "/dev/root:"]
           ++ tr_saved root_saved None rcr outr
           ++ [EvPrint "overall:"]
           ++ tr_saved total_saved None rct outt
           ++ tr_format total_saved rcx outx)%list
      /\ dh_post "BEFORE CLEAN-UP:" tt vd0
      /\ stages_post environ tt vs
      /\ dh_post "AFTER CLEAN-UP:" tt vd1).
Proof.
  eapply returns_weaken; [apply (returns_main environ Hq Hall)|].
  intros [] v (measured & total & vi & vs & vf & vt & -> & Hi & Hs & Hf & [f Ht]).
  destruct Hi as (va & vr & vd & -> & (rc0 & out0 & -> & E0) & (rc0' & out0' & -> & E0') & Hd).
  destruct Hf as (a1 & r1 & wa & wr & wf & wd & ws1 & ws2 & -> & (rc1 & out1 & -> & E1)
                  & (rc1' & out1' & -> & E1') & [g (rcf & outf & -> & _)]
                  & Hd1 & (rcr & outr & ->) & (rct & outt & ->) & ->).
  destruct Ht as (rcx & outx & -> & _).
  rewrite E0, E0', E1, E1'.
  exists rc0, out0, rc0', out0', rc1, out1, rc1', out1', vd, vs, wd,
    rcf, outf, rcr, outr, rct, outt, rcx, outx.
  cbv zeta. split; [|auto].
  rewrite <- !app_assoc. reflexivity.
Qed.

Lemma main_aggregates_are_end_minus_start_witness :
  @returns demo_os noop_sentry _ (main no_environ) (fun _ v =>
    exists rc0 out0 rc0' out0' rc1 out1 rc1' out1' vd0 vs vd1
           rcf outf rcr outr rct outt rcx outx,
      v = (tr_probe None rc0 out0 ++ tr_probe (Some "/") rc0' out0'
           ++ vd0 ++ [EvPrint EmptyString]
           ++ vs
           ++ tr_probe None rc1 out1 ++ tr_probe (Some "/") rc1' out1'
           ++ tr_format (measure out1 - measure out0) rcf outf
           ++ [EvPrint EmptyString] ++ vd1
           ++ [EvPrint EmptyString; EvPrint EmptyString; EvPrint "/dev/root:"]
           ++ tr_saved (measure out1' - measure out0') None rcr outr
           ++ [EvPrint "overall:"]
           ++ tr_saved (measure out1 - measure out0) None rct outt
           ++ tr_format (measure out1 - measure out0) rcx outx)%list
      /\ dh_post "BEFORE CLEAN-UP:" tt vd0
      /\ stages_post no_environ tt vs
      /\ dh_post "AFTER CLEAN-UP:" tt vd1).
Proof.
  exact (@main_aggregates_are_end_minus_start demo_os noop_sentry
           quiet_noop all_started_demo no_environ).
Defined.

(** C4. The flags are read in the order android, dotnet, haskell,
    large-packages, docker-images, tool-cache, swap-storage; the stage
    banners of a run of [main] are the titles of the enabled stages, in
    that order, one each; the stages part of the transcript is made of the
    transcripts of the enabled stages only; and a stage whose flag is
    false leaves the state as it was. *)
Theorem stages_run_in_fixed_order
  {os : OS} {sentry : Sentry} (Hq : quiet) (Hall : all_started)
  (environ : string -> option string) :
  map flag (stage_table environ)
  = ["android"; "dotnet"; "haskell"; "large-packages"; "docker-images";
     "tool-cache"; "swap-storage"]
  /\ returns (main environ) (fun _ v =>
       stage_banners v = map title (filter (enabled environ) (stage_table environ)))
  /\ returns (cleanup_stages environ) (fun _ v =>
       seq_post (filter (enabled environ) (stage_table environ)) v)
  /\ (forall name default (body : M unit) st,
        get_input environ name default = false ->
        when (get_input environ name default) body st = (Ok tt, st)).
Proof.
  split; [reflexivity|split; [|split]].
  - eapply returns_weaken; [apply (returns_main environ Hq Hall)|].
    intros [] v Hv. apply banners_main, Hv.
  - apply (returns_cleanup_stages environ Hq Hall).
  - intros name default body st ->. reflexivity.
Qed.

Lemma stages_run_in_fixed_order_witness :
  @returns demo_os noop_sentry _
    (main (set_environ "INPUT_DOTNET" "false" no_environ)) (fun _ v =>
       stage_banners v
       = ["Android library"; "Haskell runtime"; "Large misc. packages";
          "Docker images"; "Swap storage"]).
Proof.
  exact (proj1 (proj2 (@stages_run_in_fixed_order demo_os noop_sentry
                         quiet_noop all_started_demo
                         (set_environ "INPUT_DOTNET" "false" no_environ)))).
Defined.

(** C5, the run that shows the defect.  On the small host, whose
    [numfmt] answers as the GNU tool does, the stage of the container
    images measures 9000 and then 8800 kilobytes and computes the saving
    -200; it hands -200000 to [numfmt], which reads it as options and
    prints nothing, and the banner of the stage holds no amount, neither
    -200 nor 200.  A stage that gains space reports it: from the same
    state the first stage prints 977KiB for its thousand kilobytes. *)
Theorem negative_saving_prints_no_amount :
  fst (cleanup_docker no_environ (demo_state noop_sentry tt 9000)) = Ok tt
  /\ visible (trace (snd (cleanup_docker no_environ (demo_state noop_sentry tt 9000))))
     = (tr_probe None 0 (demo_output ["df"; "-a"] 9000)
        ++ tr_command ["sudo"; "docker"; "image"; "prune"; "--all"; "--force"]
             None 0 EmptyString
        ++ tr_probe None 0 (demo_output ["df"; "-a"] 8800)
        ++ tr_format (8800 - 9000) 1 EmptyString
        ++ tr_saved (8800 - 9000) (Some "Docker images") 1 EmptyString)%list
  /\ map measure [demo_output ["df"; "-a"] 9000; demo_output ["df"; "-a"] 8800]
     = [9000; 8800]
  /\ numfmt_cmd (8800 - 9000)
     = ["numfmt"; "--to=iec-i"; "--suffix=B"; "--padding=7"; "-200000"]
  /\ printed (trace (snd (cleanup_docker no_environ (demo_state noop_sentry tt 9000))))
     = [EmptyString; stars; "=> Docker images: Saved "; stars; EmptyString]
  /\ printed (trace (snd (cleanup_android no_environ (demo_state noop_sentry tt 9000))))
     = [EmptyString; stars; "=> Android library: Saved 977KiB"; stars; EmptyString].
Proof. repeat split; reflexivity. Qed.

(** C7. A flag, of an ASCII name, is read from the environment variable
    named [INPUT_] followed by the name of the flag in capitals with its
    hyphens turned into underscores; it is true exactly when the value of
    the variable, or the default when the variable is not set, is the word
    true up to the case of its letters.  [main] reads the seven flags with
    the default true, except tool-cache whose default is false, so that
    without any variable set every stage but the tool cache runs. *)
Theorem get_input_reads_environment
  {os : OS} {sentry : Sentry} (Hq : quiet) (Hall : all_started)
  (environ : string -> option string) :
  (forall name default,
     Py.isascii name = true ->
     get_input environ name default
     = eq_ignore_case
         (match environ ("INPUT_" ++ Py.upper (Py.replace "-" "_" name)) with
          | Some value => value
          | None => default
          end) "true")
  /\ map (fun s => (flag s, input_name (flag s), default s)) (stage_table environ)
     = [("android", "INPUT_ANDROID", "true");
        ("dotnet", "INPUT_DOTNET", "true");
        ("haskell", "INPUT_HASKELL", "true");
        ("large-packages", "INPUT_LARGE_PACKAGES", "true");
        ("docker-images", "INPUT_DOCKER_IMAGES", "true");
        ("tool-cache", "INPUT_TOOL_CACHE", "false");
        ("swap-storage", "INPUT_SWAP_STORAGE", "true")]
  /\ map (fun value => eq_ignore_case value "true")
       ["true"; "TRUE"; "True"; "tRuE"; "false"; "1"; "yes"; "on"; " true"; "true "; "tru"]
     = [true; true; true; true; false; false; false; false; false; false; false]
  /\ returns (cleanup_stages environ) (fun _ v =>
       seq_post (filter (fun s => get_input environ (flag s) (default s))
                   (stage_table environ)) v)
  /\ ((forall k, environ k = None) ->
      map flag (filter (fun s => get_input environ (flag s) (default s))
                  (stage_table environ))
      = ["android"; "dotnet"; "haskell"; "large-packages"; "docker-images";
         "swap-storage"]).
Proof.
  split; [|split; [|split; [|split]]].
  - intros name default _. apply get_input_spec.
  - reflexivity.
  - reflexivity.
  - apply (returns_cleanup_stages environ Hq Hall).
  - intros Hnone. unfold stage_table, get_input, environ_get. cbn [filter flag default].
    rewrite !Hnone. reflexivity.
Qed.

Lemma get_input_reads_environment_witness :
  map (fun s => get_input (set_environ "INPUT_TOOL_CACHE" "TRUE"
                             (set_environ "INPUT_HASKELL" "no" no_environ))
                  (flag s) (default s))
    (stage_table no_environ)
  = [true; true; false; true; true; true; true]
  /\ @returns demo_os noop_sentry _ (cleanup_stages no_environ) (fun _ v =>
       seq_post (filter (fun s => get_input no_environ (flag s) (default s))
                   (stage_table no_environ)) v).
Proof.
  split; [reflexivity|].
  exact (proj1 (proj2 (proj2 (proj2
           (@get_input_reads_environment demo_os noop_sentry
              quiet_noop all_started_demo no_environ))))).
Defined.

Lemma agree_same_run {os : OS} {sentry : Sentry} {A} (m1 m2 : M A) :
  agree m1 m2 -> same_run m1 m2.
Proof.
  intros H st1 st2 Hw. destruct (H (world st1)) as (r & w' & v & Y1 & Y2).
  destruct (Y1 st1 eq_refl) as (s1 & d1 & E1 & W1 & T1 & V1).
  destruct (Y2 st2 (eq_sym Hw)) as (s2 & d2 & E2 & W2 & T2 & V2).
  rewrite E1, E2. simpl. repeat split; try congruence.
  exists d1, d2. repeat split; congruence.
Qed.

(** C9, the input that refutes it: with a DSN that the library refuses,
    the run stops in [sentry_sdk.init] before anything is measured or
    printed; without a DSN the same host gets the whole transcript. *)
Lemma malformed_dsn_stops_the_run :
  fst (script (set_environ "SENTRY_DSN" "not-a-dsn" no_environ)
         (demo_state strict_sentry tt 5000))
  = Raise (SentryError "Unsupported scheme")
  /\ visible (trace (snd (script (set_environ "SENTRY_DSN" "not-a-dsn" no_environ)
                            (demo_state strict_sentry tt 5000)))) = []
  /\ fst (script no_environ (demo_state strict_sentry tt 5000)) = Ok tt
  /\ List.length (visible (trace (snd (script no_environ
                                         (demo_state strict_sentry tt 5000)))))
     = 132%nat.
Proof. repeat split; vm_compute; reflexivity. Qed.

(** C9, as amended. When every call into the telemetry library returns,
    two runs from the same host whose environments differ in [SENTRY_DSN]
    at most end alike: the whole script gives the same result, the same
    final host and the same transcript (the measurements, the amounts
    handed to [numfmt] and the printed lines), and so do [main], every
    call of [run_command] and every measurement, whatever the state of
    the library in either run. *)
Theorem telemetry_does_not_interfere
  {os : OS} {sentry : Sentry} (Hq : quiet)
  (environ1 environ2 : string -> option string)
  (Henv : forall k, k <> "SENTRY_DSN" -> environ1 k = environ2 k) :
  same_run (script environ1) (script environ2)
  /\ same_run (main environ1) (main environ2)
  /\ (forall cmd error_msg,
        same_run (run_command environ1 cmd error_msg)
                 (run_command environ2 cmd error_msg))
  /\ (forall path, same_run (get_available_space path) (get_available_space path))
  /\ (forall kb, same_run (format_byte_count kb) (format_byte_count kb)).
Proof.
  split; [|split; [|split; [|split]]].
  - apply agree_same_run, (agree_script Hq environ1 environ2 Henv).
  - apply agree_same_run, (agree_main Hq environ1 environ2 Henv).
  - intros cmd error_msg.
    apply agree_same_run, (agree_run_command Hq environ1 environ2).
  - intros path. apply agree_same_run, (agree_get_available_space Hq).
  - intros kb. apply agree_same_run, (agree_format_byte_count Hq).
Qed.

Lemma set_environ_elsewhere key value environ k :
  k <> key -> environ k = set_environ key value environ k.
Proof.
  intros Hk. unfold set_environ. destruct (String.eqb_spec k key); [contradiction|reflexivity].
Defined.

Lemma telemetry_does_not_interfere_witness :
  @same_run demo_os noop_sentry _
    (script no_environ)
    (script (set_environ "SENTRY_DSN" "https://key@sentry.example/1" no_environ)).
Proof.
  exact (proj1 (@telemetry_does_not_interfere demo_os noop_sentry quiet_noop
                  no_environ
                  (set_environ "SENTRY_DSN" "https://key@sentry.example/1" no_environ)
                  (set_environ_elsewhere "SENTRY_DSN" _ no_environ))).
Defined.

(** ** Further properties of the script *)

(** *** What a run may do, whatever happens *)

Section Emits.

Context {os : OS} {sentry : Sentry}.
Variable P : Event -> Prop.

Lemma emits_ret {A} (a : A) : emits P (ret a).
Proof. intros st. exists []. rewrite app_nil_r. auto. Qed.

Lemma emits_raise {A} e : emits P (@raise _ _ A e).
Proof. intros st. exists []. rewrite app_nil_r. auto. Qed.

Lemma emits_lift {A} (r : Result A) : emits P (lift r).
Proof. destruct r; [apply emits_ret | apply emits_raise]. Qed.

Lemma emits_bind {A B} (m : M A) (f : A -> M B) :
  emits P m -> (forall a, emits P (f a)) -> emits P (bind m f).
Proof.
  intros Hm Hf st. destruct (Hm st) as (d1 & T1 & F1). unfold bind.
  destruct (m st) as [[a|e] st1]; simpl in *.
  - destruct (Hf a st1) as (d2 & T2 & F2). exists (d1 ++ d2)%list.
    rewrite T2, T1, app_assoc. split; [reflexivity | apply Forall_app; auto].
  - exists d1. auto.
Qed.

Lemma emits_attempt {A} (m : M A) : emits P m -> emits P (attempt m).
Proof.
  intros Hm st. destruct (Hm st) as (d1 & T1 & F1). unfold attempt.
  destruct (m st) as [r st1]. exists d1. auto.
Qed.

Lemma emits_print line : P (EvPrint line) -> emits P (print line).
Proof. intros H st. exists [EvPrint line]. simpl. auto. Qed.

Lemma emits_sdk c : P (EvSdk c) -> emits P (call_sdk c).
Proof.
  intros H st. exists [EvSdk c]. unfold call_sdk.
  destruct (sentry_sdk c (sdk st)) as [[msg|] s']; simpl; auto.
Qed.

Lemma emits_run cmd capture_output check :
  (forall o, P (EvSpawn cmd capture_output o)) ->
  emits P (subprocess_run cmd capture_output check).
Proof.
  intros H st. unfold subprocess_run. destruct (spawn cmd (world st)) as [o w'].
  exists [EvSpawn cmd capture_output o].
  destruct o as [rc out|msg]; [destruct (check && negb (rc =? 0))|]; simpl; auto.
Qed.

Lemma emits_stdout_strip r : emits P (stdout_strip r).
Proof.
  unfold stdout_strip. destruct (stdout r); [apply emits_ret | apply emits_raise].
Qed.

Lemma emits_when b (m : M unit) : (b = true -> emits P m) -> emits P (when b m).
Proof. destruct b; simpl; [auto | intros _; apply emits_ret]. Qed.

Lemma emits_with_ctx {A} enter exit (body : M A) :
  P (EvSdk enter) -> (forall x, P (EvSdk (exit x))) -> emits P body ->
  emits P (with_ctx enter exit body).
Proof.
  intros He Hx Hb. unfold with_ctx.
  apply emits_bind; [apply emits_sdk, He|]. intros _.
  apply emits_bind; [apply emits_attempt, Hb|]. intros r.
  apply emits_bind; [apply emits_sdk, Hx|]. intros _. apply emits_lift.
Qed.

Lemma emits_for_each {A} (l : list A) (f : A -> M unit) :
  (forall x, In x l -> emits P (f x)) -> emits P (for_each l f).
Proof.
  induction l as [|x r IH]; simpl; intros H.
  - apply emits_ret.
  - apply emits_bind; [apply H; auto|]. intros _. apply IH. auto.
Qed.

(** The events [P] has to accept: the printed lines, the calls on spans,
    every other telemetry call when a DSN is set, and the commands that
    are allowed. *)
Variable environ : string -> option string.
Hypothesis P_print : forall line, P (EvPrint line).
Hypothesis P_span : forall c, span_call c -> P (EvSdk c).
Hypothesis P_session :
  Py.truthy (SENTRY_DSN environ) = true -> forall c, P (EvSdk c).
Hypothesis P_spawn : forall cmd captured o, allowed environ cmd -> P (EvSpawn cmd captured o).

Ltac estep :=
  first [ apply emits_ret | apply emits_raise | apply emits_lift
        | apply emits_stdout_strip
        | apply emits_print; apply P_print
        | apply emits_sdk; apply P_span; exact I
        | apply emits_with_ctx;
          [apply P_span; exact I | intros ?; apply P_span; exact I |]
        | apply emits_attempt
        | apply emits_bind; [| intros ?] ].

Lemma emits_get_available_space path :
  In (df_cmd path) measuring_commands -> emits P (get_available_space path).
Proof.
  intros Hin. unfold get_available_space.
  assert (Hrun : emits P (subprocess_run (df_cmd path) true false)).
  { apply emits_run. intros o. apply P_spawn. left. exact Hin. }
  destruct path as [[|c p]|]; simpl;
    repeat first [exact Hrun | estep].
Qed.

Lemma emits_format_byte_count kb : emits P (format_byte_count kb).
Proof.
  unfold format_byte_count.
  assert (Hrun : emits P (subprocess_run (numfmt_cmd kb) true false)).
  { apply emits_run. intros o. apply P_spawn. right. left. eauto. }
  repeat first [exact Hrun | estep].
Qed.

Lemma emits_print_saved_space saved title : emits P (print_saved_space saved title).
Proof.
  unfold print_saved_space, print_separation_line.
  destruct title as [[|c t]|]; simpl;
    repeat first [apply emits_format_byte_count | estep].
Qed.

Lemma emits_print_dh caption : emits P (print_dh caption).
Proof.
  unfold print_dh, print_separation_line.
  destruct caption as [[|c t]|]; simpl;
    repeat first [ apply emits_run; intros ?; apply P_spawn; left; simpl; tauto
                 | estep ].
Qed.

Lemma emits_run_command cmd error_msg :
  allowed environ cmd -> emits P (run_command environ cmd error_msg).
Proof.
  intros Hc. unfold run_command.
  apply emits_bind.
  - repeat first [ apply emits_run; intros ?; apply P_spawn; exact Hc | estep ].
  - intros [b|[rc c|m| |m]]; [apply emits_ret | | apply emits_raise ..].
    apply emits_bind; [destruct error_msg as [[|a m]|]; simpl; repeat estep|].
    intros _. apply emits_bind; [|intros _; apply emits_ret].
    apply emits_when. intros Hdsn.
    apply emits_with_ctx; [apply P_session, Hdsn | intros x; apply P_session, Hdsn |].
    repeat (apply emits_bind; [apply emits_sdk, P_session, Hdsn | intros _]).
    apply emits_sdk, P_session, Hdsn.
Qed.

Lemma emits_run_batch commands :
  (forall cmd, In cmd commands -> allowed environ cmd) ->
  emits P (run_batch environ commands).
Proof.
  intros Hc. unfold run_batch, enumerate. apply emits_for_each.
  intros [i cmd] Hin. apply in_combine_r in Hin. unfold run_apt_command.
  repeat first [apply emits_run_command, Hc, Hin | estep].
Qed.

(** A command of a stage whose flag is on is allowed. *)
Lemma allowed_stage name default commands cmd :
  In (name, default, commands) (stage_commands environ) ->
  get_input environ name default = true ->
  In cmd commands -> allowed environ cmd.
Proof.
  intros Hs Hf Hc. right. right. exists (name, default, commands). auto.
Qed.

Ltac stage_step name default commands Hf :=
  first [ apply emits_get_available_space; simpl; tauto
        | apply emits_format_byte_count
        | apply emits_print_saved_space
        | apply emits_run_command;
          apply (allowed_stage name default commands);
          [simpl; tauto | exact Hf | simpl; tauto]
        | estep ].

Lemma emits_cleanup_stages : emits P (cleanup_stages environ).
Proof.
  unfold cleanup_stages.
  repeat (apply emits_bind; [| intros _]).
  - apply emits_when. intros Hf. unfold cleanup_android.
    repeat stage_step "android" "true"
      [["sudo"; "rm"; "-rf"; "/usr/local/lib/android"]] Hf.
  - apply emits_when. intros Hf. unfold cleanup_dotnet.
    repeat stage_step "dotnet" "true" [["sudo"; "rm"; "-rf"; "/usr/share/dotnet"]] Hf.
  - apply emits_when. intros Hf. unfold cleanup_haskell.
    repeat stage_step "haskell" "true"
      [["sudo"; "rm"; "-rf"; "/opt/ghc"]; ["sudo"; "rm"; "-rf"; "/usr/local/.ghcup"]] Hf.
  - apply emits_when. intros Hf. unfold cleanup_packages.
    repeat first
      [ apply emits_run_batch; intros cmd Hin;
        apply (allowed_stage "large-packages" "true" apt_commands);
        [simpl; tauto | exact Hf | exact Hin]
      | stage_step "large-packages" "true" apt_commands Hf ].
  - apply emits_when. intros Hf. unfold cleanup_docker.
    repeat stage_step "docker-images" "true"
      [["sudo"; "docker"; "image"; "prune"; "--all"; "--force"]] Hf.
  - apply emits_when. intros Hf. unfold cleanup_toolcache.
    destruct (environ_get environ "AGENT_TOOLSDIRECTORY" EmptyString) as [|c dir] eqn:E.
    + simpl. repeat stage_step "tool-cache" "false" (@nil (list string)) Hf.
    + simpl.
      repeat first
        [ apply emits_run_command;
          apply (allowed_stage "tool-cache" "false" [["sudo"; "rm"; "-rf"; String c dir]]);
          [unfold stage_commands; rewrite E; simpl; tauto | exact Hf | simpl; tauto]
        | stage_step "tool-cache" "false" (@nil (list string)) Hf ].
  - apply emits_when. intros Hf. unfold cleanup_swap.
    repeat stage_step "swap-storage" "true"
      [["sudo"; "swapoff"; "-a"]; ["sudo"; "rm"; "-f"; "/mnt/swapfile"];
       ["free"; "-h"]] Hf.
Qed.

Lemma emits_main : emits P (main environ).
Proof.
  unfold main, with_transaction, cleanup_init, cleanup_stats.
  repeat first [ apply emits_cleanup_stages
               | apply emits_get_available_space; simpl; tauto
               | apply emits_format_byte_count
               | apply emits_print_saved_space
               | apply emits_print_dh
               | estep ].
Qed.

Lemma emits_script : emits P (script environ).
Proof.
  unfold script. apply emits_bind.
  - unfold init_sentry. apply emits_when. intros Hdsn.
    repeat (apply emits_bind; [apply emits_sdk, P_session, Hdsn | intros _]).
    apply emits_sdk, P_session, Hdsn.
  - intros _. apply emits_bind.
    + apply emits_attempt, emits_with_ctx;
        [apply P_span; exact I | intros x; apply P_span; exact I | apply emits_main].
    + intros [[]|e]; [apply emits_ret|].
      apply emits_bind; [|intros _; apply emits_raise].
      apply emits_when. intros Hdsn. apply emits_sdk, P_session, Hdsn.
Qed.

End Emits.

(** X1. Whatever the host and the telemetry library do, every command
    the script runs is a measurement ([df -a], [df -a /], [df -h /]), a
    call of [numfmt] on an amount followed by 000, or a command of a stage
    whose flag is on; the directory of the tool cache is removed only
    when the variable that names it is not empty. *)
Theorem script_runs_allowed_commands_only
  {os : OS} {sentry : Sentry} (environ : string -> option string) (st : State) :
  exists d,
    trace (snd (script environ st)) = (trace st ++ d)%list
    /\ forall cmd captured o, In (EvSpawn cmd captured o) d -> allowed environ cmd.
Proof.
  destruct (emits_script (safe environ) environ) with (st := st) as (d & T & F);
    try (intros; exact I).
  - intros cmd captured o H. exact H.
  - exists d. split; [exact T|]. intros cmd captured o Hin.
    rewrite Forall_forall in F. exact (F _ Hin).
Qed.

Lemma allowed_rm environ cmd rest :
  allowed environ cmd -> cmd = "sudo" :: "rm" :: rest ->
  In rest [["-rf"; "/usr/local/lib/android"]; ["-rf"; "/usr/share/dotnet"];
           ["-rf"; "/opt/ghc"]; ["-rf"; "/usr/local/.ghcup"];
           ["-f"; "/mnt/swapfile"]]
  \/ (exists c dir, rest = ["-rf"; String c dir]
        /\ environ "AGENT_TOOLSDIRECTORY" = Some (String c dir)
        /\ get_input environ "tool-cache" "false" = true).
Proof.
  intros H E. subst cmd. destruct H as [Hm|[[kb Hk]|(s & Hs & Hf & Hc)]].
  - simpl in Hm. intuition discriminate.
  - discriminate.
  - unfold stage_commands in Hs. simpl in Hs.
    repeat (destruct Hs as [<-|Hs];
            [simpl in Hc, Hf;
             try (repeat (destruct Hc as [Hc|Hc];
                          [inversion Hc; subst; simpl; tauto|]); contradiction)|]);
      try contradiction.
    unfold environ_get in Hc.
    destruct (environ "AGENT_TOOLSDIRECTORY") as [[|c dir]|] eqn:E; simpl in Hc;
      try contradiction.
    destruct Hc as [Hc|[]]. inversion Hc; subst. right. exists c, dir. auto.
Qed.

(** X2. Whatever happens, the only things the script removes with [rm]
    are the four fixed directories, the swap file and, when the
    tool-cache flag is on, the directory that [AGENT_TOOLSDIRECTORY]
    names, which is then not empty: [rm -rf] is never run on an empty
    path. *)
Theorem script_removes_fixed_paths_only
  {os : OS} {sentry : Sentry} (environ : string -> option string) (st : State) :
  exists d,
    trace (snd (script environ st)) = (trace st ++ d)%list
    /\ forall rest captured o,
         In (EvSpawn ("sudo" :: "rm" :: rest) captured o) d ->
         In rest [["-rf"; "/usr/local/lib/android"]; ["-rf"; "/usr/share/dotnet"];
                  ["-rf"; "/opt/ghc"]; ["-rf"; "/usr/local/.ghcup"];
                  ["-f"; "/mnt/swapfile"]]
         \/ (exists c dir, rest = ["-rf"; String c dir]
               /\ environ "AGENT_TOOLSDIRECTORY" = Some (String c dir)
               /\ get_input environ "tool-cache" "false" = true).
Proof.
  destruct (emits_script (safe environ) environ) with (st := st) as (d & T & F);
    try (intros; exact I).
  - intros cmd captured o H. exact H.
  - exists d. split; [exact T|]. intros rest captured o Hin.
    rewrite Forall_forall in F. apply (allowed_rm environ _ rest (F _ Hin) eq_refl).
Qed.

(** X3. When [SENTRY_DSN] is not set, or is empty, the script makes no
    call that needs a telemetry session, whatever happens: no [init], no
    [set_tag], no scope and no [capture_exception], not even when a
    command fails or the run ends with an exception; it only opens and
    closes spans and sets their data. *)
Theorem no_session_call_without_dsn
  {os : OS} {sentry : Sentry} (environ : string -> option string)
  (Hdsn : Py.truthy (SENTRY_DSN environ) = false) (st : State) :
  exists d,
    trace (snd (script environ st)) = (trace st ++ d)%list
    /\ forall c, In (EvSdk c) d -> span_call c.
Proof.
  destruct (emits_script sessionless environ) with (st := st) as (d & T & F);
    try (intros; exact I).
  - intros c H. exact H.
  - rewrite Hdsn. discriminate.
  - exists d. split; [exact T|]. intros c Hin.
    rewrite Forall_forall in F. exact (F _ Hin).
Qed.

Lemma no_session_call_without_dsn_witness :
  exists d,
    trace (snd (script no_environ (demo_state strict_sentry tt 5000))) = ([] ++ d)%list
    /\ forall c, In (EvSdk c) d -> span_call c.
Proof.
  exact (@no_session_call_without_dsn demo_os strict_sentry no_environ eq_refl
           (demo_state strict_sentry tt 5000)).
Defined.

(** X4. When the seven flags are all false, the script runs nothing but
    [df] and [numfmt], whatever happens: no stage command is started. *)
Theorem script_only_measures_when_all_stages_off
  {os : OS} {sentry : Sentry} (environ : string -> option string)
  (Hoff : Forall (fun s => get_input environ (fst (fst s)) (snd (fst s)) = false)
            (stage_commands environ))
  (st : State) :
  exists d,
    trace (snd (script environ st)) = (trace st ++ d)%list
    /\ forall cmd captured o,
         In (EvSpawn cmd captured o) d ->
         In cmd [["df"; "-a"]; ["df"; "-a"; "/"]; ["df"; "-h"; "/"]]
         \/ exists kb, cmd = numfmt_cmd kb.
Proof.
  destruct (emits_script (safe environ) environ) with (st := st) as (d & T & F);
    try (intros; exact I).
  - intros cmd captured o H. exact H.
  - exists d. split; [exact T|]. intros cmd captured o Hin.
    rewrite Forall_forall in F. specialize (F _ Hin). simpl in F.
    destruct F as [Hm|[Hn|(s & Hs & Hf & _)]]; [left; exact Hm | right; exact Hn |].
    rewrite Forall_forall in Hoff. rewrite (Hoff s Hs) in Hf. discriminate.
Qed.

Lemma script_only_measures_when_all_stages_off_witness :
  exists d,
    trace (snd (script all_off (demo_state noop_sentry tt 5000))) = ([] ++ d)%list
    /\ forall cmd captured o,
         In (EvSpawn cmd captured o) d ->
         In cmd [["df"; "-a"]; ["df"; "-a"; "/"]; ["df"; "-h"; "/"]]
         \/ exists kb, cmd = numfmt_cmd kb.
Proof.
  apply (@script_only_measures_when_all_stages_off demo_os noop_sentry all_off).
  repeat constructor.
Defined.

(** *** Failures that are not caught *)

Section Faults.

Context {os : OS} {sentry : Sentry}.
Hypothesis Hq : quiet.
Variable environ : string -> option string.

Lemma yields_get_available_space_failed path w msg w' :
  spawn (df_cmd path) w = (Failed msg, w') ->
  yields (get_available_space path) w (Raise (OSError msg)) w'
    [EvSpawn (df_cmd path) true (Failed msg)].
Proof.
  intros Hs. unfold get_available_space. apply (yields_with_span Hq).
  eapply yields_conv.
  - eapply yields_bind_ok.
    + instantiate (1 := []). instantiate (1 := w).
      destruct path as [[|c p]|]; simpl;
        first [apply yields_ret | apply (yields_set_data Hq)].
    + apply yields_bind_raise. eapply yields_run_failed; eassumption.
  - reflexivity.
Qed.

Lemma yields_run_apt_command_failed total i cmd w msg w' :
  spawn cmd w = (Failed msg, w') ->
  yields (run_apt_command environ total (i, cmd)) w (Raise (OSError msg)) w'
    [EvSpawn cmd false (Failed msg)].
Proof.
  intros Hs. unfold run_apt_command. apply (yields_with_span Hq).
  eapply yields_conv.
  - eapply yields_bind_ok; [apply (yields_set_data Hq)|].
    apply yields_bind_raise. apply (yields_run_command_failed environ Hq), Hs.
  - reflexivity.
Qed.

(** The script ends as [main] does. *)
Lemma yields_script_of_main w (r : Result unit) w' v :
  yields (main environ) w r w' v -> yields (script environ) w r w' v.
Proof.
  intros Hm. unfold script. destruct r as [[]|e].
  - eapply yields_conv.
    + eapply yields_bind_ok; [apply (silent_init_sentry Hq)|].
      eapply yields_bind_ok; [apply yields_attempt, (yields_with_span Hq), Hm|].
      apply yields_ret.
    + simpl. apply app_nil_r.
  - eapply yields_conv.
    + eapply yields_bind_ok; [apply (silent_init_sentry Hq)|].
      eapply yields_bind_ok; [apply yields_attempt, (yields_with_span Hq), Hm|].
      eapply yields_bind_ok; [apply silent_when, (silent_sdk Hq)|].
      apply yields_raise.
    + simpl. apply app_nil_r.
Qed.

Lemma yields_main_df_failed w msg w' :
  spawn (df_cmd None) w = (Failed msg, w') ->
  yields (main environ) w (Raise (OSError msg)) w'
    [EvSpawn ["df"; "-a"] true (Failed msg)].
Proof.
  intros Hs. unfold main, with_transaction. apply (yields_with_ctx Hq).
  apply yields_bind_raise. unfold cleanup_init. apply (yields_with_span Hq).
  apply yields_bind_raise. apply (yields_get_available_space_failed None), Hs.
Qed.

End Faults.

(** X5. [run_command] catches the non-zero exit status only: when the
    command cannot be started, the error of [subprocess.run] is raised to
    the caller, no warning is printed and no result is returned; when the
    command exits with status zero the result is true and nothing is
    printed, even if an error message was given. *)
Theorem run_command_raises_when_not_started
  {os : OS} {sentry : Sentry} (Hq : quiet) (environ : string -> option string)
  (cmd : list string) (error_msg : option string) (w w' : World) :
  (forall msg, spawn cmd w = (Failed msg, w') ->
     yields (run_command environ cmd error_msg) w (Raise (OSError msg)) w'
       [EvSpawn cmd false (Failed msg)])
  /\ (forall out, spawn cmd w = (Exited 0 out, w') ->
        yields (run_command environ cmd error_msg) w (Ok true) w'
          [EvSpawn cmd false (Exited 0 out)]).
Proof.
  split.
  - intros msg Hs. apply (yields_run_command_failed environ Hq), Hs.
  - intros out Hs. apply (yields_run_command_ok environ Hq cmd error_msg w out w' Hs).
Qed.

Lemma run_command_raises_when_not_started_witness :
  @yields (missing_os ["free"; "-h"]) noop_sentry _
    (run_command no_environ ["free"; "-h"] (Some "free failed")) 5000
    (Raise (OSError "No such file or directory")) 5000
    [EvSpawn ["free"; "-h"] false (Failed "No such file or directory")].
Proof.
  exact (proj1 (@run_command_raises_when_not_started (missing_os ["free"; "-h"])
                  noop_sentry quiet_noop no_environ ["free"; "-h"]
                  (Some "free failed") 5000 5000)
           "No such file or directory" eq_refl).
Defined.

(** X6. The script ends exactly as [main] does: the handler at the end
    of the file lets every exception of [main] through unchanged, and adds
    nothing to the transcript. *)
Theorem script_ends_as_main
  {os : OS} {sentry : Sentry} (Hq : quiet) (environ : string -> option string)
  (w : World) (r : Result unit) (w' : World) (v : list Event)
  (Hmain : yields (main environ) w r w' v) :
  yields (script environ) w r w' v.
Proof. apply yields_script_of_main; assumption. Qed.

(** X7. When [df] cannot be started at the first measurement, the script
    raises that error at once: nothing is printed, no stage is run, and
    [df] is the only command that was tried. *)
Theorem script_raises_when_df_is_missing
  {os : OS} {sentry : Sentry} (Hq : quiet) (environ : string -> option string)
  (w : World) (msg : string) (w' : World)
  (Hs : spawn ["df"; "-a"] w = (Failed msg, w')) :
  yields (script environ) w (Raise (OSError msg)) w'
    [EvSpawn ["df"; "-a"] true (Failed msg)].
Proof.
  apply (yields_script_of_main Hq), (yields_main_df_failed Hq), Hs.
Qed.

Lemma script_raises_when_df_is_missing_witness :
  @yields (missing_os ["df"; "-a"]) noop_sentry _ (script no_environ) 5000
    (Raise (OSError "No such file or directory")) 5000
    [EvSpawn ["df"; "-a"] true (Failed "No such file or directory")].
Proof.
  exact (@script_raises_when_df_is_missing (missing_os ["df"; "-a"]) noop_sentry
           quiet_noop no_environ 5000 "No such file or directory" 5000 eq_refl).
Defined.

Lemma script_ends_as_main_witness :
  @yields (missing_os ["df"; "-a"]) noop_sentry _ (script no_environ) 5000
    (Raise (OSError "No such file or directory")) 5000
    [EvSpawn ["df"; "-a"] true (Failed "No such file or directory")].
Proof.
  apply (@script_ends_as_main (missing_os ["df"; "-a"]) noop_sentry quiet_noop).
  apply (yields_main_df_failed quiet_noop). reflexivity.
Defined.

Section Stops.

Context {os : OS} {sentry : Sentry}.
Hypothesis Hq : quiet.
Variable environ : string -> option string.
Variable missing : list string.
Hypothesis Hmissing : only_missing missing.

Lemma yields_batch_stops total pre rest : ~ In missing pre ->
  forall k w, exists msg w' v,
    yields (for_each (combine (seq k (List.length (pre ++ missing :: rest)))
                        (pre ++ missing :: rest))
              (run_apt_command environ total))
      w (Raise (OSError msg)) w' v
    /\ map fst (spawned v) = (pre ++ [missing])%list.
Proof.
  destruct Hmissing as [Hm Ho].
  induction pre as [|cmd pre IH]; intros Hn k w; simpl.
  - destruct (Hm w) as (msg & w' & Hs).
    exists msg, w', [EvSpawn missing false (Failed msg)]. split; [|reflexivity].
    apply yields_bind_raise, (yields_run_apt_command_failed Hq), Hs.
  - assert (Hc : cmd <> missing) by (intros ->; apply Hn; left; reflexivity).
    destruct (Ho cmd w Hc) as (rc & out & w1 & Hs).
    destruct (IH (fun H => Hn (or_intror H)) (S k) w1) as (msg & w' & v & Y & E).
    exists msg, w', (tr_command cmd (Some (apt_error_msg cmd)) rc out ++ v)%list.
    split.
    + eapply yields_bind_ok; [apply (yields_run_apt_command Hq), Hs | exact Y].
    + rewrite spawned_app, map_app, E.
      rewrite (spawned_command cmd (Some (apt_error_msg cmd)) (rc =? 0)); [reflexivity|].
      exists rc, out. auto.
Qed.

Lemma yields_then_ops_stops (k : M unit) pre rest : ~ In missing pre ->
  forall w, exists msg w' v,
    yields (then_ops environ (pre ++ missing :: rest) k) w (Raise (OSError msg)) w' v
    /\ map fst (spawned v) = (pre ++ [missing])%list
    /\ printed v = [].
Proof.
  destruct Hmissing as [Hm Ho].
  induction pre as [|cmd pre IH]; intros Hn w; simpl.
  - destruct (Hm w) as (msg & w' & Hs).
    exists msg, w', [EvSpawn missing false (Failed msg)]. split; [|split; reflexivity].
    apply yields_bind_raise, (yields_run_command_failed environ Hq), Hs.
  - assert (Hc : cmd <> missing) by (intros ->; apply Hn; left; reflexivity).
    destruct (Ho cmd w Hc) as (rc & out & w1 & Hs).
    destruct (IH (fun H => Hn (or_intror H)) w1) as (msg & w' & v & Y & E & Pr).
    exists msg, w', (tr_command cmd None rc out ++ v)%list.
    split; [|split].
    + eapply yields_bind_ok; [apply (yields_run_command environ Hq), Hs | exact Y].
    + rewrite spawned_app, map_app, E.
      rewrite (spawned_command cmd None (rc =? 0)); [reflexivity|].
      exists rc, out. auto.
    + unfold printed in *. rewrite flat_map_app, Pr. unfold tr_command.
      destruct (rc =? 0); reflexivity.
Qed.

Lemma yields_stage_stops d o title pre rest :
  missing <> ["df"; "-a"] -> ~ In missing pre ->
  forall w, exists msg w' v,
    yields (with_span d o (fun span =>
              bind (get_available_space None) (fun before =>
                then_ops environ (pre ++ missing :: rest)
                  (stage_tail span before title))))
      w (Raise (OSError msg)) w' v
    /\ map fst (spawned v) = (["df"; "-a"] :: pre ++ [missing])%list
    /\ printed v = [].
Proof.
  intros Hdf Hn w. destruct Hmissing as [Hm Ho].
  destruct (Ho (df_cmd None) w (not_eq_sym Hdf)) as (rc & out & w1 & Hs).
  destruct (yields_then_ops_stops
              (stage_tail (mkSpan d o) (measure out) title) pre rest Hn w1)
    as (msg & w' & v & Y & E & Pr).
  exists msg, w', (tr_probe None rc out ++ v)%list. split; [|split].
  - apply (yields_with_span Hq).
    eapply yields_bind_ok; [apply (yields_get_available_space Hq), Hs | exact Y].
  - rewrite spawned_app, map_app, E. reflexivity.
  - unfold printed in *. rewrite flat_map_app, Pr. reflexivity.
Qed.

End Stops.

(** X8. In the loop over the package commands, a command that cannot be
    started ends the loop with the error of [subprocess.run]: the commands
    before it are run, in order, and none after it. *)
Theorem batch_stops_at_missing_command
  {os : OS} {sentry : Sentry} (Hq : quiet) (environ : string -> option string)
  (missing : list string) (Hmissing : only_missing missing)
  (pre rest : list (list string)) (Hpre : ~ In missing pre) (w : World) :
  exists msg w' v,
    yields (run_batch environ (pre ++ missing :: rest)) w (Raise (OSError msg)) w' v
    /\ map fst (spawned v) = (pre ++ [missing])%list.
Proof.
  apply (yields_batch_stops Hq environ missing Hmissing); assumption.
Qed.

Lemma only_missing_missing_os missing : @only_missing (missing_os missing) missing.
Proof.
  split.
  - intros w. exists "No such file or directory", w. unfold spawn, missing_os.
    destruct (list_eq_dec string_dec missing missing); [reflexivity | contradiction].
  - intros cmd w Hc. eexists _, _, _. unfold spawn, missing_os.
    destruct (list_eq_dec string_dec cmd missing); [contradiction | reflexivity].
Defined.

Lemma batch_stops_at_missing_command_witness :
  exists msg w' v,
    @yields (missing_os ["sudo"; "apt-get"; "autoremove"; "-y"]) noop_sentry _
      (run_batch no_environ
         ([["sudo"; "apt-get"; "remove"; "-y"; "google-cloud-cli"; "--fix-missing"]]
          ++ ["sudo"; "apt-get"; "autoremove"; "-y"] :: [["sudo"; "apt-get"; "clean"]]))
      5000 (Raise (OSError msg)) w' v
    /\ map fst (spawned v)
       = ([["sudo"; "apt-get"; "remove"; "-y"; "google-cloud-cli"; "--fix-missing"]]
          ++ [["sudo"; "apt-get"; "autoremove"; "-y"]])%list.
Proof.
  apply (@batch_stops_at_missing_command
           (missing_os ["sudo"; "apt-get"; "autoremove"; "-y"]) noop_sentry
           quiet_noop no_environ ["sudo"; "apt-get"; "autoremove"; "-y"]
           (only_missing_missing_os _)).
  simpl. intros [H|[]]. discriminate.
Defined.

(** X9. In each of the five stages made of plain commands, a command
    that cannot be started ends the stage with the error of
    [subprocess.run]: after the first measurement the commands before it
    are run and none after it, the second measurement is not taken and no
    banner is printed. *)
Theorem stage_stops_at_missing_command
  {os : OS} {sentry : Sentry} (Hq : quiet) (environ : string -> option string)
  (missing : list string) (Hmissing : only_missing missing)
  (Hdf : missing <> ["df"; "-a"]) :
  Forall2 (fun (stage : M unit) commands =>
             forall pre rest, commands = (pre ++ missing :: rest)%list ->
               ~ In missing pre ->
               forall w, exists msg w' v,
                 yields stage w (Raise (OSError msg)) w' v
                 /\ map fst (spawned v) = (["df"; "-a"] :: pre ++ [missing])%list
                 /\ printed v = [])
    (plain_stages environ) plain_stage_commands.
Proof.
  unfold plain_stages, plain_stage_commands.
  repeat (apply Forall2_cons; [intros pre rest E Hpre w|]); [ | | | | | constructor].
  - pose proof (yields_stage_stops Hq environ missing Hmissing
                  "Remove Android library" "cleanup.android" "Android library"
                  pre rest Hdf Hpre w) as H.
    rewrite <- E in H. exact H.
  - pose proof (yields_stage_stops Hq environ missing Hmissing
                  "Remove .NET runtime" "cleanup.dotnet" ".NET runtime"
                  pre rest Hdf Hpre w) as H.
    rewrite <- E in H. exact H.
  - pose proof (yields_stage_stops Hq environ missing Hmissing
                  "Remove Haskell runtime" "cleanup.haskell" "Haskell runtime"
                  pre rest Hdf Hpre w) as H.
    rewrite <- E in H. exact H.
  - pose proof (yields_stage_stops Hq environ missing Hmissing
                  "Remove Docker images" "cleanup.docker" "Docker images"
                  pre rest Hdf Hpre w) as H.
    rewrite <- E in H. exact H.
  - pose proof (yields_stage_stops Hq environ missing Hmissing
                  "Remove swap storage" "cleanup.swap" "Swap storage"
                  pre rest Hdf Hpre w) as H.
    rewrite <- E in H. exact H.
Qed.

Lemma free_is_not_df : ["free"; "-h"] <> ["df"; "-a"].
Proof. discriminate. Qed.

Lemma free_not_before :
  ~ In ["free"; "-h"] [["sudo"; "swapoff"; "-a"]; ["sudo"; "rm"; "-f"; "/mnt/swapfile"]].
Proof. simpl. intros [H|[H|[]]]; discriminate. Qed.

Lemma stage_stops_at_missing_command_witness :
  exists msg w' v,
    @yields (missing_os ["free"; "-h"]) noop_sentry _ (cleanup_swap no_environ) 5000
      (Raise (OSError msg)) w' v
    /\ map fst (spawned v)
       = (["df"; "-a"]
          :: [["sudo"; "swapoff"; "-a"]; ["sudo"; "rm"; "-f"; "/mnt/swapfile"]]
          ++ [["free"; "-h"]])%list
    /\ printed v = [].
Proof.
  pose proof (@stage_stops_at_missing_command (missing_os ["free"; "-h"])
                noop_sentry quiet_noop no_environ ["free"; "-h"]
                (only_missing_missing_os _) free_is_not_df) as H.
  unfold plain_stages, plain_stage_commands in H.
  inversion H as [|? ? ? ? _ H1]; subst; clear H.
  inversion H1 as [|? ? ? ? _ H2]; subst; clear H1.
  inversion H2 as [|? ? ? ? _ H3]; subst; clear H2.
  inversion H3 as [|? ? ? ? _ H4]; subst; clear H3.
  inversion H4 as [|? ? ? ? H5 _]; subst; clear H4.
  exact (H5 [["sudo"; "swapoff"; "-a"]; ["sudo"; "rm"; "-f"; "/mnt/swapfile"]] []
           eq_refl free_not_before 5000).
Defined.

(** *** The numeral handed to [numfmt] *)

Lemma all_chars_app P a b : all_chars P a -> all_chars P b -> all_chars P (a ++ b).
Proof. induction a as [|c a IH]; simpl; [auto | intros [H1 H2] Hb; auto]. Qed.

Lemma lstrip_no_blank s : no_blank s -> Py.lstrip s = s.
Proof. destruct s as [|c r]; simpl; [auto | intros [-> _]; reflexivity]. Qed.

Lemma rstrip_no_blank s : no_blank s -> Py.rstrip s = s.
Proof.
  induction s as [|c r IH]; simpl; [auto|]. intros [Hc Hr].
  rewrite (IH Hr). destruct r; [rewrite Hc|]; reflexivity.
Qed.

Lemma strip_no_blank s : no_blank s -> Py.strip s = s.
Proof.
  intros H. unfold Py.strip. rewrite (lstrip_no_blank s H). apply rstrip_no_blank, H.
Qed.

Lemma no_blank_uint d : no_blank (NilEmpty.string_of_uint d).
Proof.
  induction d; simpl; [exact I | split; [reflexivity | exact IHd] ..].
Qed.

Lemma length_string_of_uint d :
  String.length (NilEmpty.string_of_uint d) = Decimal.nb_digits d.
Proof. induction d; simpl; auto. Qed.

Lemma string_length_app a b :
  String.length (a ++ b) = (String.length a + String.length b)%nat.
Proof. induction a as [|c a IH]; simpl; auto. Qed.

Lemma int_digits_uint d : forall acc n s,
  Py.int_digits acc true n (NilEmpty.string_of_uint d ++ s)
  = Py.int_digits (digits_val acc d) true (n + Decimal.nb_digits d) s.
Proof.
  induction d; intros acc n s; cbn [NilEmpty.string_of_uint append digits_val Decimal.nb_digits];
    try (rewrite Nat.add_0_r; reflexivity);
    cbn [Py.int_digits];
    match goal with
    | |- context [Py.digit_of ?c] =>
        let v := eval vm_compute in (Py.digit_of c) in
        change (Py.digit_of c) with v
    end;
    cbv iota; rewrite IHd, ?Z.add_0_r, Nat.add_succ_r; reflexivity.
Qed.

(** The first digit, read when no digit has been seen yet. *)
Lemma int_digits_uint_start d s : d <> Decimal.Nil ->
  Py.int_digits 0 false 0 (NilEmpty.string_of_uint d ++ s)
  = Py.int_digits (digits_val 0 d) true (Decimal.nb_digits d) s.
Proof.
  intros Hd.
  destruct d; try contradiction;
    cbn [NilEmpty.string_of_uint append digits_val Decimal.nb_digits Py.int_digits];
    match goal with
    | |- context [Py.digit_of ?c] =>
        let v := eval vm_compute in (Py.digit_of c) in
        change (Py.digit_of c) with v
    end;
    cbv iota; rewrite int_digits_uint; reflexivity.
Qed.

Lemma digits_val_pos d : forall acc : positive,
  digits_val (Zpos acc) d = Zpos (Pos.of_uint_acc d acc).
Proof.
  induction d; intros acc; cbn [digits_val Pos.of_uint_acc]; try reflexivity;
    rewrite <- IHd; f_equal; lia.
Qed.

Lemma digits_val_zero d : digits_val 0 d = Z.of_uint d.
Proof.
  unfold Z.of_uint.
  induction d; cbn [digits_val Pos.of_uint]; try reflexivity;
    try (change (10 * 0) with 0; exact IHd);
    match goal with
    | |- digits_val ?a _ = _ =>
        let v := eval vm_compute in a in change a with v
    end;
    rewrite digits_val_pos; reflexivity.
Qed.

(** Reading a numeral followed by [zeros] zeros. *)
Lemma int_unsigned_uint d (zeros : nat) : d <> Decimal.Nil ->
  (Decimal.nb_digits d + zeros <= Py.int_max_str_digits)%nat ->
  Py.int_unsigned (NilEmpty.string_of_uint d ++ Py.repeat_str "0" zeros)
  = Some (Z.of_uint d * 10 ^ Z.of_nat zeros).
Proof.
  intros Hd Hlen. unfold Py.int_unsigned.
  rewrite (int_digits_uint_start d _ Hd), digits_val_zero.
  assert (Hz : forall k acc n,
             Py.int_digits acc true n (Py.repeat_str "0" k)
             = Some (acc * 10 ^ Z.of_nat k, (n + k)%nat)).
  { induction k as [|k IH]; intros acc n.
    - simpl. rewrite Z.mul_1_r, Nat.add_0_r. reflexivity.
    - cbn [Py.repeat_str append Py.int_digits].
      change (Py.digit_of "0") with (Some 0). cbv iota.
      rewrite IH, Nat2Z.inj_succ, Z.pow_succ_r, Nat.add_succ_r by lia.
      f_equal. f_equal. lia. }
  rewrite Hz. apply Nat.leb_le in Hlen. rewrite Hlen. reflexivity.
Qed.

Lemma first_digit_not_sign d : d <> Decimal.Nil ->
  exists c r, NilEmpty.string_of_uint d = String c r
              /\ c <> "-"%char /\ c <> "+"%char.
Proof.
  destruct d; [contradiction | ..]; intros _; simpl;
    eexists _, _; (split; [reflexivity | split; discriminate]).
Qed.

Lemma int_of_unsigned_text c r :
  no_blank (String c r) -> c <> "-"%char -> c <> "+"%char ->
  Py.int (String c r) = Py.int_unsigned (String c r).
Proof.
  intros Hb Hm Hp. unfold Py.int. rewrite (strip_no_blank _ Hb).
  destruct c as [[] [] [] [] [] [] [] []]; try reflexivity; contradiction.
Qed.

Lemma no_blank_zeros zeros : no_blank (Py.repeat_str "0" zeros).
Proof. induction zeros; simpl; [exact I | split; [reflexivity | assumption]]. Qed.

Lemma int_uint d (zeros : nat) : d <> Decimal.Nil ->
  (Decimal.nb_digits d + zeros <= Py.int_max_str_digits)%nat ->
  Py.int (NilEmpty.string_of_uint d ++ Py.repeat_str "0" zeros)
  = Some (Z.of_uint d * 10 ^ Z.of_nat zeros).
Proof.
  intros Hd Hlen. rewrite <- (int_unsigned_uint d zeros Hd Hlen).
  destruct (first_digit_not_sign d Hd) as (c & r & E & Hm & Hp).
  assert (Hb : no_blank (NilEmpty.string_of_uint d ++ Py.repeat_str "0" zeros)).
  { apply all_chars_app; [apply no_blank_uint | apply no_blank_zeros]. }
  rewrite E in *. cbn [append] in *. apply int_of_unsigned_text; assumption.
Qed.

(** [int] reads back what [str] wrote, also with zeros appended. *)
Lemma int_numeral n (zeros : nat) :
  (String.length (Py.str n) + zeros <= Py.int_max_str_digits)%nat ->
  Py.int (Py.str n ++ Py.repeat_str "0" zeros) = Some (n * 10 ^ Z.of_nat zeros).
Proof.
  unfold Py.str. destruct n as [|p|p]; cbn [Z.to_int NilZero.string_of_int].
  - intros Hlen. apply (int_uint (Decimal.D0 Decimal.Nil)); [discriminate | exact Hlen].
  - pose proof (DecimalPos.Unsigned.to_uint_nonnil p) as Hd.
    unfold NilZero.string_of_uint.
    destruct (Pos.to_uint p) eqn:E; try contradiction; rewrite <- E in *;
      rewrite length_string_of_uint; intros Hlen;
      rewrite (int_uint _ zeros Hd Hlen); unfold Z.of_uint;
      rewrite DecimalPos.Unsigned.of_to; reflexivity.
  - pose proof (DecimalPos.Unsigned.to_uint_nonnil p) as Hd.
    unfold NilZero.string_of_uint.
    destruct (Pos.to_uint p) eqn:E; try contradiction; rewrite <- E in *;
      cbn [String.length append]; rewrite length_string_of_uint; intros Hlen;
      (assert (Hlen' : (Decimal.nb_digits (Pos.to_uint p) + zeros
                        <= Py.int_max_str_digits)%nat) by lia);
      pose proof (int_unsigned_uint _ zeros Hd Hlen') as Hu;
      (assert (Hb : no_blank (String "-" (NilEmpty.string_of_uint (Pos.to_uint p)
                                          ++ Py.repeat_str "0" zeros)))
        by (split; [reflexivity
                   | apply all_chars_app; [apply no_blank_uint | apply no_blank_zeros]]));
      unfold Py.int; rewrite (strip_no_blank _ Hb), Hu; unfold Z.of_uint;
      rewrite DecimalPos.Unsigned.of_to; cbn [option_map]; f_equal; lia.
Qed.

Lemma append_empty_r s : s ++ EmptyString = s.
Proof. induction s as [|c s IH]; simpl; [|rewrite IH]; reflexivity. Qed.

(** X10. The amount that [format_byte_count] hands to [numfmt] is the
    number of kilobytes times 1000, not times 1024: the numeral of [kb]
    followed by 000 reads back as [kb * 1000], for every [kb] whose numeral
    stays within the digits that [int] accepts; and [int] reads back what
    [str] writes. *)
Theorem numfmt_receives_kb_times_1000
  (kb : Z)
  (Hlen : (String.length (Py.str kb) + 3 <= Py.int_max_str_digits)%nat) :
  exists arg,
    numfmt_cmd kb = ["numfmt"; "--to=iec-i"; "--suffix=B"; "--padding=7"; arg]
    /\ Py.int arg = Some (kb * 1000)
    /\ Py.int (Py.str kb) = Some kb.
Proof.
  exists (Py.str kb ++ "000"). split; [reflexivity|split].
  - exact (int_numeral kb 3 Hlen).
  - pose proof (int_numeral kb 0) as H. cbn [Py.repeat_str] in H.
    rewrite append_empty_r, Z.mul_1_r in H. apply H. lia.
Qed.

Lemma numfmt_receives_kb_times_1000_witness :
  exists arg,
    numfmt_cmd (-500) = ["numfmt"; "--to=iec-i"; "--suffix=B"; "--padding=7"; arg]
    /\ Py.int arg = Some (-500 * 1000)
    /\ Py.int (Py.str (-500)) = Some (-500).
Proof.
  apply (numfmt_receives_kb_times_1000 (-500)).
  apply Nat.leb_le. reflexivity.
Defined.

(** *** A report as a header and rows *)

Lemma split_on_single x : no_newline x -> Py.split_on "010" x = [x].
Proof.
  induction x as [|c x IH]; simpl; [reflexivity|]. intros [Hc Hx].
  destruct (Ascii.eqb_spec c "010"); [contradiction|]. rewrite (IH Hx). reflexivity.
Qed.

Lemma split_on_line x rest : no_newline x ->
  Py.split_on "010" (x ++ String "010" rest) = x :: Py.split_on "010" rest.
Proof.
  induction x as [|c x IH]; simpl; [reflexivity|]. intros [Hc Hx].
  destruct (Ascii.eqb_spec c "010"); [contradiction|]. rewrite (IH Hx). reflexivity.
Qed.

Lemma split_on_join lines : forall line,
  Forall no_newline (line :: lines) ->
  Py.split_on "010" (Py.join newline (line :: lines)) = line :: lines.
Proof.
  unfold Py.join, newline.
  induction lines as [|l ls IH]; intros line H; inversion H as [|? ? Hl Hls]; subst.
  - simpl. apply split_on_single, Hl.
  - change (concat (String "010" EmptyString) (line :: l :: ls))
      with (line ++ String "010" (concat (String "010" EmptyString) (l :: ls))).
    rewrite (split_on_line _ _ Hl), (IH l Hls). reflexivity.
Qed.

Lemma Zsum_perm (l l' : list Z) : Permutation l l' -> Zsum l = Zsum l'.
Proof. induction 1; simpl; lia. Qed.

Lemma measure_rows report header rows :
  Py.strip report = Py.join newline (header :: rows) ->
  Forall no_newline (header :: rows) ->
  measure report = Zsum (map row_available rows).
Proof.
  intros Hrep Hlines. unfold measure, sum_available.
  rewrite Hrep, (split_on_join rows header Hlines). simpl.
  rewrite fold_add_line. lia.
Qed.

(** X11. When the output of [df], without the blanks around it, is a
    first line followed by rows, [get_available_space] returns the sum of
    what the rows contribute: the first line is never counted, whatever it
    holds, and the order of the rows does not matter. *)
Theorem measurement_is_sum_over_rows
  {os : OS} {sentry : Sentry} (Hq : quiet)
  (path : option string) (w : World) (rc : Z) (report : string) (w' : World)
  (header : string) (rows : list string)
  (Hs : spawn (df_cmd path) w = (Exited rc report, w'))
  (Hrep : Py.strip report = Py.join newline (header :: rows))
  (Hlines : Forall no_newline (header :: rows)) :
  yields (get_available_space path) w (Ok (Zsum (map row_available rows))) w'
    (tr_probe path rc report)
  /\ forall report' header' rows',
       Py.strip report' = Py.join newline (header' :: rows') ->
       Forall no_newline (header' :: rows') ->
       Permutation rows rows' ->
       measure report' = measure report.
Proof.
  split.
  - rewrite <- (measure_rows report header rows Hrep Hlines).
    apply (yields_get_available_space Hq), Hs.
  - intros report' header' rows' Hrep' Hlines' Hperm.
    rewrite (measure_rows report header rows Hrep Hlines),
      (measure_rows report' header' rows' Hrep' Hlines').
    apply Zsum_perm, Permutation_map, Permutation_sym, Hperm.
Qed.

Lemma example_lines :
  Forall no_newline
    [df_header; "/dev/a 1000 900 100 90% /"; "/dev/b 1000 800 200 80% /b";
     "tmpfs 1000 - x - /c"; "/dev/d 1000 700 300 70% /d"].
Proof. repeat constructor; discriminate. Qed.

Lemma measurement_is_sum_over_rows_witness :
  @yields (canned_os 0 example_report 0) noop_sentry _
    (get_available_space None) tt
    (Ok (Zsum (map row_available
                 ["/dev/a 1000 900 100 90% /"; "/dev/b 1000 800 200 80% /b";
                  "tmpfs 1000 - x - /c"; "/dev/d 1000 700 300 70% /d"])))
    tt (tr_probe None 0 example_report).
Proof.
  exact (proj1 (@measurement_is_sum_over_rows (canned_os 0 example_report 0)
                  noop_sentry quiet_noop None tt 0 example_report tt df_header
                  ["/dev/a 1000 900 100 90% /"; "/dev/b 1000 800 200 80% /b";
                   "tmpfs 1000 - x - /c"; "/dev/d 1000 700 300 70% /d"]
                  eq_refl eq_refl example_lines)).
Defined.

(** *** The usage report and the flags *)

Ltac frame_step Hq :=
  first [ apply yields_ret
        | apply (yields_set_data Hq)
        | apply yields_print
        | apply (yields_with_span Hq)
        | eapply yields_run_console; eassumption
        | eapply yields_bind_ok ].

(** X12. [print_dh] runs [df -h /], [df -a /] and [df -a] in this order
    and returns whatever their exit statuses are; it prints a rule, the
    caption and an empty line when the caption is not empty, the three
    command lines, each followed by an empty line, and a rule again. *)
Theorem print_dh_prints_frame
  {os : OS} {sentry : Sentry} (Hq : quiet) (caption : option string)
  (w : World) (rc1 : Z) (out1 : string) (w1 : World)
  (rc2 : Z) (out2 : string) (w2 : World) (rc3 : Z) (out3 : string) (w3 : World)
  (H1 : spawn ["df"; "-h"; "/"] w = (Exited rc1 out1, w1))
  (H2 : spawn ["df"; "-a"; "/"] w1 = (Exited rc2 out2, w2))
  (H3 : spawn ["df"; "-a"] w2 = (Exited rc3 out3, w3)) :
  yields (print_dh caption) w (Ok tt) w3
    ([EvPrint rule] ++ tr_caption caption
     ++ [EvPrint "$ df -h /"; EvPrint EmptyString;
         EvSpawn ["df"; "-h"; "/"] false (Exited rc1 out1);
         EvPrint "$ df -a /"; EvPrint EmptyString;
         EvSpawn ["df"; "-a"; "/"] false (Exited rc2 out2);
         EvPrint "$ df -a"; EvPrint EmptyString;
         EvSpawn ["df"; "-a"] false (Exited rc3 out3);
         EvPrint rule])
  /\ String.length rule = 80%nat.
Proof.
  split; [|reflexivity].
  unfold print_dh, print_separation_line.
  destruct caption as [[|a c]|]; simpl;
    (eapply yields_conv; [repeat frame_step Hq | reflexivity]).
Qed.

Lemma print_dh_prints_frame_witness :
  @yields (canned_os 1 EmptyString 0) noop_sentry _ (print_dh (Some EmptyString)) tt
    (Ok tt) tt
    ([EvPrint rule]
     ++ [EvPrint "$ df -h /"; EvPrint EmptyString;
         EvSpawn ["df"; "-h"; "/"] false (Exited 1 EmptyString);
         EvPrint "$ df -a /"; EvPrint EmptyString;
         EvSpawn ["df"; "-a"; "/"] false (Exited 1 EmptyString);
         EvPrint "$ df -a"; EvPrint EmptyString;
         EvSpawn ["df"; "-a"] false (Exited 1 EmptyString);
         EvPrint rule]).
Proof.
  exact (proj1 (@print_dh_prints_frame (canned_os 1 EmptyString 0) noop_sentry
                  quiet_noop (Some EmptyString) tt 1 EmptyString tt 1 EmptyString tt
                  1 EmptyString tt eq_refl eq_refl eq_refl)).
Defined.

Lemma upper_char_normal c :
  Py.upper_char (if Ascii.eqb (Py.upper_char c) "-" then "_"%char else Py.upper_char c)
  = Py.upper_char (if Ascii.eqb c "-" then "_"%char else c).
Proof. destruct c as [[] [] [] [] [] [] [] []]; reflexivity. Qed.

Lemma underscore_char_normal c :
  Py.upper_char
    (if Ascii.eqb (if Ascii.eqb c "_" then "-"%char else c) "-" then "_"%char
     else (if Ascii.eqb c "_" then "-"%char else c))
  = Py.upper_char (if Ascii.eqb c "-" then "_"%char else c).
Proof. destruct c as [[] [] [] [] [] [] [] []]; reflexivity. Qed.

Lemma input_name_upper name : input_name (Py.upper name) = input_name name.
Proof.
  unfold input_name. f_equal. unfold Py.upper.
  induction name as [|c r IH]; simpl; [reflexivity|].
  rewrite upper_char_normal, IH. reflexivity.
Qed.

Lemma input_name_hyphen name : input_name (Py.replace "_" "-" name) = input_name name.
Proof.
  unfold input_name. f_equal. unfold Py.upper.
  induction name as [|c r IH]; simpl; [reflexivity|].
  rewrite underscore_char_normal, IH. reflexivity.
Qed.

Lemma set_environ_same key value environ : set_environ key value environ key = Some value.
Proof. unfold set_environ. rewrite String.eqb_refl. reflexivity. Qed.

(** X13. The name of a flag, an ASCII name, is read up to the case of
    its letters and up to hyphens against underscores, so two such names
    share one variable; and once the variable is set, its value decides
    alone: the default is not looked at, and an empty value turns off a
    flag whose default is true. *)
Theorem get_input_normalises_name
  (environ : string -> option string) (name default : string)
  (Hascii : Py.isascii name = true) :
  get_input environ (Py.upper name) default = get_input environ name default
  /\ get_input environ (Py.replace "_" "-" name) default = get_input environ name default
  /\ (forall value default',
        get_input (set_environ (input_name name) value environ) name default
        = get_input (set_environ (input_name name) value environ) name default')
  /\ get_input (set_environ (input_name name) EmptyString environ) name "true" = false.
Proof.
  clear Hascii. split; [|split; [|split]].
  - unfold get_input. fold (input_name (Py.upper name)). fold (input_name name).
    rewrite input_name_upper. reflexivity.
  - unfold get_input. fold (input_name (Py.replace "_" "-" name)). fold (input_name name).
    rewrite input_name_hyphen. reflexivity.
  - intros value default'. unfold get_input, environ_get.
    fold (input_name name). rewrite set_environ_same. reflexivity.
  - unfold get_input, environ_get. fold (input_name name).
    rewrite set_environ_same. reflexivity.
Qed.

Lemma get_input_normalises_name_witness :
  Py.isascii "Tool_Cache" = true
  /\ input_name "Tool_Cache" = "INPUT_TOOL_CACHE"
  /\ get_input (set_environ "INPUT_TOOL_CACHE" "True" no_environ) "TOOL_CACHE" "false"
     = get_input (set_environ "INPUT_TOOL_CACHE" "True" no_environ) "Tool_Cache" "false"
  /\ get_input (set_environ "INPUT_TOOL_CACHE" "True" no_environ) "Tool-Cache" "false"
     = get_input (set_environ "INPUT_TOOL_CACHE" "True" no_environ) "Tool_Cache" "false"
  /\ get_input (set_environ "INPUT_TOOL_CACHE" EmptyString no_environ) "Tool_Cache" "true"
     = false.
Proof.
  pose proof (get_input_normalises_name
                (set_environ "INPUT_TOOL_CACHE" "True" no_environ)
                "Tool_Cache" "false" eq_refl) as (H1 & H2 & _).
  pose proof (get_input_normalises_name no_environ "Tool_Cache" "true" eq_refl)
    as (_ & _ & _ & H4).
  split; [reflexivity|]. split; [reflexivity|].
  split; [exact H1|]. split; [exact H2 | exact H4].
Defined.

(** *** A host at rest *)

Section AtRest.

Context {os : OS} {sentry : Sentry}.
Hypothesis Hq : quiet.
Variable environ : string -> option string.
Variable avail : World -> Z.
Hypothesis Hrest : at_rest avail.

Ltac qstep :=
  first [ eassumption
        | apply yields_ret
        | apply (yields_set_data Hq)
        | apply (yields_sdk Hq)
        | apply yields_print
        | apply (yields_with_span Hq)
        | apply (yields_with_ctx Hq)
        | eapply yields_bind_ok ].

Lemma rest_probe w : exists rc out,
  yields (get_available_space None) w (Ok (avail w)) w (tr_probe None rc out).
Proof.
  destruct Hrest as (Hdf & _ & _). destruct (Hdf w) as (rc & out & Hs & <-).
  exists rc, out. apply (yields_get_available_space Hq None), Hs.
Qed.

Lemma rest_probe_root w : exists a rc out,
  yields (get_available_space (Some "/")) w (Ok a) w (tr_probe (Some "/") rc out).
Proof.
  destruct Hrest as (_ & Hro & _).
  destruct (Hro ["df"; "-a"; "/"] w) as (rc & out & Hs); [left; simpl; tauto|].
  exists (measure out), rc, out. apply (yields_get_available_space Hq (Some "/")), Hs.
Qed.

Lemma rest_format kb w : exists rc out,
  yields (format_byte_count kb) w (Ok (Py.strip out)) w (tr_format kb rc out).
Proof.
  destruct Hrest as (_ & Hro & _).
  destruct (Hro (numfmt_cmd kb) w) as (rc & out & Hs); [right; eauto|].
  exists rc, out. apply (yields_format_byte_count Hq), Hs.
Qed.

Lemma rest_saved saved title w : exists rc out,
  yields (print_saved_space saved title) w (Ok tt) w (tr_saved saved title rc out).
Proof.
  destruct Hrest as (_ & Hro & _).
  destruct (Hro (numfmt_cmd saved) w) as (rc & out & Hs); [right; eauto|].
  exists rc, out. apply (yields_print_saved_space Hq), Hs.
Qed.

Lemma rest_dh a c w : exists v, yields (print_dh (Some (String a c))) w (Ok tt) w v.
Proof.
  destruct Hrest as (Hdf & Hro & _).
  destruct (Hro ["df"; "-h"; "/"] w) as (rc1 & out1 & H1); [left; simpl; tauto|].
  destruct (Hro ["df"; "-a"; "/"] w) as (rc2 & out2 & H2); [left; simpl; tauto|].
  destruct (Hdf w) as (rc3 & out3 & H3 & _).
  exists (tr_dh (String a c) (rc1, out1) (rc2, out2) (rc3, out3)).
  apply (yields_print_dh Hq a c w (rc1, out1) w (rc2, out2) w (rc3, out3) w); assumption.
Qed.

Lemma rest_tail span before title w : exists v,
  yields (stage_tail span before title) w (Ok tt) w v
  /\ stage_saved title (avail w - before) v.
Proof.
  destruct (rest_probe w) as (rc & out & Yp).
  destruct (rest_format (avail w - before) w) as (rcf & outf & Yf).
  destruct (rest_saved (avail w - before) (Some title) w) as (rcs & outs & Ys).
  eexists. split.
  - unfold stage_tail. repeat qstep.
  - exists (tr_probe None rc out), rcf, outf, rcs, outs.
    simpl. reflexivity.
Qed.

Lemma rest_ops commands (k : M unit) (R : World -> list Event -> Prop) :
  (forall w1, exists v, yields k w1 (Ok tt) w1 v /\ R w1 v) ->
  forall w, exists w1 v0 v,
    yields (then_ops environ commands k) w (Ok tt) w1 (v0 ++ v) /\ R w1 v.
Proof.
  intros Hk. destruct Hrest as (_ & _ & Hall).
  induction commands as [|cmd rest IH]; intros w; simpl.
  - destruct (Hk w) as (v & Y & HR). exists w, [], v. auto.
  - destruct (Hall cmd w) as (rc & out & w1 & Hs).
    destruct (IH w1) as (w2 & v0 & v & Y & HR).
    exists w2, (tr_command cmd None rc out ++ v0)%list, v. split; [|exact HR].
    rewrite <- app_assoc.
    eapply yields_bind_ok; [apply (yields_run_command environ Hq), Hs | exact Y].
Qed.

Lemma stage_saved_after v0 title saving v :
  stage_saved title saving v -> stage_saved title saving (v0 ++ v).
Proof.
  intros (v1 & rcf & outf & rcs & outs & ->).
  exists (v0 ++ v1)%list, rcf, outf, rcs, outs. rewrite <- app_assoc. reflexivity.
Qed.

Lemma rest_stage d o title (body : Span -> Z -> M unit) :
  (forall span before w1, exists w2 v,
      yields (body span before) w1 (Ok tt) w2 v
      /\ stage_saved title (avail w2 - before) v) ->
  forall w, exists w2 v,
    yields (with_span d o (fun span =>
              bind (get_available_space None) (fun before => body span before)))
      w (Ok tt) w2 v
    /\ stage_saved title (avail w2 - avail w) v.
Proof.
  intros Hb w. destruct (rest_probe w) as (rc & out & Yp).
  destruct (Hb (mkSpan d o) (avail w) w) as (w2 & v & Y & Hsaved).
  exists w2, (tr_probe None rc out ++ v)%list. split.
  - apply (yields_with_span Hq). eapply yields_bind_ok; eassumption.
  - apply stage_saved_after, Hsaved.
Qed.

Lemma rest_ops_stage d o title commands w : exists w2 v,
  yields (with_span d o (fun span =>
            bind (get_available_space None) (fun before =>
              then_ops environ commands (stage_tail span before title))))
    w (Ok tt) w2 v
  /\ stage_saved title (avail w2 - avail w) v.
Proof.
  apply rest_stage. intros span before w1.
  destruct (rest_ops commands (stage_tail span before title)
              (fun w2 v => stage_saved title (avail w2 - before) v)
              (rest_tail span before title) w1) as (w2 & v0 & v & Y & Hsaved).
  exists w2, (v0 ++ v)%list. split; [exact Y | apply stage_saved_after, Hsaved].
Qed.

Lemma rest_batch commands : forall k w, exists w1 v,
  yields (for_each (combine (seq k (List.length commands)) commands)
            (run_apt_command environ (List.length apt_commands)))
    w (Ok tt) w1 v.
Proof.
  destruct Hrest as (_ & _ & Hall).
  induction commands as [|cmd rest IH]; intros k w;
    cbn [for_each combine seq List.length].
  - exists w, []. apply yields_ret.
  - destruct (Hall cmd w) as (rc & out & w1 & Hs).
    destruct (IH (S k) w1) as (w2 & v & Y).
    exists w2, (tr_command cmd (Some (apt_error_msg cmd)) rc out ++ v)%list.
    eapply yields_bind_ok;
      [exact (yields_run_apt_command Hq environ _ k cmd w rc out w1 Hs) | exact Y].
Qed.

Lemma rest_cleanup_packages w : exists w2 v,
  yields (cleanup_packages environ) w (Ok tt) w2 v
  /\ stage_saved "Large misc. packages" (avail w2 - avail w) v.
Proof.
  unfold cleanup_packages.
  apply (rest_stage _ _ _
           (fun span before => bind (run_batch environ apt_commands)
                                 (fun _ => stage_tail span before "Large misc. packages"))).
  intros span before w1.
  destruct (rest_batch apt_commands 0 w1) as (w2 & v0 & Yb).
  destruct (rest_tail span before "Large misc. packages" w2) as (v & Y & Hsaved).
  exists w2, (v0 ++ v)%list. split.
  - eapply yields_bind_ok; [exact Yb | exact Y].
  - apply stage_saved_after, Hsaved.
Qed.

Lemma rest_cleanup_toolcache w : exists w2 v,
  yields (cleanup_toolcache environ) w (Ok tt) w2 v
  /\ stage_saved "Tool cache" (avail w2 - avail w) v.
Proof.
  unfold cleanup_toolcache.
  apply (rest_stage _ _ _
           (fun span before =>
              bind (when (Py.truthy (environ_get environ "AGENT_TOOLSDIRECTORY" EmptyString))
                      (bind (set_data span "agent_tools_dir"
                               (VStr (environ_get environ "AGENT_TOOLSDIRECTORY" EmptyString)))
                         (fun _ => bind (run_command environ
                                           ["sudo"; "rm"; "-rf";
                                            environ_get environ "AGENT_TOOLSDIRECTORY" EmptyString] None)
                                     (fun _ => ret tt))))
                (fun _ => stage_tail span before "Tool cache"))).
  intros span before w1. destruct Hrest as (_ & _ & Hall).
  destruct (environ_get environ "AGENT_TOOLSDIRECTORY" EmptyString) as [|c dir]; simpl.
  - destruct (rest_tail span before "Tool cache" w1) as (v & Y & Hsaved).
    exists w1, ([] ++ v)%list. split; [|exact Hsaved].
    eapply yields_bind_ok; [apply yields_ret | exact Y].
  - destruct (Hall ["sudo"; "rm"; "-rf"; String c dir] w1) as (rc & out & w2 & Hs).
    destruct (rest_tail span before "Tool cache" w2) as (v & Y & Hsaved).
    eexists w2, (_ ++ v)%list. split; [|apply stage_saved_after, Hsaved].
    eapply yields_bind_ok; [|exact Y].
    eapply yields_bind_ok; [apply (yields_set_data Hq)|].
    eapply yields_bind_ok; [apply (yields_run_command environ Hq), Hs|].
    apply yields_ret.
Qed.

(** One optional stage followed by the rest, on a host at rest. *)
Lemma rest_stage_then (s : StageSpec) (body rest : M unit) (l : list StageSpec) :
  (forall w, exists w2 v, yields body w (Ok tt) w2 v
                          /\ stage_saved (title s) (avail w2 - avail w) v) ->
  (forall w, exists w' v savings,
      yields rest w (Ok tt) w' v
      /\ seq_saved (filter (enabled environ) l) savings v
      /\ Zsum savings = avail w' - avail w) ->
  forall w, exists w' v savings,
    yields (bind (when (get_input environ (flag s) (default s)) body) (fun _ => rest))
      w (Ok tt) w' v
    /\ seq_saved (filter (enabled environ) (s :: l)) savings v
    /\ Zsum savings = avail w' - avail w.
Proof.
  intros Hb Hr w. simpl. unfold enabled at 1.
  destruct (get_input environ (flag s) (default s)); simpl.
  - destruct (Hb w) as (w1 & v1 & Y1 & S1).
    destruct (Hr w1) as (w2 & v2 & savings & Y2 & S2 & E2).
    exists w2, (v1 ++ v2)%list, ((avail w1 - avail w) :: savings). split; [|split].
    + eapply yields_bind_ok; eassumption.
    + exists (avail w1 - avail w), savings, v1, v2. auto.
    + simpl. lia.
  - destruct (Hr w) as (w2 & v2 & savings & Y2 & S2 & E2).
    exists w2, ([] ++ v2)%list, savings. split; [|auto].
    eapply yields_bind_ok; [apply yields_ret | exact Y2].
Qed.

Lemma rest_stage_last (s : StageSpec) (body : M unit) :
  (forall w, exists w2 v, yields body w (Ok tt) w2 v
                          /\ stage_saved (title s) (avail w2 - avail w) v) ->
  forall w, exists w' v savings,
    yields (when (get_input environ (flag s) (default s)) body) w (Ok tt) w' v
    /\ seq_saved (filter (enabled environ) [s]) savings v
    /\ Zsum savings = avail w' - avail w.
Proof.
  intros Hb w. simpl. unfold enabled.
  destruct (get_input environ (flag s) (default s)); simpl.
  - destruct (Hb w) as (w1 & v1 & Y1 & S1).
    exists w1, v1, [avail w1 - avail w]. split; [exact Y1|split].
    + exists (avail w1 - avail w), [], v1, []. rewrite app_nil_r. auto.
    + simpl. lia.
  - exists w, [], []. split; [apply yields_ret|split; [auto | simpl; lia]].
Qed.

Lemma rest_cleanup_stages w : exists w' v savings,
  yields (cleanup_stages environ) w (Ok tt) w' v
  /\ seq_saved (filter (enabled environ) (stage_table environ)) savings v
  /\ Zsum savings = avail w' - avail w.
Proof.
  revert w. unfold cleanup_stages, stage_table.
  apply (rest_stage_then (mkStage _ _ _ _));
    [intros w; apply (rest_ops_stage _ _ "Android library"
                        [["sudo"; "rm"; "-rf"; "/usr/local/lib/android"]])|].
  apply (rest_stage_then (mkStage _ _ _ _));
    [intros w; apply (rest_ops_stage _ _ ".NET runtime"
                        [["sudo"; "rm"; "-rf"; "/usr/share/dotnet"]])|].
  apply (rest_stage_then (mkStage _ _ _ _));
    [intros w; apply (rest_ops_stage _ _ "Haskell runtime"
                        [["sudo"; "rm"; "-rf"; "/opt/ghc"];
                         ["sudo"; "rm"; "-rf"; "/usr/local/.ghcup"]])|].
  apply (rest_stage_then (mkStage _ _ _ _)); [apply rest_cleanup_packages|].
  apply (rest_stage_then (mkStage _ _ _ _));
    [intros w; apply (rest_ops_stage _ _ "Docker images"
                        [["sudo"; "docker"; "image"; "prune"; "--all"; "--force"]])|].
  apply (rest_stage_then (mkStage _ _ _ _)); [apply rest_cleanup_toolcache|].
  apply (rest_stage_last (mkStage _ _ _ _)).
  intros w. apply (rest_ops_stage _ _ "Swap storage"
                     [["sudo"; "swapoff"; "-a"]; ["sudo"; "rm"; "-f"; "/mnt/swapfile"];
                      ["free"; "-h"]]).
Qed.

Lemma rest_main w0 : exists w1 savings vi vs v1 rc out v2,
  yields (main environ) w0 (Ok tt) w1
    (vi ++ vs ++ v1 ++ EvPrint "overall:" :: tr_saved (Zsum savings) None rc out ++ v2)
  /\ seq_saved (filter (enabled environ) (stage_table environ)) savings vs
  /\ Zsum savings = avail w1 - avail w0.
Proof.
  destruct (rest_probe w0) as (rc0 & out0 & Y0).
  destruct (rest_probe_root w0) as (r0 & rc0' & out0' & Y0').
  destruct (rest_dh "B" "EFORE CLEAN-UP:" w0) as (vd0 & Yd0).
  destruct (rest_cleanup_stages w0) as (w1 & vs & savings & Ys & Hseq & Hsum).
  destruct (rest_probe w1) as (rc1 & out1 & Y1).
  destruct (rest_probe_root w1) as (r1 & rc1' & out1' & Y1').
  destruct (rest_format (avail w1 - avail w0) w1) as (rcf & outf & Yf).
  destruct (rest_dh "A" "FTER CLEAN-UP:" w1) as (vd1 & Yd1).
  destruct (rest_saved (r1 - r0) None w1) as (rcr & outr & Yr).
  destruct (rest_saved (avail w1 - avail w0) None w1) as (rct & outt & Yt).
  exists w1, savings,
    (tr_probe None rc0 out0 ++ tr_probe (Some "/") rc0' out0' ++ vd0
     ++ [EvPrint EmptyString])%list,
    vs,
    (tr_probe None rc1 out1 ++ tr_probe (Some "/") rc1' out1'
     ++ tr_format (avail w1 - avail w0) rcf outf ++ [EvPrint EmptyString] ++ vd1
     ++ [EvPrint EmptyString; EvPrint EmptyString; EvPrint "/dev/root:"]
     ++ tr_saved (r1 - r0) None rcr outr)%list,
    rct, outt, (tr_format (avail w1 - avail w0) rcf outf).
  rewrite Hsum. split; [|auto].
  eapply yields_conv.
  - unfold main, cleanup_init, cleanup_stats. apply (yields_with_ctx Hq).
    eapply yields_bind_ok.
    { apply (yields_with_span Hq).
      eapply yields_bind_ok; [exact Y0|].
      eapply yields_bind_ok; [exact Y0'|].
      repeat (eapply yields_bind_ok; [apply (yields_set_data Hq)|]).
      eapply yields_bind_ok; [exact Yd0|].
      eapply yields_bind_ok; [apply yields_print|]. apply yields_ret. }
    eapply yields_bind_ok; [exact Ys|].
    eapply yields_bind_ok.
    { apply (yields_with_span Hq).
      eapply yields_bind_ok; [exact Y1|].
      eapply yields_bind_ok; [exact Y1'|].
      repeat (eapply yields_bind_ok; [apply (yields_set_data Hq)|]).
      eapply yields_bind_ok; [exact Yf|].
      eapply yields_bind_ok; [apply (yields_set_data Hq)|].
      eapply yields_bind_ok; [apply yields_print|].
      eapply yields_bind_ok; [exact Yd1|].
      repeat (eapply yields_bind_ok; [apply yields_print|]).
      eapply yields_bind_ok; [exact Yr|].
      eapply yields_bind_ok; [apply yields_print|].
      eapply yields_bind_ok; [exact Yt|].
      apply yields_ret. }
    cbn [fst snd].
    eapply yields_bind_ok; [apply (yields_sdk Hq)|].
    eapply yields_bind_ok; [apply (yields_set_data Hq)|].
    eapply yields_bind_ok; [exact Yf|].
    apply (yields_set_data Hq).
  - simpl. rewrite ?app_nil_r, <- ?app_assoc. simpl.
    rewrite ?app_nil_r, <- ?app_assoc. reflexivity.
Qed.

End AtRest.

Lemma at_rest_demo : @at_rest demo_os demo_avail.
Proof.
  split; [|split].
  - intros w. eexists _, _. split; reflexivity.
  - intros cmd w [[<-|[<-|[]]]|[kb ->]]; eexists _, _; reflexivity.
  - exact all_started_demo.
Qed.

(** X14. On a host at rest, where the measuring commands change nothing
    and the measurement over all mounts reads [avail], and where every
    command starts, [main] returns, each enabled stage reports an amount
    under its title, in the order of the table, and these amounts add up
    to the amount reported after "overall:", which is what [avail] gained
    between the start and the end of the run. *)
Theorem stage_savings_add_up_to_total
  {os : OS} {sentry : Sentry} (Hq : quiet)
  (environ : string -> option string) (avail : World -> Z)
  (Hrest : at_rest avail) (w0 : World) :
  exists w1 savings vi vs v1 rc out v2,
    yields (main environ) w0 (Ok tt) w1
      (vi ++ vs ++ v1
       ++ EvPrint "overall:" :: tr_saved (Zsum savings) None rc out ++ v2)
    /\ seq_saved (filter (enabled environ) (stage_table environ)) savings vs
    /\ Zsum savings = avail w1 - avail w0.
Proof. exact (rest_main Hq environ avail Hrest w0). Qed.

Lemma stage_savings_add_up_to_total_witness :
  exists w1 savings vi vs v1 rc out v2,
    @yields demo_os noop_sentry _ (main no_environ) 5000 (Ok tt) w1
      (vi ++ vs ++ v1
       ++ EvPrint "overall:" :: tr_saved (Zsum savings) None rc out ++ v2)
    /\ seq_saved (filter (enabled no_environ) (stage_table no_environ)) savings vs
    /\ Zsum savings = demo_avail w1 - demo_avail 5000.
Proof.
  exact (@stage_savings_add_up_to_total demo_os noop_sentry quiet_noop
           no_environ demo_avail at_rest_demo 5000).
Defined.

(** *** What a stage hands to the formatter *)

(** X15. Each of the seven stages measures before and after its
    operations, and the amount it hands to [numfmt], once for the
    telemetry and once for its banner, is the second measurement minus
    the first, as a signed integer: the numeral starts with a minus sign
    exactly when the second measurement is the smaller one. *)
Theorem stage_saved_is_signed_difference
  {os : OS} {sentry : Sentry} (Hq : quiet) (Hall : all_started)
  (environ : string -> option string) :
  Forall2 (fun (stage : M unit) s =>
             returns stage (fun _ v =>
               exists rcb outb vo rca outa rcf outf rcs outs,
                 let before := measure outb in
                 let after := measure outa in
                 let saved := after - before in
                 v = (tr_probe None rcb outb ++ vo ++ tr_probe None rca outa
                      ++ tr_format saved rcf outf
                      ++ tr_saved saved (Some (title s)) rcs outs)%list
                 /\ operations s vo))
    [cleanup_android environ; cleanup_dotnet environ; cleanup_haskell environ;
     cleanup_packages environ; cleanup_docker environ; cleanup_toolcache environ;
     cleanup_swap environ]
    (stage_table environ)
  /\ (forall before after, after < before ->
        exists r, last (numfmt_cmd (after - before)) EmptyString = String "-" r)
  /\ (forall before after r, before <= after ->
        last (numfmt_cmd (after - before)) EmptyString <> String "-" r).
Proof.
  assert (Hstage : forall (stage : M unit) t P,
             returns stage (stage_post t P) ->
             returns stage (fun _ v =>
               exists rcb outb vo rca outa rcf outf rcs outs,
                 v = (tr_probe None rcb outb ++ vo ++ tr_probe None rca outa
                      ++ tr_format (measure outa - measure outb) rcf outf
                      ++ tr_saved (measure outa - measure outb) (Some t) rcs outs)%list
                 /\ P vo)).
  { intros stage t P H. eapply returns_weaken; [exact H|].
    intros [] v (before & after & vb & vo & va & vf & vs & -> & (rcb & outb & -> & Eb)
                 & Ho & (rca & outa & -> & Ea) & [f (rcf & outf & -> & _)]
                 & (rcs & outs & ->)).
    subst. exists rcb, outb, vo, rca, outa, rcf, outf, rcs, outs. auto. }
  split; [|split].
  - unfold stage_table.
    repeat (apply Forall2_cons; [cbv zeta; cbn [title operations]; apply Hstage|]);
      [ apply (returns_cleanup_android environ Hq Hall)
      | apply (returns_cleanup_dotnet environ Hq Hall)
      | apply (returns_cleanup_haskell environ Hq Hall)
      | apply (returns_cleanup_packages environ Hq Hall)
      | apply (returns_cleanup_docker environ Hq Hall)
      | apply (returns_cleanup_toolcache environ Hq Hall)
      | apply (returns_cleanup_swap environ Hq Hall)
      | constructor ].
  - intros before after H. destruct (str_negative (after - before)) as [r Hr]; [lia|].
    unfold numfmt_cmd. cbn [last]. rewrite Hr. simpl. eauto.
  - intros before after r H E. unfold numfmt_cmd in E. cbn [last] in E.
    destruct (Py.str (after - before)) as [|c s] eqn:Es; [discriminate|].
    simpl in E. inversion E; subst.
    apply (str_nonnegative (after - before) s); [lia | exact Es].
Qed.

Lemma stage_saved_is_signed_difference_witness :
  @returns demo_os noop_sentry _ (cleanup_docker no_environ) (fun _ v =>
    exists rcb outb vo rca outa rcf outf rcs outs,
      v = (tr_probe None rcb outb ++ vo ++ tr_probe None rca outa
           ++ tr_format (measure outa - measure outb) rcf outf
           ++ tr_saved (measure outa - measure outb) (Some "Docker images") rcs outs)%list
      /\ ops_post [["sudo"; "docker"; "image"; "prune"; "--all"; "--force"]] vo).
Proof.
  pose proof (proj1 (@stage_saved_is_signed_difference demo_os noop_sentry
                       quiet_noop all_started_demo no_environ)) as H.
  unfold stage_table in H.
  inversion H as [|? ? ? ? _ H1]; subst; clear H.
  inversion H1 as [|? ? ? ? _ H2]; subst; clear H1.
  inversion H2 as [|? ? ? ? _ H3]; subst; clear H2.
  inversion H3 as [|? ? ? ? _ H4]; subst; clear H3.
  inversion H4 as [|? ? ? ? H5 _]; subst; clear H4.
  exact H5.
Defined.
